(** * bsource-database-backup: a shallow embedding of the backup pipeline

    The development follows the three source modules:
    - [db_dumper.py]        the dump engines ([DatabaseDumper] and its
                            subclasses) and their factory;
    - [storage_provider.py] the storage back ends ([StorageProvider],
                            [R2Storage], [S3Storage]) and their factory;
    - [email_helper.py] and [main.py]  the notifier and the orchestration
                            routine [gerar_backup].

    Python values are modelled as follows.  A [str] is a [string] (a byte
    string: the non-ASCII characters of the log messages are their UTF-8
    bytes).  The result of [os.getenv] is an [option string].  A [dict] with
    string keys is a [gmap string _].  [os.environ], the set of existing
    files, the clock, the memoised [_client] attribute of the storage object
    and everything the program sends out (log records, child processes,
    object-store requests, e-mails) live in a [world] that every effectful
    function threads through; exceptions are a result constructor.  What the
    operating system and the network answer is given by a record of
    [externals], which every theorem quantifies over.

    Only exceptions deriving from [Exception] are modelled; asynchronous
    interrupts ([KeyboardInterrupt], [SystemExit]) are outside the model. *)

From Stdlib Require Import Ascii String ZArith.
From stdpp Require Import base strings gmap list pretty.

Open Scope string_scope.

(** ** Python primitives *)

Module Py.

(** Truth value of an [Optional[str]]: [None] and the empty string are
    false. *)
Definition truthy (o : option string) : bool :=
  match o with
  | Some s => negb (String.eqb s "")
  | None => false
  end.

(** Builtin [all] on a list of truth values. *)
Definition all (l : list bool) : bool := forallb id l.

(** [x or d] on an [Optional[str]]. *)
Definition or_else (o : option string) (d : string) : string :=
  match o with
  | Some s => if String.eqb s "" then d else s
  | None => d
  end.

(** The value a constructor stores for an argument it has found truthy. *)
Definition the (o : option string) : string := default "" o.

(** An f-string field whose value may be [None]. *)
Definition fmt (o : option string) : string := default "None" o.

(** [s.rstrip("/")]: all trailing slashes are removed. *)
Fixpoint rstrip_slash (s : string) : string :=
  match s with
  | EmptyString => EmptyString
  | String c r =>
      match rstrip_slash r with
      | EmptyString => if Ascii.eqb c "/"%char then EmptyString else String c EmptyString
      | r' => String c r'
      end
  end.

(** [str.lower], for text whose letters are ASCII: the letters [A] to [Z]
    become [a] to [z] and every other byte is kept.  (The lower case of the
    other alphabets is a table of the interpreter's Unicode version; the
    properties that read a lower-cased value say which values they cover.) *)
Definition lower_ascii (c : ascii) : ascii :=
  let n := nat_of_ascii c in
  if (65 <=? n)%nat && (n <=? 90)%nat then ascii_of_nat (n + 32) else c.

Fixpoint lower (s : string) : string :=
  match s with
  | EmptyString => EmptyString
  | String c r => String (lower_ascii c) (lower r)
  end.

(** [str.strip]: the characters for which [str.isspace] holds are removed
    at both ends.  In UTF-8 they are the bytes 9 to 13 and 28 to 32, the two
    bytes of U+0085 and U+00A0, and the three bytes of U+1680, U+2000 to
    U+200A, U+2028, U+2029, U+202F, U+205F and U+3000. *)
Definition isspace (c : ascii) : bool :=
  let n := nat_of_ascii c in
  ((9 <=? n)%nat && (n <=? 13)%nat) || ((28 <=? n)%nat && (n <=? 32)%nat).

Definition isspace2 (c1 c2 : ascii) : bool :=
  let n2 := nat_of_ascii c2 in
  (nat_of_ascii c1 =? 194)%nat && ((n2 =? 133)%nat || (n2 =? 160)%nat).

Definition isspace3 (c1 c2 c3 : ascii) : bool :=
  let n1 := nat_of_ascii c1 in
  let n2 := nat_of_ascii c2 in
  let n3 := nat_of_ascii c3 in
  ((n1 =? 225)%nat && (n2 =? 154)%nat && (n3 =? 128)%nat) ||
  ((n1 =? 226)%nat && (n2 =? 128)%nat &&
   (((128 <=? n3)%nat && (n3 <=? 138)%nat) ||
    (n3 =? 168)%nat || (n3 =? 169)%nat || (n3 =? 175)%nat)) ||
  ((n1 =? 226)%nat && (n2 =? 129)%nat && (n3 =? 159)%nat) ||
  ((n1 =? 227)%nat && (n2 =? 128)%nat && (n3 =? 128)%nat).

Fixpoint lstrip (s : string) : string :=
  match s with
  | EmptyString => EmptyString
  | String c1 r1 =>
      if isspace c1 then lstrip r1
      else
        match r1 with
        | EmptyString => s
        | String c2 r2 =>
            if isspace2 c1 c2 then lstrip r2
            else
              match r2 with
              | EmptyString => s
              | String c3 r3 => if isspace3 c1 c2 c3 then lstrip r3 else s
              end
        end
  end.

(** A string of white space only is stripped to nothing; otherwise the
    first byte stays and the rest is stripped on the right. *)
Fixpoint rstrip (s : string) : string :=
  match s with
  | EmptyString => EmptyString
  | String c r => if String.eqb (lstrip s) "" then EmptyString else String c (rstrip r)
  end.

Definition strip (s : string) : string := rstrip (lstrip s).

(** [", ".join(l)]. *)
Fixpoint join (sep : string) (l : list string) : string :=
  match l with
  | [] => ""
  | [x] => x
  | x :: r => x +:+ sep +:+ join sep r
  end.

(** [p in s] for strings. *)
Fixpoint contains (p s : string) : bool :=
  String.prefix p s ||
  match s with
  | EmptyString => false
  | String _ r => contains p r
  end.

(** Decimal digits, as [%02d], [%04d] and [%06d] print a number that fits
    the width. *)
Definition digit (n : Z) : ascii :=
  match (n mod 10)%Z with
  | 0%Z => "0" | 1%Z => "1" | 2%Z => "2" | 3%Z => "3" | 4%Z => "4"
  | 5%Z => "5" | 6%Z => "6" | 7%Z => "7" | 8%Z => "8" | _ => "9"
  end%char.

Definition pad2 (n : Z) : string :=
  String (digit (n / 10)) (String (digit n) EmptyString).

Definition pad4 (n : Z) : string :=
  String (digit (n / 1000)) (String (digit (n / 100)) (pad2 n)).

Definition pad6 (n : Z) : string :=
  String (digit (n / 100000)) (String (digit (n / 10000)) (pad4 n)).

(** The double quote character. *)
Definition dquote : ascii := ascii_of_nat 34.

Definition isdigit (c : ascii) : bool :=
  let n := nat_of_ascii c in (48 <=? n)%nat && (n <=? 57)%nat.

End Py.

(** ** Dates and times *)

(** A timezone-aware [datetime], as [datetime.now(tz)] returns it.  The
    type keeps the ranges of [datetime]: years 1 to 9999 and so on (see
    [wf_datetime]). *)
Record datetime := Datetime {
  year : Z; month : Z; day : Z;
  hour : Z; minute : Z; second : Z;
  microsecond : Z;
  utcoffset : Z            (* minutes east of UTC *)
}.

Definition wf_datetime (t : datetime) : Prop :=
  (1 <= year t <= 9999 /\ 1 <= month t <= 12 /\ 1 <= day t <= 31 /\
   0 <= hour t < 24 /\ 0 <= minute t < 60 /\ 0 <= second t < 60 /\
   0 <= microsecond t < 1000000)%Z.

(** [t.strftime("%Y%m%d")] *)
Definition strftime_Ymd (t : datetime) : string :=
  Py.pad4 (year t) +:+ Py.pad2 (month t) +:+ Py.pad2 (day t).

(** [t.strftime("%Y%m%d_%H%M%S")] *)
Definition strftime_Ymd_HMS (t : datetime) : string :=
  strftime_Ymd t +:+ "_" +:+
  Py.pad2 (hour t) +:+ Py.pad2 (minute t) +:+ Py.pad2 (second t).

(** [t.strftime("%d/%m/%Y às %H:%M:%S")] *)
Definition strftime_br (t : datetime) : string :=
  Py.pad2 (day t) +:+ "/" +:+ Py.pad2 (month t) +:+ "/" +:+ Py.pad4 (year t) +:+
  " às " +:+
  Py.pad2 (hour t) +:+ ":" +:+ Py.pad2 (minute t) +:+ ":" +:+ Py.pad2 (second t).

(** [t.isoformat()] *)
Definition isoformat (t : datetime) : string :=
  Py.pad4 (year t) +:+ "-" +:+ Py.pad2 (month t) +:+ "-" +:+ Py.pad2 (day t) +:+
  "T" +:+
  Py.pad2 (hour t) +:+ ":" +:+ Py.pad2 (minute t) +:+ ":" +:+ Py.pad2 (second t) +:+
  (if (microsecond t =? 0)%Z then "" else "." +:+ Py.pad6 (microsecond t)) +:+
  (if (utcoffset t <? 0)%Z then "-" else "+") +:+
  Py.pad2 (Z.abs (utcoffset t) / 60) +:+ ":" +:+
  Py.pad2 (Z.abs (utcoffset t) mod 60).

(** ** Exceptions *)

(** The exception classes the program raises or catches.  Library
    exceptions carry the text [str(e)] gives; [CalledProcessError] carries
    the attributes [subprocess.run] stores, and [ClientError] the error code
    of its response, when it has one. *)
Inductive exn :=
| ValueError (msg : string)
| FileNotFoundError (msg : string)
| CalledProcessError (returncode : Z) (cmd : string)
| ClientError (code : option string) (msg : string)
| NoCredentialsError (msg : string)
| OtherError (cls : string) (msg : string).

(** [CalledProcessError.__str__]: the command is part of the text.  A
    negative return code is the number of the signal that killed the child;
    [signals] is the platform's table of signal names, as [repr] prints
    them. *)
Definition str_exn (signals : Z -> option string) (e : exn) : string :=
  match e with
  | CalledProcessError rc cmd =>
      if (rc <? 0)%Z then
        match signals (- rc)%Z with
        | Some name => "Command '" +:+ cmd +:+ "' died with " +:+ name +:+ "."
        | None => "Command '" +:+ cmd +:+ "' died with unknown signal " +:+
                  pretty (- rc)%Z +:+ "."
        end
      else "Command '" +:+ cmd +:+ "' returned non-zero exit status " +:+
           pretty rc +:+ "."
  | ValueError msg | FileNotFoundError msg | ClientError _ msg
  | NoCredentialsError msg | OtherError _ msg => msg
  end.

(** ** The world *)

Inductive level := INFO | WARNING | ERROR.

(** Keyword arguments of [boto3.client("s3", ...)]; [ca_endpoint_url] is
    [None] when the keyword is not passed. *)
Record client_args := ClientArgs {
  ca_endpoint_url : option string;
  ca_access_key_id : string;
  ca_secret_access_key : string;
  ca_region_name : string
}.

(** The message [enviar_email] is asked to send: the subject and the body
    it is called with, sender and recipient as it reads them from
    [EMAIL_FROM] and [EMAIL_TO]. *)
Record email := Email {
  From_ : option string;
  To_ : option string;
  Subject : string;
  payload : string
}.

(** What the program does to the outside, in order.  [EvEmail msg] is a
    call of the notifier: an attempt to deliver [msg], whether or not the
    message reaches the server. *)
Inductive event :=
| EvLog (logger : string) (lvl : level) (msg : string)
| EvSubprocess (command : string) (env : gmap string string)
| EvBoto3Client (args : client_args)
| EvS3Upload (client : client_args) (local_filepath bucket key : string)
    (extra_args : gmap string (gmap string string))
| EvS3List (client : client_args) (bucket : string) (max_keys : Z)
| EvEmail (msg : email)
| EvRemove (path : string).

Record world := World {
  environ : gmap string string;     (* os.environ *)
  files : gset string;              (* the paths for which os.path.exists holds *)
  clock : nat;                      (* number of readings of the clock so far *)
  _client : option client_args;     (* the storage object's memoised client *)
  trace : list event                (* oldest first *)
}.

Definition set_environ (f : gmap string string -> gmap string string) (w : world) : world :=
  World (f (environ w)) (files w) (clock w) (_client w) (trace w).
Definition set_files (f : gset string -> gset string) (w : world) : world :=
  World (environ w) (f (files w)) (clock w) (_client w) (trace w).
Definition tick (w : world) : world :=
  World (environ w) (files w) (S (clock w)) (_client w) (trace w).
Definition set_client (c : option client_args) (w : world) : world :=
  World (environ w) (files w) (clock w) c (trace w).
Definition emit (e : event) (w : world) : world :=
  World (environ w) (files w) (clock w) (_client w) (trace w ++ [e]).

(** The outcome of [subprocess.run(command, shell=True)]: the shell could
    not be started, or the child ran, left the files [files'] behind and
    exited with [returncode]. *)
Inductive proc_result :=
| Exited (returncode : Z) (files' : gset string)
| SpawnFailed (e : exn).

(** What the environment answers.  Every answer may depend on the whole
    world at the time of the call.  [smtp_send] is the exception, if any, in
    which an attempt to deliver a message ends. *)
Record externals := Externals {
  signals : Z -> option string;
  pytz_known : string -> bool;
  datetime_now : string -> world -> datetime;
  subprocess_run : string -> world -> proc_result;
  boto3_client : client_args -> world -> option exn;
  s3_upload_file : client_args -> string -> string -> string ->
                   gmap string (gmap string string) -> world -> option exn;
  s3_list_objects_v2 : client_args -> string -> Z -> world -> option exn;
  os_remove : string -> world -> option exn;
  smtp_send : email -> world -> option exn
}.

(** ** Effectful code: state and exceptions *)

Inductive result (A : Type) :=
| Return (a : A)
| Raise (e : exn).
Arguments Return {A} a.
Arguments Raise {A} e.

Definition M (A : Type) : Type := world -> result A * world.

Definition ret {A} (a : A) : M A := fun w => (Return a, w).
Definition raise {A} (e : exn) : M A := fun w => (Raise e, w).
Definition bind {A B} (m : M A) (k : A -> M B) : M B :=
  fun w => match m w with
           | (Return a, w') => k a w'
           | (Raise e, w') => (Raise e, w')
           end.
Definition lift_result {A} (r : result A) : M A := fun w => (r, w).
Definition get : M world := fun w => (Return w, w).
Definition modify (f : world -> world) : M unit := fun w => (Return tt, f w).

Notation "x <- m ;; k" := (bind m (fun x => k))
  (at level 100, m at next level, right associativity).
Notation "m ;;; k" := (bind m (fun _ => k))
  (at level 100, right associativity).

(** [try: body except ...: handler].  [handler e] is [None] when no
    [except] clause matches [e]. *)
Definition try_except {A} (body : M A) (handler : exn -> option (M A)) : M A :=
  fun w => match body w with
           | (Return a, w') => (Return a, w')
           | (Raise e, w') =>
               match handler e with
               | Some h => h w'
               | None => (Raise e, w')
               end
           end.

(** [try: body finally: fin].  An exception of [fin] replaces the outcome
    of [body]. *)
Definition try_finally {A} (body : M A) (fin : M unit) : M A :=
  fun w => match body w with
           | (r, w') =>
               match fin w' with
               | (Return _, w'') => (r, w'')
               | (Raise e, w'') => (Raise e, w'')
               end
           end.

(** [logging.getLogger(name).info(msg)] and the like. *)
Definition log (logger : string) (lvl : level) (msg : string) : M unit :=
  modify (emit (EvLog logger lvl msg)).

(** [os.getenv(k)] and [os.getenv(k, d)] *)
Definition getenv (env : gmap string string) (k : string) : option string := env !! k.
Definition getenv_default (env : gmap string string) (k d : string) : string :=
  default d (env !! k).

(** [os.path.exists(path)] *)
Definition os_path_exists (path : string) : M bool :=
  fun w => (Return (bool_decide (path ∈ files w)), w).

(** [datetime.now(tz)]: one reading of the clock. *)
Definition now (ext : externals) (zone : string) : M datetime :=
  fun w => (Return (datetime_now ext zone w), tick w).

(** [subprocess.run(command, shell=True, check=True)] *)
Definition run_checked (ext : externals) (command : string) : M unit :=
  fun w =>
    let w1 := emit (EvSubprocess command (environ w)) w in
    match subprocess_run ext command w with
    | SpawnFailed e => (Raise e, w1)
    | Exited rc files' =>
        let w2 := set_files (fun _ => files') w1 in
        if (rc =? 0)%Z then (Return tt, w2)
        else (Raise (CalledProcessError rc command), w2)
    end.

(** * db_dumper.py *)

Inductive dumper_class := PostgresDumper | MySQLDumper | MSSQLDumper.

Record DatabaseDumper := Dumper {
  cls : dumper_class;
  host : string;
  port : string;
  user : string;
  password : string;
  database : string;
  db_type : string
}.

(** [DatabaseDumper.__init__] *)
Definition DatabaseDumper_init (c : dumper_class)
    (host port user password database : option string) (db_type : string)
  : result DatabaseDumper :=
  if negb (Py.all (map Py.truthy [host; port; user; password; database])) then
    Raise (ValueError
      ("Configurações de base de dados incompletas. " +:+
       "Verifique DB_HOST, DB_PORT, DB_USER, DB_PASSWORD e DB_DATABASE."))
  else
    Return (Dumper c (Py.the host) (Py.the port) (Py.the user)
                   (Py.the password) (Py.the database) db_type).

Definition PostgresDumper_init (host port user password database : option string) :=
  DatabaseDumper_init PostgresDumper host port user password database "postgres".

Definition MySQLDumper_init (host port user password database : option string)
    (db_type : string) :=
  DatabaseDumper_init MySQLDumper host port user password database db_type.

Definition MSSQLDumper_init (host port user password database : option string) :=
  DatabaseDumper_init MSSQLDumper host port user password database "mssql".

(** [DatabaseDumper.get_metadata] *)
Definition get_metadata (d : DatabaseDumper) : gmap string string :=
  <["uploaded-by" := "bsource-db-backup"]>
  (<["database" := database d]>
  (<["backup-type" := db_type d]> ∅)).

(** [get_file_extension], one method per class. *)
Definition get_file_extension (d : DatabaseDumper) : string :=
  match cls d with
  | PostgresDumper => ".sql"
  | MySQLDumper => ".sql"
  | MSSQLDumper => ".bak"
  end.

Section dump.
Context (ext : externals).

Definition PostgresDumper_dump (d : DatabaseDumper) (output_path : string) : M string :=
  modify (set_environ <["PGPASSWORD" := password d]>) ;;;
  let command :=
    "pg_dump -h " +:+ host d +:+ " -p " +:+ port d +:+ " -U " +:+ user d +:+ " " +:+
    "-F c -b -v -f " +:+ output_path +:+ " " +:+ database d in
  log "backup.db" INFO ("Executando: " +:+ command) ;;;
  run_checked ext command ;;;
  ret output_path.

Definition MySQLDumper_dump (d : DatabaseDumper) (output_path : string) : M string :=
  let command :=
    "mysqldump --host=" +:+ host d +:+ " --port=" +:+ port d +:+ " " +:+
    "--user=" +:+ user d +:+ " --password=" +:+ password d +:+ " " +:+
    "--single-transaction --routines --triggers " +:+
    "--databases " +:+ database d +:+ " " +:+
    "--result-file=" +:+ output_path in
  log "backup.db" INFO
    ("Executando: mysqldump --host=" +:+ host d +:+ " --port=" +:+ port d +:+ " " +:+
     "--user=" +:+ user d +:+ " --password=****** " +:+
     "--single-transaction --routines --triggers " +:+
     "--databases " +:+ database d +:+ " --result-file=" +:+ output_path) ;;;
  run_checked ext command ;;;
  ret output_path.

Definition MSSQLDumper_dump (d : DatabaseDumper) (output_path : string) : M string :=
  let backup_query :=
    "BACKUP DATABASE [" +:+ database d +:+ "] " +:+
    "TO DISK = N'" +:+ output_path +:+ "' " +:+
    "WITH FORMAT, INIT, COMPRESSION, " +:+
    "NAME = N'" +:+ database d +:+ "-backup'" in
  let command :=
    "sqlcmd -S " +:+ host d +:+ "," +:+ port d +:+ " " +:+
    "-U " +:+ user d +:+ " -P " +:+ password d +:+ " " +:+
    "-Q " +:+ String Py.dquote (backup_query +:+ String Py.dquote " -C") in
  log "backup.db" INFO
    ("Executando: sqlcmd -S " +:+ host d +:+ "," +:+ port d +:+ " " +:+
     "-U " +:+ user d +:+ " -P ****** -Q " +:+
     String Py.dquote ("BACKUP DATABASE ..." +:+ String Py.dquote " -C")) ;;;
  run_checked ext command ;;;
  ret output_path.

(** [dumper.dump(output_path)]: dispatch on the class of the object. *)
Definition dump (d : DatabaseDumper) (output_path : string) : M string :=
  match cls d with
  | PostgresDumper => PostgresDumper_dump d output_path
  | MySQLDumper => MySQLDumper_dump d output_path
  | MSSQLDumper => MSSQLDumper_dump d output_path
  end.

End dump.

(** The factory. *)
Definition _DUMPER_MAP : list (string * dumper_class) :=
  [("postgres", PostgresDumper); ("mysql", MySQLDumper);
   ("mariadb", MySQLDumper); ("mssql", MSSQLDumper)].

Definition SUPPORTED_DB_TYPES : list string := map fst _DUMPER_MAP.

(** [d[k]] / [k in d] on a dictionary literal. *)
Fixpoint dict_get {V} (k : string) (d : list (string * V)) : option V :=
  match d with
  | [] => None
  | (k', v) :: r => if String.eqb k k' then Some v else dict_get k r
  end.

Definition create_dumper_from_env (env : gmap string string) : result DatabaseDumper :=
  let db_type := Py.strip (Py.lower (getenv_default env "DB_TYPE" "")) in
  match dict_get db_type _DUMPER_MAP with
  | None =>
      Raise (ValueError
        ("DB_TYPE '" +:+ db_type +:+ "' não suportado. " +:+
         "Valores aceitos: " +:+ Py.join ", " SUPPORTED_DB_TYPES))
  | Some dumper_class =>
      let host := getenv env "DB_HOST" in
      let port := getenv env "DB_PORT" in
      let user := getenv env "DB_USER" in
      let password := getenv env "DB_PASSWORD" in
      let database := getenv env "DB_DATABASE" in
      if String.eqb db_type "mysql" || String.eqb db_type "mariadb" then
        (* [dumper_class] is [MySQLDumper] for both keys *)
        MySQLDumper_init host port user password database db_type
      else
        match dumper_class with
        | PostgresDumper => PostgresDumper_init host port user password database
        | MySQLDumper => MySQLDumper_init host port user password database "mysql"
        | MSSQLDumper => MSSQLDumper_init host port user password database
        end
  end.

(** * storage_provider.py *)

Inductive storage_class := R2Storage | S3Storage.

(** A storage provider object.  [region] is [None] on an [R2Storage], which
    has no such attribute.  The mutable attribute [_client] is in the
    [world]. *)
Record StorageProvider := Storage {
  scls : storage_class;
  endpoint_url : option string;
  region : option string;
  access_key_id : string;
  secret_access_key : string;
  bucket_name : string;
  destination_folder : string
}.

(** [StorageProvider.__init__], called by the subclasses once they have set
    their own attributes. *)
Definition StorageProvider_init (c : storage_class) (endpoint_url region : option string)
    (access_key_id secret_access_key bucket_name destination_folder : option string)
  : result StorageProvider :=
  if negb (Py.all (map Py.truthy [access_key_id; secret_access_key; bucket_name])) then
    Raise (ValueError
      ("Configurações de storage incompletas. " +:+
       "Verifique STORAGE_ACCESS_KEY_ID, STORAGE_SECRET_ACCESS_KEY e STORAGE_BUCKET_NAME."))
  else
    Return (Storage c endpoint_url region
                    (Py.the access_key_id) (Py.the secret_access_key)
                    (Py.the bucket_name)
                    (Py.or_else destination_folder "backups/")).

(** [R2Storage.__init__] *)
Definition R2Storage_init
    (endpoint_url access_key_id secret_access_key bucket_name destination_folder : option string)
  : result StorageProvider :=
  if negb (Py.truthy endpoint_url) then
    Raise (ValueError "STORAGE_ENDPOINT_URL é obrigatório para Cloudflare R2.")
  else
    StorageProvider_init R2Storage endpoint_url None
      access_key_id secret_access_key bucket_name destination_folder.

(** [S3Storage.__init__] *)
Definition S3Storage_init
    (access_key_id secret_access_key bucket_name region endpoint_url destination_folder
       : option string)
  : result StorageProvider :=
  if negb (Py.truthy region) then
    Raise (ValueError "STORAGE_REGION é obrigatório para AWS S3 (ex: us-east-1).")
  else
    StorageProvider_init S3Storage endpoint_url region
      access_key_id secret_access_key bucket_name destination_folder.

(** The arguments [_create_client] passes to [boto3.client]. *)
Definition client_kwargs (sp : StorageProvider) : client_args :=
  match scls sp with
  | R2Storage =>
      ClientArgs (endpoint_url sp) (access_key_id sp) (secret_access_key sp) "auto"
  | S3Storage =>
      ClientArgs (if Py.truthy (endpoint_url sp) then endpoint_url sp else None)
                 (access_key_id sp) (secret_access_key sp) (Py.the (region sp))
  end.

(** The first part of [_build_destination_path]: the folder with exactly
    one slash after it, or nothing for an empty folder. *)
Definition base_folder (sp : StorageProvider) : string :=
  if Py.truthy (Some (destination_folder sp))
  then Py.rstrip_slash (destination_folder sp) +:+ "/"
  else "".

Section storage.
Context (ext : externals).

(** [_create_client] *)
Definition _create_client (sp : StorageProvider) : M client_args :=
  fun w =>
    let args := client_kwargs sp in
    let w1 := emit (EvBoto3Client args) w in
    match boto3_client ext args w with
    | Some e => (Raise e, w1)
    | None => (Return args, w1)
    end.

(** The property [client]: created on first use, then reused. *)
Definition client (sp : StorageProvider) : M client_args :=
  w <- get ;;
  match _client w with
  | None =>
      c <- _create_client sp ;;
      modify (set_client (Some c)) ;;;
      ret c
  | Some c => ret c
  end.

(** [_build_destination_path] *)
Definition _build_destination_path (sp : StorageProvider) (filename : string) : M string :=
  w <- get ;;
  let timezone_name := getenv_default (environ w) "TIMEZONE" "America/Sao_Paulo" in
  let timezone :=
    if pytz_known ext timezone_name then timezone_name else "America/Sao_Paulo" in
  local_time <- now ext timezone ;;
  let date_folder := strftime_Ymd local_time in
  ret (base_folder sp +:+ date_folder +:+ "/" +:+ filename).

(** [client.upload_file(local_filepath, bucket, key, ExtraArgs=extra_args)] *)
Definition boto_upload_file (c : client_args) (local_filepath bucket key : string)
    (extra_args : gmap string (gmap string string)) : M unit :=
  fun w =>
    let w1 := emit (EvS3Upload c local_filepath bucket key extra_args) w in
    match s3_upload_file ext c local_filepath bucket key extra_args w with
    | Some e => (Raise e, w1)
    | None => (Return tt, w1)
    end.

(** [client.list_objects_v2(Bucket=bucket, MaxKeys=1)] *)
Definition boto_list_objects_v2 (c : client_args) (bucket : string) (max_keys : Z) : M unit :=
  fun w =>
    let w1 := emit (EvS3List c bucket max_keys) w in
    match s3_list_objects_v2 ext c bucket max_keys w with
    | Some e => (Raise e, w1)
    | None => (Return tt, w1)
    end.

(** The [except] clauses of [upload_file]: each logs and re-raises. *)
Definition upload_handler (e : exn) : M string :=
  match e with
  | ClientError code _ =>
      log "backup.storage" ERROR ("❌ Erro do cliente storage: " +:+ default "Unknown" code) ;;;
      raise e
  | NoCredentialsError _ =>
      log "backup.storage" ERROR "❌ Credenciais de storage inválidas ou ausentes" ;;;
      raise e
  | _ =>
      log "backup.storage" ERROR
        ("❌ Erro inesperado no upload: " +:+ str_exn (signals ext) e) ;;;
      raise e
  end.

(** [upload_file] *)
Definition upload_file (sp : StorageProvider) (local_filepath filename : string)
    (metadata : option (gmap string string)) : M string :=
  found <- os_path_exists local_filepath ;;
  if negb found then
    raise (FileNotFoundError ("Arquivo não encontrado: " +:+ local_filepath))
  else
    destination_path <- _build_destination_path sp filename ;;
    let extra_args : gmap string (gmap string string) :=
      match metadata with
      | Some md => if bool_decide (md = ∅) then ∅ else <["Metadata" := md]> ∅
      | None => ∅
      end in
    log "backup.storage" INFO ("📤 Iniciando upload: " +:+ destination_path) ;;;
    try_except
      (c <- client sp ;;
       boto_upload_file c local_filepath (bucket_name sp) destination_path extra_args ;;;
       log "backup.storage" INFO "✅ Upload concluído com sucesso" ;;;
       ret destination_path)
      (fun e => Some (upload_handler e)).

(** [test_connection] *)
Definition test_connection (sp : StorageProvider) : M bool :=
  try_except
    (c <- client sp ;;
     boto_list_objects_v2 c (bucket_name sp) 1 ;;;
     log "backup.storage" INFO "✅ Conexão com storage testada com sucesso" ;;;
     ret true)
    (fun e => Some
       match e with
       | ClientError code _ =>
           log "backup.storage" ERROR
             ("❌ Falha no teste de conexão: " +:+ default "Unknown" code) ;;;
           ret false
       | _ =>
           log "backup.storage" ERROR
             ("❌ Erro inesperado no teste de conexão: " +:+ str_exn (signals ext) e) ;;;
           ret false
       end).

End storage.

(** The factory. *)
Definition SUPPORTED_STORAGE_TYPES : list string := ["r2"; "s3"].

Definition create_storage_from_env (env : gmap string string) : result StorageProvider :=
  let storage_type := Py.strip (Py.lower (getenv_default env "STORAGE_TYPE" "")) in
  if negb (existsb (String.eqb storage_type) SUPPORTED_STORAGE_TYPES) then
    Raise (ValueError
      ("STORAGE_TYPE '" +:+ storage_type +:+ "' não suportado. " +:+
       "Valores aceitos: " +:+ Py.join ", " SUPPORTED_STORAGE_TYPES))
  else
    let access_key_id := getenv env "STORAGE_ACCESS_KEY_ID" in
    let secret_access_key := getenv env "STORAGE_SECRET_ACCESS_KEY" in
    let bucket_name := getenv env "STORAGE_BUCKET_NAME" in
    let destination_folder := Some (getenv_default env "STORAGE_DESTINATION_FOLDER" "backups/") in
    let endpoint_url := getenv env "STORAGE_ENDPOINT_URL" in
    let region := getenv env "STORAGE_REGION" in
    if String.eqb storage_type "r2" then
      R2Storage_init endpoint_url access_key_id secret_access_key bucket_name destination_folder
    else
      S3Storage_init access_key_id secret_access_key bucket_name region endpoint_url
        destination_folder.

(** * email_helper.py *)

Section email_helper.
Context (ext : externals).

(** The body of the [try] statement of [enviar_email], after the reading
    of [EMAIL_FROM] and [EMAIL_TO]: the text is encoded, [EMAIL_PORT] is
    converted by [int], the session is opened with [EMAIL_SMTP],
    [starttls], [login] with [EMAIL_USER] and [EMAIL_PASSWORD],
    [send_message], and the session is closed.  [EvEmail msg] records the
    attempt.  Each step may raise, and the first exception ends the attempt:
    with [EMAIL_PORT] unset [int(None)] raises and [smtplib] is not called at
    all; a refused connection raises before the message is handed over.
    Which exception it is, if any, is the environment's answer. *)
Definition smtp_deliver (msg : email) : M unit :=
  fun w =>
    let w1 := emit (EvEmail msg) w in
    match smtp_send ext msg w with
    | Some e => (Raise e, w1)
    | None => (Return tt, w1)
    end.

(** [enviar_email] *)
Definition enviar_email (assunto corpo : string) : M unit :=
  try_except
    (w <- get ;;
     let msg := Email (getenv (environ w) "EMAIL_FROM") (getenv (environ w) "EMAIL_TO")
                      assunto corpo in
     smtp_deliver msg ;;;
     log "backup" INFO "✉️ E-mail enviado com sucesso.")
    (fun e => Some
       (log "backup" ERROR ("❌ Falha ao enviar e-mail: " +:+ str_exn (signals ext) e))).

End email_helper.

(** * main.py *)

(** The module-level names [gerar_backup] reads. *)
Record globals := Globals {
  TIMEZONE_NAME : string;
  TIMEZONE : string;                       (* the zone in use *)
  dumper : option DatabaseDumper;
  DB_DATABASE : option string;
  DB_TYPE : option string;
  storage : option StorageProvider;
  STORAGE_TYPE : option string
}.

(** The method [upload_file] of the storage object, as [gerar_backup] sees
    it. *)
Definition uploader : Type :=
  StorageProvider -> string -> string -> option (gmap string string) -> M string.

Section main.
Context (ext : externals).

(** The module body: timezone, dumper and storage are set up once. *)
Definition main_init : M globals :=
  w <- get ;;
  let env := environ w in
  let timezone_name := getenv_default env "TIMEZONE" "America/Sao_Paulo" in
  timezone <-
    (if pytz_known ext timezone_name then ret timezone_name
     else
       log "backup" WARNING
         ("⚠️ Timezone '" +:+ timezone_name +:+
          "' não reconhecido, usando 'America/Sao_Paulo'") ;;;
       ret "America/Sao_Paulo") ;;
  d <-
    match create_dumper_from_env env with
    | Return d =>
        let db_type := Py.strip (Py.lower (getenv_default env "DB_TYPE" "")) in
        log "backup" INFO ("✅ Dumper configurado: " +:+ db_type) ;;;
        ret (Some d, getenv env "DB_DATABASE", Some db_type)
    | Raise (ValueError msg) =>
        log "backup" ERROR ("❌ Erro na configuração do banco de dados: " +:+ msg) ;;;
        ret (None, None, None)
    | Raise e => raise e
    end ;;
  s <-
    match create_storage_from_env env with
    | Return s =>
        let storage_type := Py.strip (Py.lower (getenv_default env "STORAGE_TYPE" "")) in
        log "backup" INFO ("✅ Storage configurado: " +:+ storage_type) ;;;
        ret (Some s, Some storage_type)
    | Raise (ValueError msg) =>
        log "backup" ERROR ("❌ Erro na configuração do storage: " +:+ msg) ;;;
        ret (None, None)
    | Raise e => raise e
    end ;;
  ret (Globals timezone_name timezone d.1.1 d.1.2 d.2 s.1 s.2).

Context (g : globals).

(** [get_local_datetime] *)
Definition get_local_datetime : M datetime := now ext (TIMEZONE g).

(** The file name and the path of the local file of a run that starts at
    [local_time]. *)
Definition backup_filename (d : DatabaseDumper) (local_time : datetime) : string :=
  "backup_" +:+ Py.fmt (DB_DATABASE g) +:+ "_" +:+ strftime_Ymd_HMS local_time +:+
  get_file_extension d.

Definition backup_filepath (d : DatabaseDumper) (local_time : datetime) : string :=
  "/tmp/" +:+ backup_filename d local_time.

(** The text of the three notifications. *)
Definition success_body (d : DatabaseDumper) (local_time : datetime) : string :=
  "Backup '" +:+ backup_filename d local_time +:+ "' da base de dados '" +:+
  Py.fmt (DB_DATABASE g) +:+ "' (" +:+ Py.fmt (DB_TYPE g) +:+ ") " +:+
  "realizado com sucesso em " +:+ strftime_br local_time +:+
  " (" +:+ TIMEZONE_NAME g +:+ ")!".

Definition dump_failure_body (t : datetime) (e : exn) : string :=
  "Falha ao gerar o backup da base de dados '" +:+ Py.fmt (DB_DATABASE g) +:+
  "' (" +:+ Py.fmt (DB_TYPE g) +:+ ") " +:+
  "em " +:+ strftime_br t +:+ " (" +:+ TIMEZONE_NAME g +:+ ")." +:+
  String (ascii_of_nat 10) (String (ascii_of_nat 10) "Erro: ") +:+
  str_exn (signals ext) e.

Definition upload_failure_body (t : datetime) (e : exn) : string :=
  "Falha no upload do backup da base de dados '" +:+ Py.fmt (DB_DATABASE g) +:+
  "' (" +:+ Py.fmt (DB_TYPE g) +:+ ") " +:+
  "em " +:+ strftime_br t +:+ " (" +:+ TIMEZONE_NAME g +:+ ")." +:+
  String (ascii_of_nat 10) (String (ascii_of_nat 10) "Erro: ") +:+
  str_exn (signals ext) e.

(** The body of the [try] statement. *)
Definition backup_body (up : uploader) (d : DatabaseDumper) (s : StorageProvider)
    (local_time : datetime) : M unit :=
  dump ext d (backup_filepath d local_time) ;;;
  log "backup" INFO ("✅ Backup gerado: " +:+ backup_filepath d local_time) ;;;
  let metadata :=
    <["upload-timestamp" := isoformat local_time]>
    (<["timezone" := TIMEZONE_NAME g]> (get_metadata d)) in
  remote_path <-
    up s (backup_filepath d local_time) (backup_filename d local_time) (Some metadata) ;;
  log "backup" INFO
    ("✅ Backup enviado para " +:+ Py.fmt (STORAGE_TYPE g) +:+ ": " +:+ remote_path) ;;;
  enviar_email ext "Database Backup - SUCESSO" (success_body d local_time).

(** The two [except] clauses: [subprocess.CalledProcessError] first, then
    every other [Exception]. *)
Definition backup_handler (e : exn) : option (M unit) :=
  match e with
  | CalledProcessError _ _ =>
      Some (log "backup" ERROR ("❌ Erro ao gerar backup: " +:+ str_exn (signals ext) e) ;;;
            t <- get_local_datetime ;;
            enviar_email ext "Database Backup - ERRO" (dump_failure_body t e))
  | _ =>
      Some (log "backup" ERROR
              ("❌ Erro no upload para " +:+ Py.fmt (STORAGE_TYPE g) +:+ ": " +:+
               str_exn (signals ext) e) ;;;
            t <- get_local_datetime ;;
            enviar_email ext "Database Backup - ERRO" (upload_failure_body t e))
  end.

(** [os.remove(path)] *)
Definition remove (path : string) : M unit :=
  fun w =>
    let w1 := emit (EvRemove path) w in
    match os_remove ext path w with
    | Some e => (Raise e, w1)
    | None => (Return tt, set_files (fun fs => fs ∖ {[path]}) w1)
    end.

(** The [finally] clause. *)
Definition backup_cleanup (path : string) : M unit :=
  found <- os_path_exists path ;;
  if found then
    remove path ;;;
    log "backup" INFO "🗑️ Arquivo de backup local removido."
  else ret tt.

(** [gerar_backup], with the storage object's [upload_file] as a
    parameter. *)
Definition gerar_backup_with (up : uploader) : M unit :=
  log "backup" INFO "🔄 Iniciando backup..." ;;;
  match dumper g with
  | None => log "backup" ERROR "❌ Dumper não configurado. Backup cancelado."
  | Some d =>
      match storage g with
      | None => log "backup" ERROR "❌ Storage não configurado. Backup cancelado."
      | Some s =>
          local_time <- get_local_datetime ;;
          try_finally
            (try_except (backup_body up d s local_time) backup_handler)
            (backup_cleanup (backup_filepath d local_time))
      end
  end.

(** [gerar_backup] *)
Definition gerar_backup : M unit := gerar_backup_with (upload_file ext).

End main.

(** * The vocabulary of the properties *)

Open Scope list_scope.

(** A configuration value is present: it is set and not the empty string. *)
Definition nonempty (o : option string) : Prop := exists s, o = Some s /\ s <> "".

(** A constructor returned an object. *)
Definition succeeds {A} (r : result A) : Prop := exists a, r = Return a.

(** What [_build_destination_path] returns: one reading of the clock, in
    the zone of [TIMEZONE] or in the default zone. *)
Definition path_zone (ext : externals) (w : world) : string :=
  let timezone_name := getenv_default (environ w) "TIMEZONE" "America/Sao_Paulo" in
  if pytz_known ext timezone_name then timezone_name else "America/Sao_Paulo".

(** [n] slashes. *)
Fixpoint slashes (n : nat) : string :=
  match n with
  | O => ""
  | S n => String "/" (slashes n)
  end.

(** The last character of a string. *)
Fixpoint last_char (s : string) : option ascii :=
  match s with
  | EmptyString => None
  | String c EmptyString => Some c
  | String _ r => last_char r
  end.

(** The number a string of decimal digits denotes. *)
Fixpoint decimal_value_from (acc : Z) (s : string) : option Z :=
  match s with
  | EmptyString => Some acc
  | String c r =>
      if Py.isdigit c
      then decimal_value_from (acc * 10 + (Z.of_nat (nat_of_ascii c) - 48)) r
      else None
  end.

Definition decimal_value (s : string) : option Z := decimal_value_from 0 s.

(** The classes of events. *)
Definition dump_event (ev : event) : bool :=
  match ev with
  | EvLog l _ _ => String.eqb l "backup.db"
  | EvSubprocess _ _ => true
  | _ => false
  end.

Definition storage_event (ev : event) : bool :=
  match ev with
  | EvLog l _ _ => String.eqb l "backup.storage"
  | EvBoto3Client _ | EvS3Upload _ _ _ _ _ | EvS3List _ _ _ => true
  | _ => false
  end.

Definition main_log_event (ev : event) : bool :=
  match ev with
  | EvLog l _ _ => String.eqb l "backup"
  | _ => false
  end.

Definition cleanup_event (ev : event) : bool :=
  match ev with
  | EvLog l _ _ => String.eqb l "backup"
  | EvRemove _ => true
  | _ => false
  end.

Definition email_event (ev : event) : bool :=
  match ev with
  | EvEmail _ => true
  | _ => false
  end.

(** The e-mails of a trace, in order. *)
Definition emails_of (tr : list event) : list email :=
  omap (fun ev => match ev with EvEmail m => Some m | _ => None end) tr.

(** [only P m]: whatever the world, [m] adds events of class [P] to the
    trace and removes none. *)
Definition only (P : event -> bool) {A} (m : M A) : Prop :=
  forall w, exists evs, trace (m w).2 = trace w ++ evs /\ forallb P evs = true.

(** The first two stages of the [try] body: the dump, then the upload. *)
Definition dump_and_upload (ext : externals) (g : globals) (up : uploader)
    (d : DatabaseDumper) (s : StorageProvider) (local_time : datetime) : M string :=
  dump ext d (backup_filepath g d local_time) ;;;
  log "backup" INFO ("✅ Backup gerado: " +:+ backup_filepath g d local_time) ;;;
  up s (backup_filepath g d local_time) (backup_filename g d local_time)
     (Some (<["upload-timestamp" := isoformat local_time]>
            (<["timezone" := TIMEZONE_NAME g]> (get_metadata d)))).

(** The world in which the [try] statement of a run starts, and the time
    the run has read. *)
Definition run_start (w : world) : world :=
  emit (EvLog "backup" INFO "🔄 Iniciando backup...") w.

Definition run_time (ext : externals) (g : globals) (w : world) : datetime :=
  datetime_now ext (TIMEZONE g) (run_start w).

(** The [try] statement with its [except] clauses, without [finally]. *)
Definition protected (ext : externals) (g : globals) (up : uploader)
    (d : DatabaseDumper) (s : StorageProvider) (local_time : datetime) : M unit :=
  try_except (backup_body ext g up d s local_time) (backup_handler ext g).

(** The first [except] clause takes the exception. *)
Definition is_CalledProcessError (e : exn) : bool :=
  match e with CalledProcessError _ _ => true | _ => false end.

(** The error record [main] logs in an [except] clause. *)
Definition failure_log (ext : externals) (g : globals) (e : exn) : string :=
  if is_CalledProcessError e
  then "❌ Erro ao gerar backup: " +:+ str_exn (signals ext) e
  else "❌ Erro no upload para " +:+ Py.fmt (STORAGE_TYPE g) +:+ ": " +:+
       str_exn (signals ext) e.

(** Subject and body of the message a run sends, by the outcome of its two
    stages. *)
Definition notification_for (ext : externals) (g : globals) (d : DatabaseDumper)
    (local_time : datetime) (stage : result string * world) : string * string :=
  match stage.1 with
  | Return _ => ("Database Backup - SUCESSO", success_body g d local_time)
  | Raise e =>
      let t := datetime_now ext (TIMEZONE g)
                 (emit (EvLog "backup" ERROR (failure_log ext g e)) stage.2) in
      ("Database Backup - ERRO",
       if is_CalledProcessError e then dump_failure_body ext g t e
       else upload_failure_body ext g t e)
  end.

(** [x] occurs in [s]. *)
Definition mentions (x s : string) : Prop := exists a b, s = a +:+ x +:+ b.

(** Concrete inputs: a MySQL database, an R2 bucket. *)
Module Sample.

(** 7 March 2024, 04:05:06.000123, three hours west of UTC. *)
Definition t0 : datetime := Datetime 2024 3 7 4 5 6 123 (-180).

Definition env0 : gmap string string :=
  list_to_map
    [("DB_TYPE", " MySQL "); ("DB_HOST", "db.internal"); ("DB_PORT", "3306");
     ("DB_USER", "backup"); ("DB_PASSWORD", "s3cr3t"); ("DB_DATABASE", "shop");
     ("STORAGE_TYPE", "r2"); ("STORAGE_ENDPOINT_URL", "https://r2.example");
     ("STORAGE_ACCESS_KEY_ID", "AKIDEXAMPLE"); ("STORAGE_SECRET_ACCESS_KEY", "wJalrXUt");
     ("STORAGE_BUCKET_NAME", "dumps")].

Definition local_file : string := "/tmp/backup_shop_20240307_040506.sql".

(** An environment in which everything works, but for the dump process,
    which [proc] describes, and [os.remove], which [rm] describes. *)
Definition externals_with (proc : string -> world -> proc_result)
    (rm : string -> world -> option exn) : externals :=
  Externals (fun _ => None) (fun _ => true) (fun _ _ => t0) proc
    (fun _ _ => None) (fun _ _ _ _ _ _ => None) (fun _ _ _ _ => None)
    rm (fun _ _ => None).

(** The dump writes its file and exits with 0. *)
Definition ext_ok : externals :=
  externals_with (fun _ w => Exited 0 ({[local_file]} ∪ files w)) (fun _ _ => None).

(** The dump exits with 2, leaving a partial file. *)
Definition ext_dump_fails : externals :=
  externals_with (fun _ w => Exited 2 ({[local_file]} ∪ files w)) (fun _ _ => None).

(** The dump works, but the local file cannot be removed. *)
Definition ext_remove_fails : externals :=
  externals_with (fun _ w => Exited 0 ({[local_file]} ∪ files w))
    (fun _ _ => Some (OtherError "PermissionError" "[Errno 13] Permission denied")).

Definition d0 : DatabaseDumper :=
  Dumper MySQLDumper "db.internal" "3306" "backup" "s3cr3t" "shop" "mysql".

Definition s0 : StorageProvider :=
  Storage R2Storage (Some "https://r2.example") None "AKIDEXAMPLE" "wJalrXUt" "dumps"
          "backups/".

Definition g0 : globals :=
  Globals "America/Sao_Paulo" "America/Sao_Paulo" (Some d0) (Some "shop") (Some "mysql")
          (Some s0) (Some "r2").

Definition w0 : world := World env0 ∅ 0 None [].

(** The same environment with the kinds written in capitals and with
    no-break spaces (U+00A0, in UTF-8) around them. *)
Definition nbsp : string := String (ascii_of_nat 194) (String (ascii_of_nat 160) "").

Definition env_nbsp : gmap string string :=
  <["DB_TYPE" := nbsp +:+ "MySQL" +:+ nbsp]> (<["STORAGE_TYPE" := "R2" +:+ nbsp]> env0).

End Sample.

(** Whether a text occurs in a log record, or in the body of a message. *)
Definition logged (x : string) (tr : list event) : bool :=
  existsb (fun ev => match ev with EvLog _ _ msg => Py.contains x msg | _ => false end) tr.

Definition notified (x : string) (tr : list event) : bool :=
  existsb (fun ev => match ev with EvEmail m => Py.contains x (payload m) | _ => false end) tr.

(** The upload requests of a trace, in order. *)
Definition upload_event (ev : event) : bool :=
  match ev with
  | EvS3Upload _ _ _ _ _ => true
  | _ => false
  end.

Definition uploads_of (tr : list event) : list event := List.filter upload_event tr.

(** The [ExtraArgs] that [upload_file] passes for a [metadata] argument. *)
Definition extra_args_for (metadata : option (gmap string string))
  : gmap string (gmap string string) :=
  match metadata with
  | Some md => if bool_decide (md = ∅) then ∅ else <["Metadata" := md]> ∅
  | None => ∅
  end.

(** The error record [upload_file] logs for an exception. *)
Definition upload_error_text (ext : externals) (e : exn) : string :=
  match e with
  | ClientError code _ => "❌ Erro do cliente storage: " +:+ default "Unknown" code
  | NoCredentialsError _ => "❌ Credenciais de storage inválidas ou ausentes"
  | _ => "❌ Erro inesperado no upload: " +:+ str_exn (signals ext) e
  end.

(** The metadata [gerar_backup] attaches to the upload of a run. *)
Definition run_metadata (g : globals) (d : DatabaseDumper) (local_time : datetime)
  : gmap string string :=
  <["upload-timestamp" := isoformat local_time]>
  (<["timezone" := TIMEZONE_NAME g]> (get_metadata d)).

(** The world in which a dumper starts its process: the record of the
    command is logged, and for Postgres the password is in the
    environment. *)
Definition launch_world (d : DatabaseDumper) (text : string) (w : world) : world :=
  emit (EvLog "backup.db" INFO text)
    (match cls d with
     | PostgresDumper => set_environ <["PGPASSWORD" := password d]> w
     | _ => w
     end).

(** The normalised value of a configuration key that names a kind. *)
Definition kind_of (env : gmap string string) (key : string) : string :=
  Py.strip (Py.lower (getenv_default env key "")).

(** A text of ASCII characters. *)
Definition ascii_text (s : string) : bool :=
  forallb (fun c => (nat_of_ascii c <? 128)%nat) (list_ascii_of_string s).

(** The value of a key that names a kind is plain: white space at its ends
    apart, it is a text of ASCII characters (an unset key counts as the
    empty text).  These are the values whose lower case [Py.lower] gives. *)
Definition plain_kind (env : gmap string string) (key : string) : Prop :=
  ascii_text (Py.strip (getenv_default env key "")) = true.

(** [s] is the number [n] written with exactly [k] decimal digits. *)
Definition digits (k : nat) (n : Z) (s : string) : Prop :=
  String.length s = k /\ decimal_value s = Some n.

(** [s] gives the local date and time of day of [t]: day, month and year,
    then hour, minute and second, each in decimal digits. *)
Definition local_stamp (t : datetime) (s : string) : Prop :=
  exists dd mm yyyy HH MM SS,
    s = dd +:+ "/" +:+ mm +:+ "/" +:+ yyyy +:+ " às " +:+
        HH +:+ ":" +:+ MM +:+ ":" +:+ SS /\
    digits 2 (day t) dd /\ digits 2 (month t) mm /\ digits 4 (year t) yyyy /\
    digits 2 (hour t) HH /\ digits 2 (minute t) MM /\ digits 2 (second t) SS.

(** The time a notification gives: the start of the run in the success
    message; in a failure message the time read in the [except] clause,
    after the error record. *)
Definition notification_time (ext : externals) (g : globals) (local_time : datetime)
    (stage : result string * world) : datetime :=
  match stage.1 with
  | Return _ => local_time
  | Raise e =>
      datetime_now ext (TIMEZONE g)
        (emit (EvLog "backup" ERROR (failure_log ext g e)) stage.2)
  end.

(** What a text must show to carry the detail of an exception: for a failed
    process its command line and how it ended (the exit status, or the
    signal that killed it, by name when the platform has one); for any other
    exception its message. *)
Definition shows_error (sigs : Z -> option string) (e : exn) (text : string) : Prop :=
  match e with
  | CalledProcessError rc cmd =>
      mentions cmd text /\
      mentions
        (if (rc <? 0)%Z
         then "died with " +:+
              default ("unknown signal " +:+ pretty (- rc)%Z) (sigs (- rc)%Z)
         else "exit status " +:+ pretty rc) text
  | ValueError msg | FileNotFoundError msg | ClientError _ msg
  | NoCredentialsError msg | OtherError _ msg => mentions msg text
  end.

(** The detail of [e] is in [body], after the words that announce it. *)
Definition reports_error (sigs : Z -> option string) (e : exn) (body : string) : Prop :=
  exists text, mentions ("Erro: " +:+ text) body /\ shows_error sigs e text.

(** A failure to start the shell is not a [CalledProcessError]: that
    exception is raised for the exit status of a process that ran. *)
Definition spawn_failures_apart (ext : externals) : Prop :=
  forall c w e, subprocess_run ext c w = SpawnFailed e -> is_CalledProcessError e = false.

(** The log records of a trace, in order. *)
Definition log_records (tr : list event) : list (string * level * string) :=
  omap (fun ev => match ev with EvLog l lvl msg => Some (l, lvl, msg) | _ => None end) tr.

(** * Properties *)

(** ** Truth values and construction *)

Lemma truthy_nonempty o : Py.truthy o = true <-> nonempty o.
Proof.
  unfold nonempty. destruct o as [s|]; simpl.
  - destruct (String.eqb_spec s ""); simpl; split.
    + discriminate.
    + intros (s' & [= <-] & Hs). contradiction.
    + eauto.
    + reflexivity.
  - split; [discriminate | intros (s & [=] & _)].
Qed.

Lemma truthy_the o : Py.truthy o = true -> o = Some (Py.the o) /\ Py.the o <> "".
Proof.
  intros H. apply truthy_nonempty in H as (s & -> & Hs). simpl. auto.
Qed.

Lemma succeeds_Raise {A} e : ~ succeeds (@Raise A e).
Proof. intros (a & [=]). Qed.

Lemma succeeds_Return {A} (a : A) : succeeds (Return a).
Proof. exists a. reflexivity. Qed.

#[local] Hint Resolve succeeds_Return : core.

Lemma DatabaseDumper_init_succeeds c h p u pw db ty :
  succeeds (DatabaseDumper_init c h p u pw db ty) <->
  nonempty h /\ nonempty p /\ nonempty u /\ nonempty pw /\ nonempty db.
Proof.
  rewrite <- !truthy_nonempty. unfold DatabaseDumper_init, Py.all. simpl. unfold id.
  destruct (Py.truthy h), (Py.truthy p), (Py.truthy u), (Py.truthy pw), (Py.truthy db);
    simpl; split; auto; try (intros H; exfalso; exact (succeeds_Raise _ H));
    intros (? & ? & ? & ? & ?); discriminate.
Qed.

Lemma StorageProvider_init_succeeds c ep rg ak sk bn df :
  succeeds (StorageProvider_init c ep rg ak sk bn df) <->
  nonempty ak /\ nonempty sk /\ nonempty bn.
Proof.
  rewrite <- !truthy_nonempty. unfold StorageProvider_init, Py.all. simpl. unfold id.
  destruct (Py.truthy ak), (Py.truthy sk), (Py.truthy bn);
    simpl; split; auto; try (intros H; exfalso; exact (succeeds_Raise _ H));
    intros (? & ? & ?); discriminate.
Qed.

(** What a successful construction stores. *)
Lemma DatabaseDumper_init_fields c h p u pw db ty d :
  DatabaseDumper_init c h p u pw db ty = Return d ->
  cls d = c /\ db_type d = ty /\
  h = Some (host d) /\ p = Some (port d) /\ u = Some (user d) /\
  pw = Some (password d) /\ db = Some (database d) /\
  host d <> "" /\ port d <> "" /\ user d <> "" /\ password d <> "" /\ database d <> "".
Proof.
  unfold DatabaseDumper_init, Py.all. simpl. unfold id.
  destruct (Py.truthy h) eqn:Hh, (Py.truthy p) eqn:Hp, (Py.truthy u) eqn:Hu,
    (Py.truthy pw) eqn:Hpw, (Py.truthy db) eqn:Hdb; simpl; try discriminate.
  intros [= <-]. simpl.
  apply truthy_the in Hh as [? ?], Hp as [? ?], Hu as [? ?], Hpw as [? ?], Hdb as [? ?].
  repeat split; assumption.
Qed.

Lemma or_else_nonempty o d : d <> "" -> Py.or_else o d <> "".
Proof.
  intros Hd. destruct o as [s|]; simpl; [|assumption].
  destruct (String.eqb_spec s ""); assumption.
Qed.

Lemma StorageProvider_init_fields c ep rg ak sk bn df sp :
  StorageProvider_init c ep rg ak sk bn df = Return sp ->
  scls sp = c /\ endpoint_url sp = ep /\ region sp = rg /\
  ak = Some (access_key_id sp) /\ sk = Some (secret_access_key sp) /\
  bn = Some (bucket_name sp) /\
  destination_folder sp = Py.or_else df "backups/".
Proof.
  unfold StorageProvider_init, Py.all. simpl. unfold id.
  destruct (Py.truthy ak) eqn:Hak, (Py.truthy sk) eqn:Hsk, (Py.truthy bn) eqn:Hbn;
    simpl; try discriminate.
  intros [= <-]. simpl.
  apply truthy_the in Hak as [? ?], Hsk as [? ?], Hbn as [? ?].
  repeat split; assumption.
Qed.

Lemma R2Storage_init_succeeds ep ak sk bn df :
  succeeds (R2Storage_init ep ak sk bn df) <->
  nonempty ep /\ nonempty ak /\ nonempty sk /\ nonempty bn.
Proof.
  unfold R2Storage_init. rewrite <- (truthy_nonempty ep).
  destruct (Py.truthy ep); simpl.
  - rewrite StorageProvider_init_succeeds. tauto.
  - split; [intros H; exfalso; exact (succeeds_Raise _ H) | intros [? _]; discriminate].
Qed.

Lemma S3Storage_init_succeeds ak sk bn rg ep df :
  succeeds (S3Storage_init ak sk bn rg ep df) <->
  nonempty rg /\ nonempty ak /\ nonempty sk /\ nonempty bn.
Proof.
  unfold S3Storage_init. rewrite <- (truthy_nonempty rg).
  destruct (Py.truthy rg); simpl.
  - rewrite StorageProvider_init_succeeds. tauto.
  - split; [intros H; exfalso; exact (succeeds_Raise _ H) | intros [? _]; discriminate].
Qed.

(** C5.  Construction succeeds exactly when every field the variant
    requires is present and non-empty: host, port, user, password and
    database name for each of the three dumpers; access key id, secret key
    and bucket name for both storage providers, and in addition the endpoint
    URL for R2 and the region for S3.  Without its endpoint URL the R2
    constructor raises its own [ValueError], as the S3 constructor does
    without its region. *)
Theorem construction_iff_required_fields
    (h p u pw db ep ak sk bn rg df : option string) (ty : string) :
  (succeeds (PostgresDumper_init h p u pw db) <->
     nonempty h /\ nonempty p /\ nonempty u /\ nonempty pw /\ nonempty db) /\
  (succeeds (MySQLDumper_init h p u pw db ty) <->
     nonempty h /\ nonempty p /\ nonempty u /\ nonempty pw /\ nonempty db) /\
  (succeeds (MSSQLDumper_init h p u pw db) <->
     nonempty h /\ nonempty p /\ nonempty u /\ nonempty pw /\ nonempty db) /\
  (succeeds (R2Storage_init ep ak sk bn df) <->
     nonempty ep /\ nonempty ak /\ nonempty sk /\ nonempty bn) /\
  (succeeds (S3Storage_init ak sk bn rg ep df) <->
     nonempty rg /\ nonempty ak /\ nonempty sk /\ nonempty bn) /\
  (~ nonempty ep ->
     R2Storage_init ep ak sk bn df =
       Raise (ValueError "STORAGE_ENDPOINT_URL é obrigatório para Cloudflare R2.")) /\
  (~ nonempty rg ->
     S3Storage_init ak sk bn rg ep df =
       Raise (ValueError "STORAGE_REGION é obrigatório para AWS S3 (ex: us-east-1).")).
Proof.
  split; [apply DatabaseDumper_init_succeeds|].
  split; [apply DatabaseDumper_init_succeeds|].
  split; [apply DatabaseDumper_init_succeeds|].
  split; [apply R2Storage_init_succeeds|].
  split; [apply S3Storage_init_succeeds|].
  split.
  - intros Hn. unfold R2Storage_init. destruct (Py.truthy ep) eqn:E; simpl.
    + apply truthy_nonempty in E. contradiction.
    + reflexivity.
  - intros Hn. unfold S3Storage_init. destruct (Py.truthy rg) eqn:E; simpl.
    + apply truthy_nonempty in E. contradiction.
    + reflexivity.
Qed.

(** ** File extensions *)

Lemma dict_get_DUMPER_MAP k c :
  dict_get k _DUMPER_MAP = Some c ->
  (k = "postgres" /\ c = PostgresDumper) \/ (k = "mysql" /\ c = MySQLDumper) \/
  (k = "mariadb" /\ c = MySQLDumper) \/ (k = "mssql" /\ c = MSSQLDumper).
Proof.
  unfold _DUMPER_MAP. simpl.
  destruct (String.eqb_spec k "postgres"); [intros [= <-]; auto|].
  destruct (String.eqb_spec k "mysql"); [intros [= <-]; auto|].
  destruct (String.eqb_spec k "mariadb"); [intros [= <-]; auto|].
  destruct (String.eqb_spec k "mssql"); [intros [= <-]; auto 6|].
  discriminate.
Qed.

(** The class and the tag of the dumper the factory builds. *)
Lemma create_dumper_from_env_class env d :
  create_dumper_from_env env = Return d ->
  dict_get (Py.strip (Py.lower (getenv_default env "DB_TYPE" ""))) _DUMPER_MAP = Some (cls d) /\
  db_type d = Py.strip (Py.lower (getenv_default env "DB_TYPE" "")).
Proof.
  unfold create_dumper_from_env.
  set (k := Py.strip (Py.lower (getenv_default env "DB_TYPE" ""))).
  destruct (dict_get k _DUMPER_MAP) as [c|] eqn:Hk; [|discriminate].
  destruct (dict_get_DUMPER_MAP _ _ Hk) as [[-> ->]|[[-> ->]|[[-> ->]|[-> ->]]]]; simpl;
    intros H; apply DatabaseDumper_init_fields in H as (-> & -> & _); auto.
Qed.

(** C7.  For each supported engine kind the dumper the factory builds has
    the fixed file extension: postgres, mysql and mariadb give [.sql], mssql
    gives [.bak]; and the kind is one of these four. *)
Theorem file_extension_mapping (env : gmap string string) (d : DatabaseDumper) :
  create_dumper_from_env env = Return d ->
  let kind := Py.strip (Py.lower (getenv_default env "DB_TYPE" "")) in
  db_type d = kind /\
  ((kind = "postgres" /\ get_file_extension d = ".sql") \/
   (kind = "mysql" /\ get_file_extension d = ".sql") \/
   (kind = "mariadb" /\ get_file_extension d = ".sql") \/
   (kind = "mssql" /\ get_file_extension d = ".bak")).
Proof.
  intros H kind. apply create_dumper_from_env_class in H as [Hc Ht].
  split; [exact Ht|]. fold kind in Hc. unfold get_file_extension.
  destruct (dict_get_DUMPER_MAP _ _ Hc) as [[-> ->]|[[-> ->]|[[-> ->]|[-> ->]]]]; auto 6.
Qed.

(** ** The storage provider *)

Lemma rstrip_slash_append s : Py.rstrip_slash s +:+ "/" <> "".
Proof. destruct (Py.rstrip_slash s); discriminate. Qed.

Lemma base_folder_nonempty sp :
  destination_folder sp <> "" ->
  base_folder sp = Py.rstrip_slash (destination_folder sp) +:+ "/" /\ base_folder sp <> "".
Proof.
  intros H. unfold base_folder. simpl.
  destruct (String.eqb_spec (destination_folder sp) ""); [contradiction|]. simpl.
  split; [reflexivity | apply rstrip_slash_append].
Qed.

(** The folder of every constructed provider is set. *)
Lemma constructed_folder ep ak sk bn rg df sp :
  R2Storage_init ep ak sk bn df = Return sp \/
  S3Storage_init ak sk bn rg ep df = Return sp ->
  destination_folder sp = Py.or_else df "backups/".
Proof.
  unfold R2Storage_init, S3Storage_init.
  intros [H|H].
  - destruct (Py.truthy ep); simpl in H; [|discriminate].
    apply StorageProvider_init_fields in H. tauto.
  - destruct (Py.truthy rg); simpl in H; [|discriminate].
    apply StorageProvider_init_fields in H. tauto.
Qed.

Lemma _build_destination_path_eq ext sp filename w :
  _build_destination_path ext sp filename w =
  (Return (base_folder sp +:+ strftime_Ymd (datetime_now ext (path_zone ext w) w) +:+
           "/" +:+ filename),
   tick w).
Proof. reflexivity. Qed.

(** [upload_file] on a missing file. *)
Lemma upload_file_missing ext sp local_filepath filename metadata w :
  local_filepath ∉ files w ->
  upload_file ext sp local_filepath filename metadata w =
  (Raise (FileNotFoundError ("Arquivo não encontrado: " +:+ local_filepath)), w).
Proof.
  intros H. unfold upload_file, bind, os_path_exists.
  rewrite bool_decide_eq_false_2 by exact H. reflexivity.
Qed.

(** C8.  When the local path does not exist, [upload_file] raises
    [FileNotFoundError] and leaves the world as it found it: nothing was
    sent, no client was created (the memoised client is what it was), the
    clock was not read. *)
Theorem upload_file_missing_raises_first
    (ext : externals) (sp : StorageProvider) (local_filepath filename : string)
    (metadata : option (gmap string string)) (w : world) :
  local_filepath ∉ files w ->
  exists msg w',
    upload_file ext sp local_filepath filename metadata w = (Raise (FileNotFoundError msg), w') /\
    trace w' = trace w /\ _client w' = _client w /\ w' = w.
Proof.
  intros H. eexists _, w. rewrite upload_file_missing by exact H. auto.
Qed.

(** The key [upload_file] returns is the one [_build_destination_path]
    built. *)
Lemma upload_file_returns ext sp local_filepath filename metadata w key w' :
  upload_file ext sp local_filepath filename metadata w = (Return key, w') ->
  key = base_folder sp +:+ strftime_Ymd (datetime_now ext (path_zone ext w) w) +:+
        "/" +:+ filename.
Proof.
  unfold upload_file, bind at 1. unfold os_path_exists.
  destruct (bool_decide (local_filepath ∈ files w)); simpl; [|discriminate].
  unfold bind at 1. rewrite _build_destination_path_eq.
  unfold bind at 1. unfold log at 1, modify.
  set (w1 := emit _ (tick w)). unfold try_except.
  destruct (bind (client ext sp) _ w1) as [[k|e] w2] eqn:Hb.
  - intros [= <- <-]. revert Hb. unfold bind at 1.
    destruct (client ext sp w1) as [[c|e] w3]; [|discriminate].
    unfold bind at 1. destruct (boto_upload_file _ _ _ _ _ _ w3) as [[[]|e] w4]; [|discriminate].
    unfold bind, log, modify, ret. intros [= <- _]. reflexivity.
  - unfold upload_handler. destruct e; unfold bind, log, modify, raise; discriminate.
Qed.

(** C9.  A storage provider that either constructor returns has a
    non-empty destination folder: an absent or empty folder argument was
    replaced by [backups/], any other is kept.  So the prefix path building
    puts before the date is the folder with one slash after it, never the
    empty prefix, and every key [upload_file] returns starts with it. *)
Theorem destination_folder_never_empty
    (ep ak sk bn rg df : option string) (sp : StorageProvider) :
  R2Storage_init ep ak sk bn df = Return sp \/
  S3Storage_init ak sk bn rg ep df = Return sp ->
  destination_folder sp <> "" /\
  (~ nonempty df -> destination_folder sp = "backups/") /\
  (nonempty df -> df = Some (destination_folder sp)) /\
  base_folder sp = Py.rstrip_slash (destination_folder sp) +:+ "/" /\
  base_folder sp <> "" /\
  (forall ext local_filepath filename metadata w key w',
     upload_file ext sp local_filepath filename metadata w = (Return key, w') ->
     exists rest, key = base_folder sp +:+ rest).
Proof.
  intros H. apply constructed_folder in H.
  assert (Hne : destination_folder sp <> "").
  { rewrite H. apply or_else_nonempty. discriminate. }
  split; [exact Hne|].
  split.
  { intros Hn. rewrite H. destruct df as [s|]; simpl; [|reflexivity].
    destruct (String.eqb_spec s ""); [reflexivity|].
    exfalso. apply Hn. exists s. auto. }
  split.
  { intros (s & -> & Hs). rewrite H. simpl.
    destruct (String.eqb_spec s ""); [contradiction | reflexivity]. }
  destruct (base_folder_nonempty sp Hne) as [Hb Hb'].
  split; [exact Hb|]. split; [exact Hb'|].
  intros ext local_filepath filename metadata w key w' Hu.
  apply upload_file_returns in Hu. eexists. exact Hu.
Qed.

(** ** The Postgres password *)

(** C10.  [PostgresDumper.dump] stores the password in the environment
    variable [PGPASSWORD] before it starts [pg_dump], which therefore sees
    it, and the variable is still set when the call is over, whether it
    returns or raises; nothing else in the environment changes. *)
Theorem postgres_dump_sets_PGPASSWORD
    (ext : externals) (d : DatabaseDumper) (output_path : string) (w : world) :
  let r := PostgresDumper_dump ext d output_path w in
  environ r.2 = <["PGPASSWORD" := password d]> (environ w) /\
  environ r.2 !! "PGPASSWORD" = Some (password d) /\
  exists command,
    trace r.2 = (trace w ++
      [EvLog "backup.db" INFO ("Executando: " +:+ command);
       EvSubprocess command (<["PGPASSWORD" := password d]> (environ w))])%list /\
    (r.1 = Return output_path \/ exists e, r.1 = Raise e).
Proof.
  unfold PostgresDumper_dump.
  set (command := "pg_dump -h " +:+ _).
  unfold bind, modify, log, run_checked, ret. simpl.
  set (w1 := emit _ (set_environ _ w)).
  destruct (subprocess_run ext command w1) as [rc fs|e]; [destruct (rc =? 0)%Z|];
    subst w1; simpl;
    (split; [reflexivity|]); (split; [apply lookup_insert_eq|]);
    exists command; (split; [rewrite <- app_assoc; reflexivity|]); eauto.
Qed.

(** ** The path policy *)

Section path_policy_lemmas.

#[local] Arguments String.append !s1 s2 : simpl nomatch.

Lemma rstrip_slash_decompose s :
  exists n, s = Py.rstrip_slash s +:+ slashes n.
Proof.
  induction s as [|c r [n IH]]; simpl.
  - exists 0. reflexivity.
  - destruct (Py.rstrip_slash r) as [|c' r'] eqn:Hr.
    + simpl in IH. destruct (Ascii.eqb_spec c "/") as [->|Hc].
      * exists (S n). simpl. rewrite <- IH. reflexivity.
      * exists n. simpl. rewrite <- IH. reflexivity.
    + exists n. simpl. simpl in IH. rewrite <- IH. reflexivity.
Qed.

Lemma rstrip_slash_last s : last_char (Py.rstrip_slash s) <> Some "/"%char.
Proof.
  induction s as [|c r IH]; simpl; [discriminate|].
  destruct (Py.rstrip_slash r) as [|c' r'] eqn:Hr.
  - destruct (Ascii.eqb_spec c "/") as [->|Hc]; simpl; congruence.
  - exact IH.
Qed.

Lemma last_char_snoc s c : last_char (s +:+ String c "") = Some c.
Proof.
  induction s as [|c' r IH]; [reflexivity|].
  simpl. simpl in IH. rewrite IH.
  destruct r; reflexivity.
Qed.

Lemma digit_value n :
  Py.isdigit (Py.digit n) = true /\
  (Z.of_nat (nat_of_ascii (Py.digit n)) - 48 = n mod 10)%Z.
Proof.
  unfold Py.digit.
  assert (H : (n mod 10 = 0 \/ n mod 10 = 1 \/ n mod 10 = 2 \/ n mod 10 = 3 \/
               n mod 10 = 4 \/ n mod 10 = 5 \/ n mod 10 = 6 \/ n mod 10 = 7 \/
               n mod 10 = 8 \/ n mod 10 = 9)%Z).
  { pose proof (Z.mod_pos_bound n 10). lia. }
  repeat (destruct H as [H|H]; [rewrite H; split; reflexivity|]).
  rewrite H. split; reflexivity.
Qed.

Lemma decimal_value_digit acc n r :
  decimal_value_from acc (String (Py.digit n) r) =
  decimal_value_from (acc * 10 + n mod 10)%Z r.
Proof.
  simpl. destruct (digit_value n) as [-> ->]. reflexivity.
Qed.

Lemma decimal_value_pad2 acc n r :
  (0 <= n < 100)%Z ->
  decimal_value_from acc (Py.pad2 n +:+ r) = decimal_value_from (acc * 100 + n)%Z r.
Proof.
  intros H. unfold Py.pad2. cbn [String.append].
  rewrite !decimal_value_digit. f_equal.
  pose proof (Z.div_mod n 10). pose proof (Z.mod_pos_bound n 10).
  assert ((n / 10) mod 10 = n / 10)%Z.
  { apply Z.mod_small. split; [apply Z.div_pos | apply Z.div_lt_upper_bound]; lia. }
  lia.
Qed.

Lemma decimal_value_pad4 acc n r :
  (0 <= n < 10000)%Z ->
  decimal_value_from acc (Py.pad4 n +:+ r) = decimal_value_from (acc * 10000 + n)%Z r.
Proof.
  intros H. unfold Py.pad4, Py.pad2. cbn [String.append].
  rewrite !decimal_value_digit. f_equal.
  assert (H1 : ((n / 1000) mod 10 = n / 1000)%Z).
  { apply Z.mod_small. split; [apply Z.div_pos | apply Z.div_lt_upper_bound]; lia. }
  assert (H2 : (n / 100 = 10 * (n / 1000) + (n / 100) mod 10)%Z).
  { replace 1000%Z with (100 * 10)%Z by reflexivity.
    rewrite <- Z.div_div by lia. apply Z.div_mod. lia. }
  assert (H3 : (n / 10 = 10 * (n / 100) + (n / 10) mod 10)%Z).
  { replace 100%Z with (10 * 10)%Z by reflexivity.
    rewrite <- Z.div_div by lia. apply Z.div_mod. lia. }
  pose proof (Z.div_mod n 10). lia.
Qed.

Lemma length_pad2 n : String.length (Py.pad2 n) = 2.
Proof. reflexivity. Qed.

Lemma length_pad4 n : String.length (Py.pad4 n) = 4.
Proof. reflexivity. Qed.

(** The date segment is the eight digits of year, month and day. *)
Lemma strftime_Ymd_value t :
  wf_datetime t ->
  String.length (strftime_Ymd t) = 8 /\
  decimal_value (strftime_Ymd t) = Some (year t * 10000 + month t * 100 + day t)%Z.
Proof.
  intros (Hy & Hm & Hd & _). split; [reflexivity|].
  unfold decimal_value, strftime_Ymd.
  rewrite decimal_value_pad4 by lia.
  rewrite decimal_value_pad2 by lia.
  replace (Py.pad2 (day t)) with (Py.pad2 (day t) +:+ "") by reflexivity.
  rewrite decimal_value_pad2 by lia.
  simpl. f_equal. lia.
Qed.

Lemma base_folder_normalised sp :
  (destination_folder sp = "" /\ base_folder sp = "") \/
  (exists stem n,
     destination_folder sp = stem +:+ slashes n /\ destination_folder sp <> "" /\
     base_folder sp = stem +:+ "/" /\ last_char stem <> Some "/"%char).
Proof.
  unfold base_folder. simpl.
  destruct (String.eqb_spec (destination_folder sp) "") as [E|E]; simpl; [left; auto|].
  right. destruct (rstrip_slash_decompose (destination_folder sp)) as [n Hn].
  exists (Py.rstrip_slash (destination_folder sp)), n.
  repeat split; auto using rstrip_slash_last.
Qed.

(** C6.  The key [_build_destination_path] returns is
    [base + date + "/" + filename], where [base] is empty for an empty
    folder and otherwise the folder with its trailing slashes replaced by
    exactly one, and [date] is the eight digits YYYYMMDD of the local date
    read from the clock.  The key depends on nothing but the folder, that
    date and the file name: two calls that agree on the three return the
    same key. *)
Theorem path_policy
    (ext : externals) (sp : StorageProvider) (filename : string) (w : world) :
  let t := datetime_now ext (path_zone ext w) w in
  wf_datetime t ->
  exists base date,
    (_build_destination_path ext sp filename w).1 =
      Return (base +:+ date +:+ "/" +:+ filename) /\
    ((destination_folder sp = "" /\ base = "") \/
     (exists stem n,
        destination_folder sp = stem +:+ slashes n /\ destination_folder sp <> "" /\
        base = stem +:+ "/" /\ last_char stem <> Some "/"%char)) /\
    String.length date = 8 /\
    decimal_value date = Some (year t * 10000 + month t * 100 + day t)%Z /\
    (forall ext' sp' w',
       destination_folder sp' = destination_folder sp ->
       let t' := datetime_now ext' (path_zone ext' w') w' in
       (year t', month t', day t') = (year t, month t, day t) ->
       (_build_destination_path ext' sp' filename w').1 =
       (_build_destination_path ext sp filename w).1).
Proof.
  intros t Ht. exists (base_folder sp), (strftime_Ymd t).
  split; [reflexivity|].
  split; [apply base_folder_normalised|].
  destruct (strftime_Ymd_value t Ht) as [Hl Hv].
  split; [exact Hl|]. split; [exact Hv|].
  intros ext' sp' w' Hf t' [= Hy Hm Hd].
  rewrite !_build_destination_path_eq. simpl. fold t t'.
  unfold base_folder, strftime_Ymd. rewrite Hf, Hy, Hm, Hd. reflexivity.
Qed.

End path_policy_lemmas.

(** ** Events of a computation *)

Section only.
Context (P : event -> bool).

Lemma only_ret {A} (a : A) : only P (ret a).
Proof. intros w. exists []. simpl. rewrite app_nil_r. auto. Qed.

Lemma only_raise {A} e : only P (@raise A e).
Proof. intros w. exists []. simpl. rewrite app_nil_r. auto. Qed.

Lemma only_get : only P get.
Proof. intros w. exists []. simpl. rewrite app_nil_r. auto. Qed.

Lemma only_os_path_exists p : only P (os_path_exists p).
Proof. intros w. exists []. simpl. rewrite app_nil_r. auto. Qed.

Lemma only_now ext z : only P (now ext z).
Proof. intros w. exists []. simpl. rewrite app_nil_r. auto. Qed.

Lemma only_emit ev : P ev = true -> only P (modify (emit ev)).
Proof. intros H w. exists [ev]. simpl. rewrite H. auto. Qed.

Lemma only_log l lvl msg : P (EvLog l lvl msg) = true -> only P (log l lvl msg).
Proof. apply only_emit. Qed.

Lemma only_modify f : (forall w, trace (f w) = trace w) -> only P (modify f).
Proof. intros H w. exists []. simpl. rewrite H, app_nil_r. auto. Qed.

Lemma only_bind {A B} (m : M A) (k : A -> M B) :
  only P m -> (forall a, only P (k a)) -> only P (bind m k).
Proof.
  intros Hm Hk w. unfold bind. destruct (Hm w) as (evs & Ht & Hp).
  destruct (m w) as [[a|e] w1]; simpl in *.
  - destruct (Hk a w1) as (evs' & Ht' & Hp').
    exists (evs ++ evs'). rewrite Ht', Ht, app_assoc, forallb_app, Hp, Hp'. auto.
  - exists evs. auto.
Qed.

Lemma only_try_except {A} (body : M A) handler :
  only P body -> (forall e h, handler e = Some h -> only P h) ->
  only P (try_except body handler).
Proof.
  intros Hm Hh w. unfold try_except. destruct (Hm w) as (evs & Ht & Hp).
  destruct (body w) as [[a|e] w1]; simpl in *.
  - exists evs. auto.
  - destruct (handler e) as [h|] eqn:He; simpl.
    + destruct (Hh e h He w1) as (evs' & Ht' & Hp').
      exists (evs ++ evs'). rewrite Ht', Ht, app_assoc, forallb_app, Hp, Hp'. auto.
    + exists evs. auto.
Qed.

Lemma only_try_finally {A} (body : M A) fin :
  only P body -> only P fin -> only P (try_finally body fin).
Proof.
  intros Hm Hf w. unfold try_finally. destruct (Hm w) as (evs & Ht & Hp).
  destruct (body w) as [r w1]; simpl in *.
  destruct (Hf w1) as (evs' & Ht' & Hp').
  exists (evs ++ evs').
  destruct (fin w1) as [[[]|e] w2]; simpl in *;
    rewrite Ht', Ht, app_assoc, forallb_app, Hp, Hp'; auto.
Qed.

End only.

Lemma only_weaken (P Q : event -> bool) {A} (m : M A) :
  (forall ev, P ev = true -> Q ev = true) -> only P m -> only Q m.
Proof.
  intros H Hm w. destruct (Hm w) as (evs & Ht & Hp). exists evs. split; [exact Ht|].
  apply forallb_forall. intros ev Hin. apply H.
  rewrite forallb_forall in Hp. apply Hp, Hin.
Qed.

Lemma emails_of_app tr tr' : emails_of (tr ++ tr') = emails_of tr ++ emails_of tr'.
Proof. apply omap_app. Qed.

Lemma emails_of_none evs :
  forallb (fun ev => negb (email_event ev)) evs = true -> emails_of evs = [].
Proof.
  induction evs as [|ev evs IH]; [reflexivity|]. simpl.
  intros H. apply andb_prop in H as [H1 H2]. unfold emails_of. simpl.
  destruct ev; simpl in *; try discriminate; apply IH, H2.
Qed.

(** *** The components *)

Lemma only_run_checked ext cmd : only dump_event (run_checked ext cmd).
Proof.
  intros w. unfold run_checked. exists [EvSubprocess cmd (environ w)].
  destruct (subprocess_run ext cmd w) as [rc fs|e]; [destruct (rc =? 0)%Z|]; auto.
Qed.

Lemma only_dump ext d path : only dump_event (dump ext d path).
Proof.
  unfold dump, PostgresDumper_dump, MySQLDumper_dump, MSSQLDumper_dump.
  destruct (cls d);
    repeat first
      [ apply only_bind; [|intros ?]
      | apply only_log; reflexivity
      | apply only_run_checked
      | apply only_ret
      | apply only_modify; reflexivity ].
Qed.

Lemma only__create_client ext sp : only storage_event (_create_client ext sp).
Proof.
  intros w. unfold _create_client. exists [EvBoto3Client (client_kwargs sp)].
  destruct (boto3_client ext (client_kwargs sp) w); auto.
Qed.

Lemma only_client ext sp : only storage_event (client ext sp).
Proof.
  unfold client. apply only_bind; [apply only_get|]. intros w.
  destruct (_client w).
  - apply only_ret.
  - apply only_bind; [apply only__create_client|]. intros c.
    apply only_bind; [apply only_modify; reflexivity|]. intros _. apply only_ret.
Qed.

Lemma only_boto_upload_file ext c l b k x : only storage_event (boto_upload_file ext c l b k x).
Proof.
  intros w. unfold boto_upload_file. exists [EvS3Upload c l b k x].
  destruct (s3_upload_file ext c l b k x w); auto.
Qed.

Lemma only_upload_handler ext e : only storage_event (upload_handler ext e).
Proof.
  unfold upload_handler.
  destruct e; (apply only_bind; [apply only_log; reflexivity | intros _; apply only_raise]).
Qed.

Lemma only_upload_file ext sp l f md : only storage_event (upload_file ext sp l f md).
Proof.
  unfold upload_file.
  apply only_bind; [apply only_os_path_exists|]. intros found.
  destruct found; simpl; [|apply only_raise].
  apply only_bind.
  { unfold _build_destination_path. apply only_bind; [apply only_get|]. intros w.
    apply only_bind; [apply only_now|]. intros t. apply only_ret. }
  intros dest. apply only_bind; [apply only_log; reflexivity|]. intros _.
  apply only_try_except.
  - apply only_bind; [apply only_client|]. intros c.
    apply only_bind; [apply only_boto_upload_file|]. intros _.
    apply only_bind; [apply only_log; reflexivity|]. intros _. apply only_ret.
  - intros e h [= <-]. apply only_upload_handler.
Qed.

Lemma only_remove ext p : only cleanup_event (remove ext p).
Proof.
  intros w. unfold remove. exists [EvRemove p].
  destruct (os_remove ext p w); auto.
Qed.

Lemma only_backup_cleanup ext p : only cleanup_event (backup_cleanup ext p).
Proof.
  unfold backup_cleanup.
  apply only_bind; [apply only_os_path_exists|]. intros found.
  destruct found; [|apply only_ret].
  apply only_bind; [apply only_remove|]. intros _. apply only_log. reflexivity.
Qed.

(** [enviar_email] makes one attempt to deliver the message, logs the
    outcome and returns, also when the attempt fails. *)
Lemma enviar_email_spec ext assunto corpo w :
  exists lvl text,
    enviar_email ext assunto corpo w =
    (Return tt,
     emit (EvLog "backup" lvl text)
       (emit (EvEmail (Email (getenv (environ w) "EMAIL_FROM")
                            (getenv (environ w) "EMAIL_TO") assunto corpo)) w)) /\
    (lvl = ERROR <->
     exists e, smtp_send ext (Email (getenv (environ w) "EMAIL_FROM")
                                    (getenv (environ w) "EMAIL_TO") assunto corpo) w = Some e).
Proof.
  unfold enviar_email, try_except, bind, get, smtp_deliver, log, modify. simpl.
  destruct (smtp_send ext _ w) as [e|]; simpl.
  - eexists ERROR, _. split; [reflexivity|]. split; eauto.
  - eexists INFO, _. split; [reflexivity|]. split; [discriminate|]. intros [e [=]].
Qed.

(** ** The orchestration routine *)

Lemma backup_body_split ext g up d s t w :
  backup_body ext g up d s t w =
  bind (dump_and_upload ext g up d s t)
    (fun remote_path =>
       log "backup" INFO
         ("✅ Backup enviado para " +:+ Py.fmt (STORAGE_TYPE g) +:+ ": " +:+ remote_path) ;;;
       enviar_email ext "Database Backup - SUCESSO" (success_body g d t)) w.
Proof.
  unfold backup_body, dump_and_upload, bind.
  destruct (dump ext d _ w) as [[p|e] w1]; [|reflexivity].
  destruct (log _ _ _ w1) as [[[]|e] w2]; [|reflexivity].
  destruct (up _ _ _ _ w2) as [[k|e] w3]; reflexivity.
Qed.

Lemma gerar_backup_with_unfold ext g up d s w :
  dumper g = Some d -> storage g = Some s ->
  gerar_backup_with ext g up w =
  try_finally (protected ext g up d s (run_time ext g w))
    (backup_cleanup ext (backup_filepath g d (run_time ext g w)))
    (tick (run_start w)).
Proof.
  intros Hd Hs. unfold gerar_backup_with. rewrite Hd, Hs. reflexivity.
Qed.

(** A log record of [main], then one message. *)
Lemma log_then_email ext lvl0 msg a c w :
  exists w1 evs m,
    (log "backup" lvl0 msg ;;; enviar_email ext a c) w = (Return tt, w1) /\
    trace w1 = trace w ++ evs /\
    forallb (fun ev => main_log_event ev || email_event ev) evs = true /\
    emails_of evs = [m] /\ Subject m = a /\ payload m = c /\
    files w1 = files w.
Proof.
  unfold bind, log, modify.
  destruct (enviar_email_spec ext a c (emit (EvLog "backup" lvl0 msg) w))
    as (lvl & text & Heq & _).
  rewrite Heq.
  exists (emit (EvLog "backup" lvl text)
            (emit (EvEmail (Email (getenv (environ w) "EMAIL_FROM")
                                 (getenv (environ w) "EMAIL_TO") a c))
               (emit (EvLog "backup" lvl0 msg) w))),
    [EvLog "backup" lvl0 msg;
     EvEmail (Email (getenv (environ w) "EMAIL_FROM") (getenv (environ w) "EMAIL_TO") a c);
     EvLog "backup" lvl text],
    (Email (getenv (environ w) "EMAIL_FROM") (getenv (environ w) "EMAIL_TO") a c).
  cbn [trace emit]. rewrite <- !app_assoc. repeat split.
Qed.

(** The same with a reading of the clock in between, as in the [except]
    clauses. *)
Lemma log_now_then_email ext zone lvl0 msg a (c : datetime -> string) w :
  exists w1 evs m,
    (log "backup" lvl0 msg ;;; t <- now ext zone ;; enviar_email ext a (c t)) w =
      (Return tt, w1) /\
    trace w1 = trace w ++ evs /\
    forallb (fun ev => main_log_event ev || email_event ev) evs = true /\
    emails_of evs = [m] /\ Subject m = a /\
    payload m = c (datetime_now ext zone (emit (EvLog "backup" lvl0 msg) w)) /\
    files w1 = files w /\ In (EvLog "backup" lvl0 msg) evs.
Proof.
  unfold bind, log, modify, now.
  set (w' := emit (EvLog "backup" lvl0 msg) w).
  set (t := datetime_now ext zone w').
  destruct (enviar_email_spec ext a (c t) (tick w')) as (lvl & text & Heq & _).
  rewrite Heq.
  exists (emit (EvLog "backup" lvl text)
            (emit (EvEmail (Email (getenv (environ w) "EMAIL_FROM")
                                 (getenv (environ w) "EMAIL_TO") a (c t)))
               (tick w'))),
    [EvLog "backup" lvl0 msg;
     EvEmail (Email (getenv (environ w) "EMAIL_FROM") (getenv (environ w) "EMAIL_TO") a (c t));
     EvLog "backup" lvl text],
    (Email (getenv (environ w) "EMAIL_FROM") (getenv (environ w) "EMAIL_TO") a (c t)).
  subst w'. cbn [trace emit tick]. rewrite <- !app_assoc. repeat split.
  left. reflexivity.
Qed.

(** The [try] statement always returns, having sent exactly the message
    [notification_for] gives: one log record of [main], the message, and the
    notifier's log record are what it adds after the two stages. *)
Lemma protected_spec ext g up d s t w :
  let stage := dump_and_upload ext g up d s t w in
  exists w1 evs m,
    protected ext g up d s t w = (Return tt, w1) /\
    trace w1 = trace stage.2 ++ evs /\
    forallb (fun ev => main_log_event ev || email_event ev) evs = true /\
    emails_of evs = [m] /\
    (Subject m, payload m) = notification_for ext g d t stage /\
    files w1 = files stage.2 /\
    match stage.1 with
    | Return _ => True
    | Raise e => In (EvLog "backup" ERROR (failure_log ext g e)) evs
    end.
Proof.
  intros stage. unfold protected, try_except. rewrite backup_body_split.
  unfold bind at 1. fold stage. unfold notification_for.
  destruct stage as [[remote|e] w2]; cbn [fst snd].
  - destruct (log_then_email ext INFO
                ("✅ Backup enviado para " +:+ Py.fmt (STORAGE_TYPE g) +:+ ": " +:+ remote)
                "Database Backup - SUCESSO" (success_body g d t) w2)
      as (w1 & evs & m & -> & Ht & Hp & Hm & Hs & Hb & Hf).
    exists w1, evs, m. rewrite Hs, Hb. auto 10.
  - unfold failure_log.
    destruct e; cbn [backup_handler is_CalledProcessError]; unfold get_local_datetime;
      match goal with
      | |- context [(log "backup" ERROR ?msg ;;; t <- now ext ?z ;; enviar_email ext ?a (@?c t)) w2] =>
          destruct (log_now_then_email ext z ERROR msg a c w2)
            as (w1 & evs & m & -> & Ht & Hp & Hm & Hs & Hb & Hf & Hl)
      end;
      exists w1, evs, m; rewrite Hs, Hb; auto 10.
Qed.

(** *** What a text mentions *)

Section mentions.

#[local] Arguments String.append !s1 s2 : simpl nomatch.

Lemma append_empty_r s : s +:+ "" = s.
Proof. induction s as [|c r IH]; simpl; [reflexivity | rewrite IH; reflexivity]. Qed.

Lemma append_assoc a b c : (a +:+ b) +:+ c = a +:+ b +:+ c.
Proof. induction a as [|x r IH]; simpl; [reflexivity | rewrite IH; reflexivity]. Qed.

Lemma mentions_here x b : mentions x (x +:+ b).
Proof. exists "", b. reflexivity. Qed.

Lemma mentions_end x : mentions x x.
Proof. exists "", "". simpl. rewrite append_empty_r. reflexivity. Qed.

Lemma mentions_skip x p s : mentions x s -> mentions x (p +:+ s).
Proof.
  intros (a & b & ->). exists (p +:+ a), b. rewrite append_assoc. reflexivity.
Qed.

Lemma mentions_cons x c s : mentions x s -> mentions x (String c s).
Proof. apply (mentions_skip x (String c "")). Qed.

Lemma prefix_append p s : String.prefix p (p +:+ s) = true.
Proof.
  induction p as [|c r IH]; simpl; [destruct s; reflexivity|].
  destruct (ascii_dec c c); [exact IH | contradiction].
Qed.

Lemma contains_prefix p s : String.prefix p s = true -> Py.contains p s = true.
Proof. destruct s; simpl; intros ->; reflexivity. Qed.

(** The executable test agrees with [mentions]. *)
Lemma contains_mentions x s : mentions x s -> Py.contains x s = true.
Proof.
  intros (a & b & ->). induction a as [|c r IH].
  - change ("" +:+ x +:+ b) with (x +:+ b). apply contains_prefix, prefix_append.
  - simpl. rewrite IH. apply orb_true_r.
Qed.

End mentions.

Ltac solve_mentions :=
  repeat first
    [ apply mentions_here | apply mentions_end
    | apply mentions_skip | apply mentions_cons ].

(** *** Cleanup *)

(** The three ways the [finally] clause ends. *)
Lemma backup_cleanup_spec ext path w :
  ((path ∉ files w) /\ backup_cleanup ext path w = (Return tt, w)) \/
  ((path ∈ files w) /\ os_remove ext path w = None /\
   backup_cleanup ext path w =
     (Return tt,
      emit (EvLog "backup" INFO "🗑️ Arquivo de backup local removido.")
        (set_files (fun fs => fs ∖ {[path]}) (emit (EvRemove path) w)))) \/
  ((path ∈ files w) /\ exists e,
     os_remove ext path w = Some e /\
     backup_cleanup ext path w = (Raise e, emit (EvRemove path) w)).
Proof.
  unfold backup_cleanup, bind, os_path_exists.
  destruct (decide (path ∈ files w)) as [Hin|Hin].
  - rewrite bool_decide_eq_true_2 by exact Hin. right.
    unfold remove. destruct (os_remove ext path w) as [e|] eqn:He.
    + right. split; [exact Hin|]. exists e. auto.
    + left. auto.
  - rewrite bool_decide_eq_false_2 by exact Hin. left. auto.
Qed.

(** How a run with both collaborators ends. *)
Lemma gerar_backup_exit ext g d s w :
  dumper g = Some d -> storage g = Some s ->
  let path := backup_filepath g d (run_time ext g w) in
  let r := gerar_backup ext g w in
  (r.1 = Return tt /\ (path ∉ files r.2)) \/
  (exists e w1,
     os_remove ext path w1 = Some e /\ (path ∈ files w1) /\
     r.1 = Raise e /\ (path ∈ files r.2) /\ last (trace r.2) = Some (EvRemove path)).
Proof.
  intros Hd Hs path r. subst r. unfold gerar_backup.
  rewrite (gerar_backup_with_unfold ext g _ d s w Hd Hs). fold path.
  unfold try_finally.
  destruct (protected_spec ext g (upload_file ext) d s (run_time ext g w) (tick (run_start w)))
    as (w1 & evs & m & -> & _).
  destruct (backup_cleanup_spec ext path w1) as [[Hn ->]|[(Hin & Hr & ->)|(Hin & e & Hr & ->)]];
    simpl.
  - left. auto.
  - left. split; [reflexivity|].
    intros [_ Hn]%elem_of_difference. apply Hn, elem_of_singleton. reflexivity.
  - right. exists e, w1. rewrite last_snoc. auto.
Qed.

(** C1, as the code has it.  A run that lacks the dumper or the storage
    provider returns at once and touches no file.  Every other run reaches
    the [finally] clause on every path through the [try] statement.  Either
    it returns normally, and then the local file does not exist when it
    ends; or [os.remove] raised on the file, which existed: then the run
    ends with that very exception, the file is still there, and the attempt
    to remove it is the last thing the run did: nothing is logged about the
    failure. *)
Theorem cleanup_on_every_exit_path (ext : externals) (g : globals) (w : world) :
  let r := gerar_backup ext g w in
  match dumper g, storage g with
  | Some d, Some s =>
      let path := backup_filepath g d (run_time ext g w) in
      (r.1 = Return tt /\ (path ∉ files r.2)) \/
      (exists e w1,
         os_remove ext path w1 = Some e /\ (path ∈ files w1) /\
         r.1 = Raise e /\ (path ∈ files r.2) /\
         last (trace r.2) = Some (EvRemove path))
  | _, _ => r.1 = Return tt /\ files r.2 = files w
  end.
Proof.
  intros r. subst r.
  destruct (dumper g) as [d|] eqn:Hd; [destruct (storage g) as [s|] eqn:Hs|].
  - exact (gerar_backup_exit ext g d s w Hd Hs).
  - unfold gerar_backup, gerar_backup_with. rewrite Hd, Hs. auto.
  - unfold gerar_backup, gerar_backup_with. rewrite Hd. auto.
Qed.

(** *** No upload after a failed dump *)

Lemma backup_body_dump_raises ext g up d s t w e w2 :
  dump ext d (backup_filepath g d t) w = (Raise e, w2) ->
  backup_body ext g up d s t w = (Raise e, w2) /\
  dump_and_upload ext g up d s t w = (Raise e, w2).
Proof.
  intros H. unfold backup_body, dump_and_upload, bind. rewrite H. auto.
Qed.

Lemma dump_event_not_storage ev : dump_event ev = true -> negb (storage_event ev) = true.
Proof.
  destruct ev; simpl; try discriminate; try reflexivity.
  destruct (String.eqb_spec logger "backup.db") as [->|]; [reflexivity | discriminate].
Qed.

Lemma main_event_not_storage ev :
  main_log_event ev || email_event ev = true -> negb (storage_event ev) = true.
Proof.
  destruct ev; simpl; try discriminate; try reflexivity.
  destruct (String.eqb_spec logger "backup") as [->|]; [reflexivity | discriminate].
Qed.

Lemma cleanup_event_not_storage ev : cleanup_event ev = true -> negb (storage_event ev) = true.
Proof.
  destruct ev; simpl; try discriminate; try reflexivity.
  destruct (String.eqb_spec logger "backup") as [->|]; [reflexivity | discriminate].
Qed.

Lemma forallb_impl {A} (P Q : A -> bool) l :
  (forall x, P x = true -> Q x = true) -> forallb P l = true -> forallb Q l = true.
Proof.
  intros H. rewrite !forallb_forall. auto.
Qed.

(** C2.  When the dump raises, the run does not call [upload_file]: it
    ends in the same world with the same result whatever method stands for
    [upload_file], and none of the events it adds to the trace is an event
    of the storage provider (no log record of [backup.storage], no client
    created, no request). *)
Theorem no_upload_after_dump_failure
    (ext : externals) (g : globals) (d : DatabaseDumper) (s : StorageProvider)
    (w : world) (e : exn) (w2 : world) :
  dumper g = Some d -> storage g = Some s ->
  dump ext d (backup_filepath g d (run_time ext g w)) (tick (run_start w)) = (Raise e, w2) ->
  (forall up : uploader, gerar_backup_with ext g up w = gerar_backup ext g w) /\
  exists evs,
    trace (gerar_backup ext g w).2 = trace w ++ evs /\
    forallb (fun ev => negb (storage_event ev)) evs = true.
Proof.
  intros Hd Hs Hdump. split.
  - intros up. unfold gerar_backup.
    rewrite !(gerar_backup_with_unfold ext g _ d s w Hd Hs).
    unfold try_finally, protected, try_except.
    destruct (backup_body_dump_raises ext g up d s _ _ _ _ Hdump) as [-> _].
    destruct (backup_body_dump_raises ext g (upload_file ext) d s _ _ _ _ Hdump) as [-> _].
    reflexivity.
  - unfold gerar_backup. rewrite (gerar_backup_with_unfold ext g _ d s w Hd Hs).
    unfold try_finally.
    destruct (protected_spec ext g (upload_file ext) d s (run_time ext g w) (tick (run_start w)))
      as (w1 & evs1 & m & -> & Ht1 & Hp1 & _).
    destruct (backup_body_dump_raises ext g (upload_file ext) d s _ _ _ _ Hdump) as [_ Hst].
    rewrite Hst in Ht1. simpl in Ht1.
    destruct (only_dump ext d (backup_filepath g d (run_time ext g w)) (tick (run_start w)))
      as (evs0 & Ht0 & Hp0).
    rewrite Hdump in Ht0. simpl in Ht0.
    destruct (only_backup_cleanup ext (backup_filepath g d (run_time ext g w)) w1)
      as (evs2 & Ht2 & Hp2).
    exists ([EvLog "backup" INFO "🔄 Iniciando backup..."] ++ evs0 ++ evs1 ++ evs2).
    split.
    + destruct (backup_cleanup ext _ w1) as [[[]|e'] w3]; simpl in *;
        rewrite Ht2, Ht1, Ht0, <- !app_assoc; reflexivity.
    + rewrite !forallb_app. simpl.
      rewrite (forallb_impl _ _ _ dump_event_not_storage Hp0).
      rewrite (forallb_impl _ _ _ main_event_not_storage Hp1).
      rewrite (forallb_impl _ _ _ cleanup_event_not_storage Hp2). reflexivity.
Qed.

(** *** Exactly one notification *)

Lemma not_email_of_dump ev : dump_event ev = true -> negb (email_event ev) = true.
Proof. destruct ev; simpl; try discriminate; reflexivity. Qed.

Lemma not_email_of_storage ev : storage_event ev = true -> negb (email_event ev) = true.
Proof. destruct ev; simpl; try discriminate; reflexivity. Qed.

Lemma not_email_of_cleanup ev : cleanup_event ev = true -> negb (email_event ev) = true.
Proof. destruct ev; simpl; try discriminate; reflexivity. Qed.

(** The two stages send no e-mail. *)
Lemma only_dump_and_upload ext g d s t :
  only (fun ev => negb (email_event ev)) (dump_and_upload ext g (upload_file ext) d s t).
Proof.
  unfold dump_and_upload.
  apply only_bind; [exact (only_weaken _ _ _ not_email_of_dump (only_dump ext d _))|].
  intros _. apply only_bind; [apply only_log; reflexivity|]. intros _.
  exact (only_weaken _ _ _ not_email_of_storage (only_upload_file ext s _ _ _)).
Qed.

(** What the three messages name. *)
Lemma success_body_mentions g d t :
  mentions (Py.fmt (DB_DATABASE g)) (success_body g d t) /\
  mentions (Py.fmt (DB_TYPE g)) (success_body g d t) /\
  mentions (strftime_br t) (success_body g d t) /\
  mentions (TIMEZONE_NAME g) (success_body g d t).
Proof. unfold success_body. repeat split; solve_mentions. Qed.

Lemma dump_failure_body_mentions ext g t e :
  mentions (Py.fmt (DB_DATABASE g)) (dump_failure_body ext g t e) /\
  mentions (Py.fmt (DB_TYPE g)) (dump_failure_body ext g t e) /\
  mentions (strftime_br t) (dump_failure_body ext g t e) /\
  mentions (TIMEZONE_NAME g) (dump_failure_body ext g t e) /\
  mentions (str_exn (signals ext) e) (dump_failure_body ext g t e).
Proof. unfold dump_failure_body. repeat split; solve_mentions. Qed.

Lemma upload_failure_body_mentions ext g t e :
  mentions (Py.fmt (DB_DATABASE g)) (upload_failure_body ext g t e) /\
  mentions (Py.fmt (DB_TYPE g)) (upload_failure_body ext g t e) /\
  mentions (strftime_br t) (upload_failure_body ext g t e) /\
  mentions (TIMEZONE_NAME g) (upload_failure_body ext g t e) /\
  mentions (str_exn (signals ext) e) (upload_failure_body ext g t e).
Proof. unfold upload_failure_body. repeat split; solve_mentions. Qed.

(** Every notification names the database, the engine kind, a local time
    and the timezone; a failure notification also carries the text of the
    exception. *)
Lemma notification_for_mentions ext g d t stage :
  let body := (notification_for ext g d t stage).2 in
  mentions (Py.fmt (DB_DATABASE g)) body /\
  mentions (Py.fmt (DB_TYPE g)) body /\
  mentions (TIMEZONE_NAME g) body /\
  (exists t', mentions (strftime_br t') body) /\
  match stage.1 with
  | Return _ =>
      (notification_for ext g d t stage).1 = "Database Backup - SUCESSO" /\
      mentions (strftime_br t) body
  | Raise e =>
      (notification_for ext g d t stage).1 = "Database Backup - ERRO" /\
      mentions (str_exn (signals ext) e) body
  end.
Proof.
  unfold notification_for. destruct stage as [[k|e] w2]; cbn [fst snd].
  - destruct (success_body_mentions g d t) as (H1 & H2 & H3 & H4). eauto 10.
  - destruct (is_CalledProcessError e).
    + destruct (dump_failure_body_mentions ext g
                  (datetime_now ext (TIMEZONE g)
                     (emit (EvLog "backup" ERROR (failure_log ext g e)) w2)) e)
        as (H1 & H2 & H3 & H4 & H5). eauto 10.
    + destruct (upload_failure_body_mentions ext g
                  (datetime_now ext (TIMEZONE g)
                     (emit (EvLog "backup" ERROR (failure_log ext g e)) w2)) e)
        as (H1 & H2 & H3 & H4 & H5). eauto 10.
Qed.

(** The time stamp of a message is its date and time in digits. *)
Lemma digits_pad2 n : (0 <= n < 100)%Z -> digits 2 n (Py.pad2 n).
Proof.
  intros H. split; [reflexivity|]. unfold decimal_value.
  replace (Py.pad2 n) with (Py.pad2 n +:+ "") by reflexivity.
  rewrite decimal_value_pad2 by lia. reflexivity.
Qed.

Lemma digits_pad4 n : (0 <= n < 10000)%Z -> digits 4 n (Py.pad4 n).
Proof.
  intros H. split; [reflexivity|]. unfold decimal_value.
  replace (Py.pad4 n) with (Py.pad4 n +:+ "") by reflexivity.
  rewrite decimal_value_pad4 by lia. reflexivity.
Qed.

Lemma strftime_br_stamp t : wf_datetime t -> local_stamp t (strftime_br t).
Proof.
  intros (Hy & Hm & Hd & Hh & Hmi & Hs & _).
  exists (Py.pad2 (day t)), (Py.pad2 (month t)), (Py.pad4 (year t)),
    (Py.pad2 (hour t)), (Py.pad2 (minute t)), (Py.pad2 (second t)).
  split; [reflexivity|].
  repeat (split; [first [apply digits_pad2 | apply digits_pad4]; lia|]).
  apply digits_pad2; lia.
Qed.

(** The text of an exception shows its detail. *)
Lemma str_exn_shows sigs e : shows_error sigs e (str_exn sigs e).
Proof.
  destruct e as [msg|msg|rc cmd|code msg|msg|c msg];
    cbn [shows_error str_exn]; try apply mentions_end.
  destruct (rc <? 0)%Z; [destruct (sigs (- rc)%Z) as [name|]|]; cbn [default].
  - split; [solve_mentions|].
    exists ("Command '" +:+ cmd +:+ "' "), ".". rewrite !append_assoc. reflexivity.
  - split; [solve_mentions|].
    exists ("Command '" +:+ cmd +:+ "' "), ".". rewrite !append_assoc. reflexivity.
  - split; [solve_mentions|].
    exists ("Command '" +:+ cmd +:+ "' returned non-zero "), ".".
    rewrite !append_assoc. reflexivity.
Qed.

Lemma dump_failure_body_reports ext g t e :
  reports_error (signals ext) e (dump_failure_body ext g t e).
Proof.
  exists (str_exn (signals ext) e). split; [|apply str_exn_shows].
  unfold dump_failure_body.
  do 10 apply mentions_skip.
  exists (String (ascii_of_nat 10) (String (ascii_of_nat 10) "")), "".
  rewrite append_empty_r. reflexivity.
Qed.

Lemma upload_failure_body_reports ext g t e :
  reports_error (signals ext) e (upload_failure_body ext g t e).
Proof.
  exists (str_exn (signals ext) e). split; [|apply str_exn_shows].
  unfold upload_failure_body.
  do 10 apply mentions_skip.
  exists (String (ascii_of_nat 10) (String (ascii_of_nat 10) "")), "".
  rewrite append_empty_r. reflexivity.
Qed.

(** What a notification names, said without the functions that build its
    text: the database and the kind as configured, the time as a stamp of
    digits, and in a failure message the detail of the exception. *)
Lemma notification_for_details ext g d t stage :
  let body := (notification_for ext g d t stage).2 in
  (forall db, DB_DATABASE g = Some db -> mentions db body) /\
  (forall kind, DB_TYPE g = Some kind -> mentions kind body) /\
  (wf_datetime (notification_time ext g t stage) ->
   exists stamp,
     local_stamp (notification_time ext g t stage) stamp /\ mentions stamp body) /\
  match stage.1 with
  | Return _ => True
  | Raise e => reports_error (signals ext) e body
  end.
Proof.
  intros body.
  destruct (notification_for_mentions ext g d t stage) as (H1 & H2 & _).
  fold body in H1, H2.
  split; [intros db E; rewrite E in H1; exact H1|].
  split; [intros kind E; rewrite E in H2; exact H2|].
  subst body. unfold notification_for, notification_time.
  destruct stage as [[k|e] w2]; cbn [fst snd].
  - split; [|exact I]. intros Hwf. exists (strftime_br t).
    split; [apply strftime_br_stamp, Hwf | apply success_body_mentions].
  - set (t' := datetime_now ext (TIMEZONE g) _).
    destruct (is_CalledProcessError e).
    + split; [|apply dump_failure_body_reports]. intros Hwf. exists (strftime_br t').
      split; [apply strftime_br_stamp, Hwf | apply dump_failure_body_mentions].
    + split; [|apply upload_failure_body_reports]. intros Hwf. exists (strftime_br t').
      split; [apply strftime_br_stamp, Hwf | apply upload_failure_body_mentions].
Qed.

(** C4.  A run that has a dumper and a storage provider hands exactly one
    message to the notifier.  Its subject and body are those of
    [notification_for]: the success message when dump and upload returned,
    the failure message when one of them raised.  The body names the
    database and the engine kind as configured and the timezone; it gives
    the local time (the start of the run on success, the time read in the
    [except] clause on failure) as day/month/year and hour:minute:second in
    digits; a failure message carries, after [Erro:], the detail of the
    exception: the command line of a failed process and its exit status or
    signal, the message of any other exception.  The notifier itself never
    raises: a failure of the delivery is logged, and a run raises only when
    [os.remove] does. *)
Theorem exactly_one_notification
    (ext : externals) (g : globals) (d : DatabaseDumper) (s : StorageProvider) (w : world) :
  dumper g = Some d -> storage g = Some s ->
  let t := run_time ext g w in
  let stage := dump_and_upload ext g (upload_file ext) d s t (tick (run_start w)) in
  let r := gerar_backup ext g w in
  (exists evs m,
     trace r.2 = trace w ++ evs /\ emails_of evs = [m] /\
     (Subject m, payload m) = notification_for ext g d t stage /\
     mentions (Py.fmt (DB_DATABASE g)) (payload m) /\
     mentions (Py.fmt (DB_TYPE g)) (payload m) /\
     mentions (TIMEZONE_NAME g) (payload m) /\
     (exists t', mentions (strftime_br t') (payload m)) /\
     (forall db, DB_DATABASE g = Some db -> mentions db (payload m)) /\
     (forall kind, DB_TYPE g = Some kind -> mentions kind (payload m)) /\
     (wf_datetime (notification_time ext g t stage) ->
      exists stamp,
        local_stamp (notification_time ext g t stage) stamp /\
        mentions stamp (payload m)) /\
     match stage.1 with
     | Return _ =>
         Subject m = "Database Backup - SUCESSO" /\ mentions (strftime_br t) (payload m)
     | Raise e =>
         Subject m = "Database Backup - ERRO" /\
         mentions (str_exn (signals ext) e) (payload m) /\
         reports_error (signals ext) e (payload m)
     end) /\
  (forall assunto corpo w', (enviar_email ext assunto corpo w').1 = Return tt) /\
  (r.1 = Return tt \/
   exists e w1, os_remove ext (backup_filepath g d t) w1 = Some e /\ r.1 = Raise e).
Proof.
  intros Hd Hs t stage r. split; [|split].
  - subst r. unfold gerar_backup.
    rewrite (gerar_backup_with_unfold ext g _ d s w Hd Hs). fold t.
    unfold try_finally.
    destruct (protected_spec ext g (upload_file ext) d s t (tick (run_start w)))
      as (w1 & evs1 & m & -> & Ht1 & Hp1 & Hm & Hn & _).
    fold stage in Ht1, Hn.
    destruct (only_dump_and_upload ext g d s t (tick (run_start w))) as (evs0 & Ht0 & Hp0).
    fold stage in Ht0.
    destruct (only_backup_cleanup ext (backup_filepath g d t) w1) as (evs2 & Ht2 & Hp2).
    apply (forallb_impl _ _ _ not_email_of_cleanup) in Hp2.
    exists ([EvLog "backup" INFO "🔄 Iniciando backup..."] ++ evs0 ++ evs1 ++ evs2), m.
    split.
    { destruct (backup_cleanup ext _ w1) as [[[]|e'] w3]; simpl in *;
        rewrite Ht2, Ht1, Ht0, <- !app_assoc; reflexivity. }
    split.
    { rewrite !emails_of_app, Hm, (emails_of_none _ Hp0), (emails_of_none _ Hp2).
      reflexivity. }
    split; [exact Hn|].
    pose proof (notification_for_mentions ext g d t stage) as Hmen.
    pose proof (notification_for_details ext g d t stage) as Hdet.
    rewrite <- Hn in Hmen, Hdet. cbv zeta in Hmen, Hdet. cbn [fst snd] in Hmen, Hdet.
    destruct Hmen as (M1 & M2 & M3 & M4 & M5).
    destruct Hdet as (D1 & D2 & D3 & D4).
    do 7 (split; [assumption|]).
    revert M5 D4. destruct (stage.1) as [k|e]; intros M5 D4; tauto.
  - intros assunto corpo w'.
    destruct (enviar_email_spec ext assunto corpo w') as (lvl & text & -> & _). reflexivity.
  - destruct (gerar_backup_exit ext g d s w Hd Hs) as [[H _]|(e & w1 & H1 & _ & H2 & _)].
    + left. exact H.
    + right. exists e, w1. auto.
Qed.

(** *** Where the password goes *)

Lemma mentions_trans x s t : mentions x s -> mentions s t -> mentions x t.
Proof.
  intros (a & b & ->) (a' & b' & ->).
  exists (a' +:+ a), (b +:+ b'). rewrite !append_assoc. reflexivity.
Qed.

(** The text of a [CalledProcessError] has the command in it. *)
Lemma str_exn_mentions_cmd sigs rc cmd :
  mentions cmd (str_exn sigs (CalledProcessError rc cmd)).
Proof.
  unfold str_exn. destruct (rc <? 0)%Z; [destruct (sigs (- rc)%Z)|]; solve_mentions.
Qed.

Lemma emails_of_In m evs : In m (emails_of evs) -> In (EvEmail m) evs.
Proof.
  induction evs as [|ev evs IH]; [intros []|].
  unfold emails_of. simpl. fold (emails_of evs).
  destruct ev; simpl; auto. intros [->|H]; auto.
Qed.

(** The command in the [CalledProcessError] of a dumper is the command line
    it ran; for MySQL, MariaDB and SQL Server the password is in it. *)
Lemma dump_raises_command ext d path w rc cmd w2 :
  spawn_failures_apart ext ->
  dump ext d path w = (Raise (CalledProcessError rc cmd), w2) ->
  cls d <> PostgresDumper -> mentions (password d) cmd.
Proof.
  intros Hsp. unfold dump, PostgresDumper_dump, MySQLDumper_dump, MSSQLDumper_dump.
  destruct (cls d);
    unfold bind, log, run_checked, ret; unfold modify; cbv beta iota;
    match goal with
    | |- context [subprocess_run ext ?c ?w'] =>
        destruct (subprocess_run ext c w') as [rc' fs|e] eqn:Hrun;
          [destruct (rc' =? 0)%Z|]
    end;
    intros Hdump Hc; try contradiction; try discriminate Hdump;
    try (injection Hdump as _ <- _; solve_mentions);
    injection Hdump as -> _; apply Hsp in Hrun; discriminate Hrun.
Qed.

(** X21.  The leak of C3 in general: whenever the dump of a MySQL, MariaDB
    or SQL Server dumper raises [CalledProcessError], that is whenever its
    process exits with a non-zero status, the password is in the body of the
    notification and in an error record of the log. *)
Lemma nonzero_exit_leaks_password ext g d s w rc cmd w2 :
  dumper g = Some d -> storage g = Some s -> cls d <> PostgresDumper ->
  spawn_failures_apart ext ->
  dump ext d (backup_filepath g d (run_time ext g w)) (tick (run_start w)) =
    (Raise (CalledProcessError rc cmd), w2) ->
  let r := gerar_backup ext g w in
  exists m text,
    In (EvEmail m) (trace r.2) /\ mentions (password d) (payload m) /\
    In (EvLog "backup" ERROR text) (trace r.2) /\ mentions (password d) text.
Proof.
  intros Hd Hs Hc Hsp Hdump r. subst r. unfold gerar_backup.
  rewrite (gerar_backup_with_unfold ext g _ d s w Hd Hs). unfold try_finally.
  pose proof (dump_raises_command ext d _ _ rc cmd w2 Hsp Hdump Hc) as Hcmd.
  destruct (protected_spec ext g (upload_file ext) d s (run_time ext g w) (tick (run_start w)))
    as (w1 & evs & m & -> & Ht & _ & Hm & Hn & _ & Hl).
  destruct (backup_body_dump_raises ext g (upload_file ext) d s _ _ _ _ Hdump) as [_ Hst].
  rewrite Hst in Ht, Hn, Hl. cbn [fst snd] in Ht, Hl.
  unfold notification_for in Hn. cbn [fst snd is_CalledProcessError] in Hn.
  injection Hn as _ Hp.
  destruct (only_backup_cleanup ext (backup_filepath g d (run_time ext g w)) w1)
    as (evs2 & Ht2 & _).
  exists m, (failure_log ext g (CalledProcessError rc cmd)).
  assert (Htr : trace
            (let (r, w') := backup_cleanup ext (backup_filepath g d (run_time ext g w)) w1 in
             match r with
             | Return _ => (Return tt, w')
             | Raise e => (Raise e, w')
             end).2 = (trace w2 ++ evs) ++ evs2).
  { destruct (backup_cleanup ext _ w1) as [[[]|e'] w3]; simpl in *; rewrite Ht2, Ht; reflexivity. }
  rewrite Htr. repeat split.
  - apply in_or_app. left. apply in_or_app. right.
    apply emails_of_In. rewrite Hm. left. reflexivity.
  - rewrite Hp.
    apply (mentions_trans _ (str_exn (signals ext) (CalledProcessError rc cmd))).
    + apply (mentions_trans _ cmd); [exact Hcmd | apply str_exn_mentions_cmd].
    + apply dump_failure_body_mentions.
  - apply in_or_app. left. apply in_or_app. right. exact Hl.
  - unfold failure_log. cbn [is_CalledProcessError].
    apply mentions_skip.
    apply (mentions_trans _ cmd); [exact Hcmd | apply str_exn_mentions_cmd].
Qed.

(** *** The module body *)

Lemma create_dumper_from_env_database env d :
  create_dumper_from_env env = Return d -> getenv env "DB_DATABASE" = Some (database d).
Proof.
  unfold create_dumper_from_env.
  set (k := Py.strip (Py.lower (getenv_default env "DB_TYPE" ""))).
  destruct (dict_get k _DUMPER_MAP) as [c|]; [|discriminate].
  destruct (String.eqb k "mysql" || String.eqb k "mariadb"); [|destruct c];
    intros H; apply DatabaseDumper_init_fields in H; tauto.
Qed.

Lemma bind_Return_inv {A B} (m : M A) (k : A -> M B) w b w' :
  bind m k w = (Return b, w') ->
  exists a w1, m w = (Return a, w1) /\ k a w1 = (Return b, w').
Proof.
  unfold bind. destruct (m w) as [[a|e] w1]; [eauto | discriminate].
Qed.

(** X23.  After the module body has run, the database name and the kind
    that the notifications print are those of the dumper in use. *)
Lemma main_init_names ext w g w' d :
  main_init ext w = (Return g, w') -> dumper g = Some d ->
  DB_DATABASE g = Some (database d) /\ DB_TYPE g = Some (db_type d).
Proof.
  unfold main_init. intros H.
  apply bind_Return_inv in H as (w0 & w1 & [= <- <-] & H).
  apply bind_Return_inv in H as (z & w2 & _ & H).
  apply bind_Return_inv in H as (dg & w3 & Hdg & H).
  apply bind_Return_inv in H as (sg & w4 & _ & H).
  injection H as <- _. cbn [dumper DB_DATABASE DB_TYPE].
  destruct (create_dumper_from_env (environ w)) as [d'|e] eqn:Hc.
  - apply bind_Return_inv in Hdg as ([] & w5 & _ & [= <- _]). cbn [fst snd].
    intros [= ->]. split; [apply create_dumper_from_env_database, Hc|].
    apply create_dumper_from_env_class in Hc as [_ ->]. reflexivity.
  - destruct e; try discriminate.
    apply bind_Return_inv in Hdg as ([] & w5 & _ & [= <- _]). cbn [fst snd]. discriminate.
Qed.

(** * Concrete runs *)

(** The sample globals are what the module body computes from the sample
    environment. *)
Lemma sample_globals_from_env : (main_init Sample.ext_ok Sample.w0).1 = Return Sample.g0.
Proof. vm_compute. reflexivity. Qed.

(** C1, counterexample.  When [os.remove] raises, the run itself raises
    that exception: the cleanup aborts the run, the local file is still
    there, and no record of the failure is logged: the removal is the last
    event. *)
Lemma cleanup_failure_aborts_run :
  let r := gerar_backup Sample.ext_remove_fails Sample.g0 Sample.w0 in
  r.1 = Raise (OtherError "PermissionError" "[Errno 13] Permission denied") /\
  bool_decide (Sample.local_file ∈ files r.2) = true /\
  last (trace r.2) = Some (EvRemove Sample.local_file) /\
  logged "Permission denied" (trace r.2) = false.
Proof. vm_compute. auto. Qed.

(** C3, at a failing input.  The MySQL dump exits with 2: the password is
    in the error record [main] logs and in the body of the notification,
    because the text of [CalledProcessError] has the whole command line.
    The record the dumper itself logged does not have it. *)
Theorem password_in_log_and_notification :
  let r := gerar_backup Sample.ext_dump_fails Sample.g0 Sample.w0 in
  password Sample.d0 = "s3cr3t" /\
  logged "s3cr3t" (trace r.2) = true /\
  notified "s3cr3t" (trace r.2) = true /\
  logged "s3cr3t" (filter (fun ev => bool_decide (dump_event ev = true)) (trace r.2)) = false.
Proof. vm_compute. auto. Qed.

(** X22.  The only record a dumper logs is the one before it starts its
    process, and that record is the same whatever the password is. *)
Lemma dumper_log_redacts_password ext c h p u db ty path w :
  exists msg, forall pw, exists evs,
    trace (dump ext (Dumper c h p u pw db ty) path w).2 = trace w ++ evs /\
    log_records evs = [("backup.db", INFO, msg)].
Proof.
  destruct c; eexists; intros pw;
    unfold dump, PostgresDumper_dump, MySQLDumper_dump, MSSQLDumper_dump;
    cbn [cls host port user password database db_type];
    unfold bind, log, run_checked, ret; unfold modify; cbv beta iota;
    match goal with
    | |- context [subprocess_run ext ?c ?w'] =>
        destruct (subprocess_run ext c w') as [rc fs|e]; [destruct (rc =? 0)%Z|]
    end;
    cbn [fst snd trace emit set_files set_environ]; rewrite <- app_assoc;
    eexists; (split; [reflexivity|]); reflexivity.
Qed.

(** ** The theorems at the sample inputs *)

Lemma cleanup_on_every_exit_path_witness :
  let r := gerar_backup Sample.ext_ok Sample.g0 Sample.w0 in
  r.1 = Return tt /\ (Sample.local_file ∉ files r.2).
Proof.
  destruct (cleanup_on_every_exit_path Sample.ext_ok Sample.g0 Sample.w0)
    as [H|(e & w1 & H & _)].
  - exact H.
  - discriminate H.
Defined.

Lemma no_upload_after_dump_failure_witness :
  dumper Sample.g0 = Some Sample.d0 /\ storage Sample.g0 = Some Sample.s0 /\
  (exists e w2,
     dump Sample.ext_dump_fails Sample.d0
       (backup_filepath Sample.g0 Sample.d0
          (run_time Sample.ext_dump_fails Sample.g0 Sample.w0))
       (tick (run_start Sample.w0)) = (Raise e, w2)) /\
  ((forall up : uploader,
      gerar_backup_with Sample.ext_dump_fails Sample.g0 up Sample.w0 =
      gerar_backup Sample.ext_dump_fails Sample.g0 Sample.w0) /\
   exists evs,
     trace (gerar_backup Sample.ext_dump_fails Sample.g0 Sample.w0).2 =
       trace Sample.w0 ++ evs /\
     forallb (fun ev => negb (storage_event ev)) evs = true).
Proof.
  split; [reflexivity|]. split; [reflexivity|].
  assert (H : exists e w2,
     dump Sample.ext_dump_fails Sample.d0
       (backup_filepath Sample.g0 Sample.d0
          (run_time Sample.ext_dump_fails Sample.g0 Sample.w0))
       (tick (run_start Sample.w0)) = (Raise e, w2)).
  { eexists _, _. vm_compute. reflexivity. }
  split; [exact H|].
  destruct H as (e & w2 & H).
  exact (no_upload_after_dump_failure Sample.ext_dump_fails Sample.g0 Sample.d0 Sample.s0
           Sample.w0 e w2 eq_refl eq_refl H).
Defined.

Lemma exactly_one_notification_witness :
  dumper Sample.g0 = Some Sample.d0 /\ storage Sample.g0 = Some Sample.s0 /\
  wf_datetime Sample.t0 /\
  (exists evs m,
     trace (gerar_backup Sample.ext_ok Sample.g0 Sample.w0).2 = trace Sample.w0 ++ evs /\
     emails_of evs = [m] /\
     Subject m = "Database Backup - SUCESSO" /\
     payload m =
       "Backup 'backup_shop_20240307_040506.sql' da base de dados 'shop' (mysql) " +:+
       "realizado com sucesso em 07/03/2024 às 04:05:06 (America/Sao_Paulo)!" /\
     mentions "shop" (payload m) /\ mentions "mysql" (payload m) /\
     exists stamp, local_stamp Sample.t0 stamp /\ mentions stamp (payload m)) /\
  (exists evs m cmd,
     trace (gerar_backup Sample.ext_dump_fails Sample.g0 Sample.w0).2 =
       trace Sample.w0 ++ evs /\
     emails_of evs = [m] /\
     Subject m = "Database Backup - ERRO" /\
     (exists stamp, local_stamp Sample.t0 stamp /\ mentions stamp (payload m)) /\
     mentions "mysqldump" cmd /\
     reports_error (signals Sample.ext_dump_fails) (CalledProcessError 2 cmd) (payload m)).
Proof.
  assert (Hwf : wf_datetime Sample.t0) by (vm_compute; repeat split; discriminate).
  split; [reflexivity|]. split; [reflexivity|]. split; [exact Hwf|]. split.
  - destruct (exactly_one_notification Sample.ext_ok Sample.g0 Sample.d0 Sample.s0 Sample.w0
                eq_refl eq_refl)
      as [(evs & m & Ht & Hm & Hn & _ & _ & _ & _ & Hdb & Hty & Hst & _) _].
    set (t := run_time Sample.ext_ok Sample.g0 Sample.w0) in *.
    set (stage := dump_and_upload Sample.ext_ok Sample.g0 (upload_file Sample.ext_ok)
                    Sample.d0 Sample.s0 t (tick (run_start Sample.w0))) in *.
    assert (E : notification_for Sample.ext_ok Sample.g0 Sample.d0 t stage =
                ("Database Backup - SUCESSO",
                 "Backup 'backup_shop_20240307_040506.sql' da base de dados 'shop' (mysql) " +:+
                 "realizado com sucesso em 07/03/2024 às 04:05:06 (America/Sao_Paulo)!"))
      by (vm_compute; reflexivity).
    assert (Et : notification_time Sample.ext_ok Sample.g0 t stage = Sample.t0)
      by (vm_compute; reflexivity).
    rewrite E in Hn. injection Hn as Hs Hp. rewrite Et in Hst.
    exists evs, m. split; [exact Ht|]. split; [exact Hm|]. split; [exact Hs|].
    split; [exact Hp|]. split; [apply Hdb; reflexivity|]. split; [apply Hty; reflexivity|].
    exact (Hst Hwf).
  - destruct (exactly_one_notification Sample.ext_dump_fails Sample.g0 Sample.d0 Sample.s0
                Sample.w0 eq_refl eq_refl)
      as [(evs & m & Ht & Hm & _ & _ & _ & _ & _ & _ & _ & Hst & Hcase) _].
    set (t := run_time Sample.ext_dump_fails Sample.g0 Sample.w0) in *.
    set (stage := dump_and_upload Sample.ext_dump_fails Sample.g0
                    (upload_file Sample.ext_dump_fails)
                    Sample.d0 Sample.s0 t (tick (run_start Sample.w0))) in *.
    assert (Es : exists cmd,
               stage.1 = Raise (CalledProcessError 2 cmd) /\ mentions "mysqldump" cmd).
    { eexists. split; [vm_compute; reflexivity|]. eexists "", _. reflexivity. }
    destruct Es as (cmd & Es & Hcmd).
    assert (Et : notification_time Sample.ext_dump_fails Sample.g0 t stage = Sample.t0)
      by (vm_compute; reflexivity).
    rewrite Es in Hcase. destruct Hcase as (Hs & _ & Hrep). rewrite Et in Hst.
    exists evs, m, cmd. auto 10.
Defined.

Lemma path_policy_witness :
  wf_datetime (datetime_now Sample.ext_ok (path_zone Sample.ext_ok Sample.w0) Sample.w0) /\
  exists base date,
    (_build_destination_path Sample.ext_ok Sample.s0 "backup_shop.sql" Sample.w0).1 =
      Return (base +:+ date +:+ "/" +:+ "backup_shop.sql") /\
    String.length date = 8 /\
    decimal_value date = Some 20240307%Z.
Proof.
  assert (H : wf_datetime
                (datetime_now Sample.ext_ok (path_zone Sample.ext_ok Sample.w0) Sample.w0)).
  { vm_compute. repeat split; discriminate. }
  split; [exact H|].
  destruct (path_policy Sample.ext_ok Sample.s0 "backup_shop.sql" Sample.w0 H)
    as (base & date & Hk & _ & Hl & Hv & _).
  exists base, date. auto.
Defined.

Lemma file_extension_mapping_witness :
  create_dumper_from_env Sample.env0 = Return Sample.d0 /\
  let kind := Py.strip (Py.lower (getenv_default Sample.env0 "DB_TYPE" "")) in
  db_type Sample.d0 = kind /\
  ((kind = "postgres" /\ get_file_extension Sample.d0 = ".sql") \/
   (kind = "mysql" /\ get_file_extension Sample.d0 = ".sql") \/
   (kind = "mariadb" /\ get_file_extension Sample.d0 = ".sql") \/
   (kind = "mssql" /\ get_file_extension Sample.d0 = ".bak")).
Proof.
  assert (H : create_dumper_from_env Sample.env0 = Return Sample.d0)
    by (vm_compute; reflexivity).
  split; [exact H|].
  exact (file_extension_mapping Sample.env0 Sample.d0 H).
Defined.

Lemma upload_file_missing_raises_first_witness :
  (Sample.local_file ∉ files Sample.w0) /\
  exists msg w',
    upload_file Sample.ext_ok Sample.s0 Sample.local_file "backup_shop.sql" None Sample.w0 =
      (Raise (FileNotFoundError msg), w') /\
    trace w' = trace Sample.w0 /\ _client w' = _client Sample.w0 /\ w' = Sample.w0.
Proof.
  assert (H : Sample.local_file ∉ files Sample.w0).
  { apply (bool_decide_eq_false_1 (Sample.local_file ∈ files Sample.w0)).
    vm_compute. reflexivity. }
  split; [exact H|].
  exact (upload_file_missing_raises_first Sample.ext_ok Sample.s0 Sample.local_file
           "backup_shop.sql" None Sample.w0 H).
Defined.

Lemma destination_folder_never_empty_witness :
  (R2Storage_init (Some "https://r2.example") (Some "AKIDEXAMPLE") (Some "wJalrXUt")
     (Some "dumps") (Some "") = Return Sample.s0 \/
   S3Storage_init (Some "AKIDEXAMPLE") (Some "wJalrXUt") (Some "dumps") None
     (Some "https://r2.example") (Some "") = Return Sample.s0) /\
  destination_folder Sample.s0 <> "" /\
  base_folder Sample.s0 <> "".
Proof.
  assert (H : R2Storage_init (Some "https://r2.example") (Some "AKIDEXAMPLE") (Some "wJalrXUt")
     (Some "dumps") (Some "") = Return Sample.s0 \/
   S3Storage_init (Some "AKIDEXAMPLE") (Some "wJalrXUt") (Some "dumps") None
     (Some "https://r2.example") (Some "") = Return Sample.s0).
  { left. vm_compute. reflexivity. }
  split; [exact H|].
  destruct (destination_folder_never_empty _ _ _ _ _ _ _ H) as (H1 & _ & _ & _ & H2 & _).
  auto.
Defined.


(** * Further properties *)

(** ** The dumpers *)

(** A logged command, run to its end. *)
Lemma log_run_outcome ext text command (out : string) w :
  let w1 := emit (EvLog "backup.db" INFO text) w in
  let r := (log "backup.db" INFO text ;;; run_checked ext command ;;; ret out) w in
  trace r.2 = trace w1 ++ [EvSubprocess command (environ w1)] /\
  environ r.2 = environ w1 /\
  match subprocess_run ext command w1 with
  | Exited rc fs =>
      files r.2 = fs /\
      r.1 = if (rc =? 0)%Z then Return out else Raise (CalledProcessError rc command)
  | SpawnFailed e => files r.2 = files w /\ r.1 = Raise e
  end.
Proof.
  unfold bind, log, run_checked, ret; unfold modify; cbv beta iota zeta.
  destruct (subprocess_run ext command _) as [rc fs|e]; [destruct (rc =? 0)%Z|]; auto.
Qed.

(** X1.  Whatever the class, [dump] logs one record, starts exactly one
    process and ends as the process does: it returns the output path when
    the exit status is 0, raises [CalledProcessError] with that status and
    the command line when it is not, and passes on the exception when the
    shell cannot be started.  The files are those the process left. *)
Theorem dump_outcome (ext : externals) (d : DatabaseDumper) (output_path : string) (w : world) :
  exists text command,
    let w1 := launch_world d text w in
    let r := dump ext d output_path w in
    trace r.2 = trace w1 ++ [EvSubprocess command (environ w1)] /\
    environ r.2 = environ w1 /\
    match subprocess_run ext command w1 with
    | Exited rc fs =>
        files r.2 = fs /\
        r.1 = if (rc =? 0)%Z then Return output_path
              else Raise (CalledProcessError rc command)
    | SpawnFailed e => files r.2 = files w /\ r.1 = Raise e
    end.
Proof.
  unfold dump, launch_world, PostgresDumper_dump, MySQLDumper_dump, MSSQLDumper_dump.
  destruct (cls d); eexists _, _.
  - exact (log_run_outcome ext _ _ output_path (set_environ <["PGPASSWORD" := password d]> w)).
  - exact (log_run_outcome ext _ _ output_path w).
  - exact (log_run_outcome ext _ _ output_path w).
Qed.

(** X2.  The MySQL/MariaDB and SQL Server dumpers leave the environment
    alone and put the password on the command line of the process they
    start. *)
Theorem password_on_command_line
    (ext : externals) (d : DatabaseDumper) (output_path : string) (w : world) :
  cls d <> PostgresDumper ->
  let r := dump ext d output_path w in
  environ r.2 = environ w /\
  exists command,
    last (trace r.2) = Some (EvSubprocess command (environ w)) /\
    mentions (password d) command.
Proof.
  intros Hc. unfold dump, PostgresDumper_dump, MySQLDumper_dump, MSSQLDumper_dump.
  destruct (cls d); [contradiction| |];
    unfold bind, log, run_checked, ret; unfold modify; cbv beta iota zeta;
    match goal with
    | |- context [subprocess_run ext ?c ?w'] =>
        destruct (subprocess_run ext c w') as [rc fs|e]; [destruct (rc =? 0)%Z|]
    end; cbn [fst snd trace environ files emit set_files set_environ];
    (split; [reflexivity|]); eexists; rewrite last_snoc;
    (split; [reflexivity|]); solve_mentions.
Qed.

(** X3.  The Postgres dumper starts the same command whatever the password
    is: the password reaches [pg_dump] through [PGPASSWORD] only. *)
Theorem postgres_command_without_password
    (ext : externals) (h p u db ty output_path : string) (w : world) :
  exists command, forall pw,
    last (trace (dump ext (Dumper PostgresDumper h p u pw db ty) output_path w).2) =
    Some (EvSubprocess command (<["PGPASSWORD" := pw]> (environ w))).
Proof.
  eexists. intros pw.
  unfold dump, PostgresDumper_dump. cbn [cls host port user password database].
  unfold bind, log, run_checked, ret; unfold modify; cbv beta iota zeta.
  match goal with
  | |- context [subprocess_run ext ?c ?w'] =>
      destruct (subprocess_run ext c w') as [rc fs|e]; [destruct (rc =? 0)%Z|]
  end; cbn [fst snd trace environ files emit set_files set_environ];
    rewrite last_snoc; reflexivity.
Qed.

(** ** The factories *)

Lemma dict_get_supported k :
  In k SUPPORTED_DB_TYPES <-> exists c, dict_get k _DUMPER_MAP = Some c.
Proof.
  unfold SUPPORTED_DB_TYPES, _DUMPER_MAP. simpl. split.
  - intros [<-|[<-|[<-|[<-|[]]]]]; simpl; eauto.
  - intros [c H].
    destruct (String.eqb_spec k "postgres"); [auto|].
    destruct (String.eqb_spec k "mysql"); [auto|].
    destruct (String.eqb_spec k "mariadb"); [auto|].
    destruct (String.eqb_spec k "mssql"); [auto 6|].
    discriminate.
Qed.

(** What the dumper factory builds. *)
Lemma create_dumper_from_env_eq env c :
  dict_get (kind_of env "DB_TYPE") _DUMPER_MAP = Some c ->
  create_dumper_from_env env =
  DatabaseDumper_init c (getenv env "DB_HOST") (getenv env "DB_PORT") (getenv env "DB_USER")
    (getenv env "DB_PASSWORD") (getenv env "DB_DATABASE") (kind_of env "DB_TYPE").
Proof.
  unfold create_dumper_from_env, kind_of.
  set (k := Py.strip (Py.lower (getenv_default env "DB_TYPE" ""))).
  intros H. rewrite H.
  destruct (dict_get_DUMPER_MAP _ _ H) as [[-> ->]|[[-> ->]|[[-> ->]|[-> ->]]]]; reflexivity.
Qed.

(** X4.  For a plain [DB_TYPE]: the dumper factory returns a dumper exactly
    when [DB_TYPE], in lower case and without the white space at its ends,
    is one of the four supported kinds and each of [DB_HOST], [DB_PORT],
    [DB_USER], [DB_PASSWORD] and [DB_DATABASE] is set and not empty.  The
    dumper it returns has the class the kind maps to, carries the kind as
    its tag (so [mariadb] stays [mariadb]) and the five values of the
    environment. *)
Theorem create_dumper_from_env_succeeds (env : gmap string string) :
  plain_kind env "DB_TYPE" ->
  let kind := kind_of env "DB_TYPE" in
  (succeeds (create_dumper_from_env env) <->
     In kind SUPPORTED_DB_TYPES /\
     nonempty (env !! "DB_HOST") /\ nonempty (env !! "DB_PORT") /\
     nonempty (env !! "DB_USER") /\ nonempty (env !! "DB_PASSWORD") /\
     nonempty (env !! "DB_DATABASE")) /\
  (forall d, create_dumper_from_env env = Return d ->
     dict_get kind _DUMPER_MAP = Some (cls d) /\ db_type d = kind /\
     env !! "DB_HOST" = Some (host d) /\ env !! "DB_PORT" = Some (port d) /\
     env !! "DB_USER" = Some (user d) /\ env !! "DB_PASSWORD" = Some (password d) /\
     env !! "DB_DATABASE" = Some (database d)).
Proof.
  intros _ kind. split.
  - rewrite dict_get_supported. fold kind. split.
    + intros Hs. destruct (dict_get kind _DUMPER_MAP) as [c|] eqn:Hk.
      * rewrite (create_dumper_from_env_eq env c Hk) in Hs.
        apply DatabaseDumper_init_succeeds in Hs. eauto.
      * unfold create_dumper_from_env in Hs. fold (kind_of env "DB_TYPE") in Hs.
        fold kind in Hs. rewrite Hk in Hs. exfalso. exact (succeeds_Raise _ Hs).
    + intros ([c Hk] & Hf). rewrite (create_dumper_from_env_eq env c Hk).
      apply DatabaseDumper_init_succeeds. exact Hf.
  - intros d Hd. destruct (create_dumper_from_env_class env d Hd) as [Hc Ht].
    fold (kind_of env "DB_TYPE") in Hc, Ht. fold kind in Hc, Ht.
    rewrite (create_dumper_from_env_eq env _ Hc) in Hd.
    apply DatabaseDumper_init_fields in Hd. unfold getenv in Hd. tauto.
Qed.

(** X5.  A plain [DB_TYPE] that is missing or not one of the four kinds is
    refused whatever the other variables hold: the factory raises
    [ValueError] with the value, in lower case and without the white space
    at its ends, and the list of accepted ones. *)
Theorem unsupported_db_type (env : gmap string string) :
  plain_kind env "DB_TYPE" ->
  ~ In (kind_of env "DB_TYPE") SUPPORTED_DB_TYPES ->
  create_dumper_from_env env =
  Raise (ValueError
    ("DB_TYPE '" +:+ kind_of env "DB_TYPE" +:+
     "' não suportado. Valores aceitos: postgres, mysql, mariadb, mssql")).
Proof.
  intros _ H. unfold create_dumper_from_env. fold (kind_of env "DB_TYPE").
  destruct (dict_get (kind_of env "DB_TYPE") _DUMPER_MAP) as [c|] eqn:Hk.
  - exfalso. apply H, dict_get_supported. eauto.
  - reflexivity.
Qed.

(** What the storage factory builds. *)
Lemma create_storage_from_env_eq env :
  let kind := kind_of env "STORAGE_TYPE" in
  create_storage_from_env env =
  if String.eqb kind "r2" then
    R2Storage_init (env !! "STORAGE_ENDPOINT_URL") (env !! "STORAGE_ACCESS_KEY_ID")
      (env !! "STORAGE_SECRET_ACCESS_KEY") (env !! "STORAGE_BUCKET_NAME")
      (Some (getenv_default env "STORAGE_DESTINATION_FOLDER" "backups/"))
  else if String.eqb kind "s3" then
    S3Storage_init (env !! "STORAGE_ACCESS_KEY_ID") (env !! "STORAGE_SECRET_ACCESS_KEY")
      (env !! "STORAGE_BUCKET_NAME") (env !! "STORAGE_REGION") (env !! "STORAGE_ENDPOINT_URL")
      (Some (getenv_default env "STORAGE_DESTINATION_FOLDER" "backups/"))
  else
    Raise (ValueError
      ("STORAGE_TYPE '" +:+ kind +:+ "' não suportado. Valores aceitos: r2, s3")).
Proof.
  intros kind. unfold create_storage_from_env. fold (kind_of env "STORAGE_TYPE"). fold kind.
  unfold SUPPORTED_STORAGE_TYPES. simpl.
  destruct (String.eqb kind "r2"), (String.eqb kind "s3"); reflexivity.
Qed.

Lemma or_else_default o d : Py.or_else (Some (default d o)) d = Py.or_else o d.
Proof.
  destruct o as [s|]; simpl; [reflexivity|]. destruct (String.eqb d ""); reflexivity.
Qed.

(** X6.  For a plain [STORAGE_TYPE]: the storage factory returns a
    provider exactly when [STORAGE_TYPE], in lower case and without the
    white space at its ends, is [r2] or [s3], the access key id, the
    secret key and the bucket name are set and not empty, and so is the
    endpoint URL for [r2], the region for [s3].  The folder of the provider
    is [STORAGE_DESTINATION_FOLDER], or [backups/] when that is unset or
    empty. *)
Theorem create_storage_from_env_succeeds (env : gmap string string) :
  plain_kind env "STORAGE_TYPE" ->
  let kind := kind_of env "STORAGE_TYPE" in
  (succeeds (create_storage_from_env env) <->
     ((kind = "r2" /\ nonempty (env !! "STORAGE_ENDPOINT_URL")) \/
      (kind = "s3" /\ nonempty (env !! "STORAGE_REGION"))) /\
     nonempty (env !! "STORAGE_ACCESS_KEY_ID") /\
     nonempty (env !! "STORAGE_SECRET_ACCESS_KEY") /\
     nonempty (env !! "STORAGE_BUCKET_NAME")) /\
  (forall sp, create_storage_from_env env = Return sp ->
     scls sp = (if String.eqb kind "r2" then R2Storage else S3Storage) /\
     destination_folder sp = Py.or_else (env !! "STORAGE_DESTINATION_FOLDER") "backups/" /\
     env !! "STORAGE_BUCKET_NAME" = Some (bucket_name sp) /\
     endpoint_url sp = env !! "STORAGE_ENDPOINT_URL").
Proof.
  intros _ kind. rewrite (create_storage_from_env_eq env). fold kind.
  destruct (String.eqb_spec kind "r2") as [Hr|Hr]; [|destruct (String.eqb_spec kind "s3") as [Hs|Hs]].
  - split.
    + rewrite R2Storage_init_succeeds. rewrite Hr. split; [tauto|].
      intros ([[_ H]|[[=] _]] & Hk). tauto.
    + intros sp H. unfold R2Storage_init in H.
      destruct (Py.truthy _); simpl in H; [|discriminate].
      apply StorageProvider_init_fields in H as (H1 & H2 & _ & _ & _ & H6 & H7).
      rewrite H7. unfold getenv_default. rewrite or_else_default. auto.
  - split.
    + rewrite S3Storage_init_succeeds. rewrite Hs. split; [tauto|].
      intros ([[[=] _]|[_ H]] & Hk). tauto.
    + intros sp H. unfold S3Storage_init in H.
      destruct (Py.truthy _); simpl in H; [|discriminate].
      apply StorageProvider_init_fields in H as (H1 & H2 & _ & _ & _ & H6 & H7).
      rewrite H7. unfold getenv_default. rewrite or_else_default. auto.
  - split.
    + split; [intros H; exfalso; exact (succeeds_Raise _ H)|].
      intros ([[H _]|[H _]] & _); contradiction.
    + discriminate.
Qed.

(** X7.  A plain [STORAGE_TYPE] that is missing or neither [r2] nor [s3]
    is refused with a [ValueError] that names the value, in lower case and
    without the white space at its ends, and the accepted ones. *)
Theorem unsupported_storage_type (env : gmap string string) :
  plain_kind env "STORAGE_TYPE" ->
  kind_of env "STORAGE_TYPE" <> "r2" -> kind_of env "STORAGE_TYPE" <> "s3" ->
  create_storage_from_env env =
  Raise (ValueError
    ("STORAGE_TYPE '" +:+ kind_of env "STORAGE_TYPE" +:+
     "' não suportado. Valores aceitos: r2, s3")).
Proof.
  intros _ H1 H2. rewrite (create_storage_from_env_eq env).
  destruct (String.eqb_spec (kind_of env "STORAGE_TYPE") "r2"); [contradiction|].
  destruct (String.eqb_spec (kind_of env "STORAGE_TYPE") "s3"); [contradiction|].
  reflexivity.
Qed.

(** ** The storage client *)

Lemma client_eq ext sp w :
  client ext sp w =
  match _client w with
  | Some c => (Return c, w)
  | None =>
      match boto3_client ext (client_kwargs sp) w with
      | None => (Return (client_kwargs sp),
                 set_client (Some (client_kwargs sp)) (emit (EvBoto3Client (client_kwargs sp)) w))
      | Some e => (Raise e, emit (EvBoto3Client (client_kwargs sp)) w)
      end
  end.
Proof.
  unfold client, bind, get, _create_client, ret; unfold modify.
  destruct (_client w); [reflexivity|].
  destruct (boto3_client ext (client_kwargs sp) w); reflexivity.
Qed.

(** X8.  The client is created on first use and kept: with a client in
    place nothing is created and the world does not change; without one,
    exactly one client is created from the provider's settings and, when
    that works, stored, so that the next use finds it and creates nothing;
    when the creation raises, nothing is stored and the next use will try
    again. *)
Theorem client_memoised (ext : externals) (sp : StorageProvider) (w : world) :
  let r := client ext sp w in
  match _client w with
  | Some c => r = (Return c, w)
  | None =>
      trace r.2 = trace w ++ [EvBoto3Client (client_kwargs sp)] /\
      match boto3_client ext (client_kwargs sp) w with
      | None =>
          r.1 = Return (client_kwargs sp) /\ _client r.2 = Some (client_kwargs sp) /\
          client ext sp r.2 = (Return (client_kwargs sp), r.2)
      | Some e => r.1 = Raise e /\ _client r.2 = None
      end
  end.
Proof.
  cbv zeta. rewrite client_eq.
  destruct (_client w) as [c|] eqn:Hc; [reflexivity|].
  destruct (boto3_client ext (client_kwargs sp) w) as [e|]; simpl.
  - auto.
  - split; [reflexivity|]. split; [reflexivity|]. split; [reflexivity|].
    rewrite client_eq. reflexivity.
Qed.

(** X9.  A provider built by [R2Storage] asks for its endpoint and the
    region [auto]; one built by [S3Storage] asks for its region, and for an
    endpoint only when one is configured and not empty.  Both pass the two
    keys given at construction. *)
Theorem constructed_client_settings
    (ep ak sk bn rg df : option string) (sp : StorageProvider) :
  (R2Storage_init ep ak sk bn df = Return sp ->
   ep = Some (Py.the ep) /\
   client_kwargs sp = ClientArgs ep (Py.the ak) (Py.the sk) "auto") /\
  (S3Storage_init ak sk bn rg ep df = Return sp ->
   client_kwargs sp =
     ClientArgs (if Py.truthy ep then ep else None) (Py.the ak) (Py.the sk) (Py.the rg)).
Proof.
  unfold R2Storage_init, S3Storage_init. split; intros H.
  - destruct (Py.truthy ep) eqn:He; simpl in H; [|discriminate].
    apply truthy_the in He as [He _].
    apply StorageProvider_init_fields in H as (H1 & H2 & _ & H4 & H5 & _).
    unfold client_kwargs. rewrite H1, H2, H4, H5. auto.
  - destruct (Py.truthy rg) eqn:He; simpl in H; [|discriminate].
    apply StorageProvider_init_fields in H as (H1 & H2 & H3 & H4 & H5 & _).
    unfold client_kwargs. rewrite H1, H2, H3, H4, H5. reflexivity.
Qed.

(** ** Uploads *)

(** [upload_file] on an existing file, by the answers of the provider. *)
Lemma upload_file_present ext sp local_filepath filename metadata w :
  local_filepath ∈ files w ->
  let key := base_folder sp +:+ strftime_Ymd (datetime_now ext (path_zone ext w) w) +:+
             "/" +:+ filename in
  let extra := extra_args_for metadata in
  let w1 := emit (EvLog "backup.storage" INFO ("📤 Iniciando upload: " +:+ key)) (tick w) in
  upload_file ext sp local_filepath filename metadata w =
  match client ext sp w1 with
  | (Raise e, w2) => (Raise e, emit (EvLog "backup.storage" ERROR (upload_error_text ext e)) w2)
  | (Return c, w2) =>
      let w3 := emit (EvS3Upload c local_filepath (bucket_name sp) key extra) w2 in
      match s3_upload_file ext c local_filepath (bucket_name sp) key extra w2 with
      | None =>
          (Return key, emit (EvLog "backup.storage" INFO "✅ Upload concluído com sucesso") w3)
      | Some e => (Raise e, emit (EvLog "backup.storage" ERROR (upload_error_text ext e)) w3)
      end
  end.
Proof.
  intros Hin. cbv zeta. unfold upload_file, bind at 1. unfold os_path_exists.
  rewrite bool_decide_eq_true_2 by exact Hin. cbn [negb].
  unfold bind at 1. rewrite _build_destination_path_eq.
  unfold bind at 1. unfold log at 1. unfold modify at 1.
  fold (extra_args_for metadata).
  unfold try_except. unfold bind at 1.
  destruct (client ext sp _) as [[c|e] w2].
  - unfold bind at 1. unfold boto_upload_file.
    destruct (s3_upload_file ext c _ _ _ _ w2) as [e|].
    + unfold upload_handler, upload_error_text.
      destruct e; unfold bind, log, raise; unfold modify; reflexivity.
    + unfold bind, log, ret; unfold modify. reflexivity.
  - unfold upload_handler, upload_error_text.
    destruct e; unfold bind, log, raise; unfold modify; reflexivity.
Qed.

(** The events of [upload_file] on an existing file. *)
Lemma upload_file_present_events
    (ext : externals) (sp : StorageProvider) (local_filepath filename : string)
    (metadata : option (gmap string string)) (w : world) :
  local_filepath ∈ files w ->
  let key := base_folder sp +:+ strftime_Ymd (datetime_now ext (path_zone ext w) w) +:+
             "/" +:+ filename in
  let request c :=
    EvS3Upload c local_filepath (bucket_name sp) key (extra_args_for metadata) in
  let r := upload_file ext sp local_filepath filename metadata w in
  exists evs,
    trace r.2 = trace w ++ evs /\ forallb storage_event evs = true /\
    files r.2 = files w /\ environ r.2 = environ w /\
    match r.1 with
    | Return k =>
        k = key /\ (exists c, uploads_of evs = [request c]) /\
        last evs = Some (EvLog "backup.storage" INFO "✅ Upload concluído com sucesso")
    | Raise e =>
        last evs = Some (EvLog "backup.storage" ERROR (upload_error_text ext e)) /\
        ((uploads_of evs = [] /\
          exists w', boto3_client ext (client_kwargs sp) w' = Some e) \/
         (exists c w',
            uploads_of evs = [request c] /\
            s3_upload_file ext c local_filepath (bucket_name sp) key
              (extra_args_for metadata) w' = Some e))
    end.
Proof.
  intros Hin key request r. subst r.
  rewrite (upload_file_present ext sp local_filepath filename metadata w Hin). fold key.
  set (w1 := emit _ (tick w)). rewrite client_eq.
  change (_client w1) with (_client w).
  destruct (_client w) as [c|].
  - destruct (s3_upload_file ext c _ _ _ _ w1) as [e|] eqn:Hu.
    + eexists [_; _; _]. cbn [fst snd trace files environ emit tick set_client].
      subst w1. cbn [trace emit tick]. rewrite <- !app_assoc.
      split; [reflexivity|]. split; [reflexivity|]. split; [reflexivity|].
      split; [reflexivity|]. split; [reflexivity|]. right. exists c. eexists. split; [reflexivity | exact Hu].
    + eexists [_; _; _]. cbn [fst snd trace files environ emit tick set_client].
      subst w1. cbn [trace emit tick]. rewrite <- !app_assoc.
      split; [reflexivity|]. split; [reflexivity|]. split; [reflexivity|].
      split; [reflexivity|]. split; [reflexivity|]. split; [exists c; reflexivity | reflexivity].
  - destruct (boto3_client ext (client_kwargs sp) w1) as [e|] eqn:Hb.
    + eexists [_; _; _]. cbn [fst snd trace files environ emit tick set_client].
      subst w1. cbn [trace emit tick]. rewrite <- !app_assoc.
      split; [reflexivity|]. split; [reflexivity|]. split; [reflexivity|].
      split; [reflexivity|]. split; [reflexivity|]. left. split; [reflexivity|]. eexists. exact Hb.
    + destruct (s3_upload_file ext (client_kwargs sp) _ _ _ _ _) as [e|] eqn:Hu.
      * eexists [_; _; _; _]. cbn [fst snd trace files environ emit tick set_client].
        subst w1. cbn [trace emit tick]. rewrite <- !app_assoc.
        split; [reflexivity|]. split; [reflexivity|]. split; [reflexivity|].
        split; [reflexivity|]. split; [reflexivity|]. right. exists (client_kwargs sp). eexists.
        split; [reflexivity | exact Hu].
      * eexists [_; _; _; _]. cbn [fst snd trace files environ emit tick set_client].
        subst w1. cbn [trace emit tick]. rewrite <- !app_assoc.
        split; [reflexivity|]. split; [reflexivity|]. split; [reflexivity|].
        split; [reflexivity|]. split; [reflexivity|]. split; [exists (client_kwargs sp); reflexivity | reflexivity].
Qed.

(** X10.  On an existing file [upload_file] sends at most one request and
    never retries.  When it returns, it returns the key it built, and the
    one request it sent was for that key in the provider's bucket, from the
    local file, with the metadata under [Metadata] (no extra argument at all
    for absent or empty metadata); its last record reports success.  When it
    raises, the exception is the very one the creation of the client or the
    request raised, and its last record is the error record for it.  It
    changes neither the files nor the environment. *)
Theorem upload_file_request
    (ext : externals) (sp : StorageProvider) (local_filepath filename : string)
    (metadata : option (gmap string string)) (w : world) :
  local_filepath ∈ files w ->
  let key := base_folder sp +:+ strftime_Ymd (datetime_now ext (path_zone ext w) w) +:+
             "/" +:+ filename in
  let request c :=
    EvS3Upload c local_filepath (bucket_name sp) key (extra_args_for metadata) in
  let r := upload_file ext sp local_filepath filename metadata w in
  exists evs,
    trace r.2 = trace w ++ evs /\ files r.2 = files w /\ environ r.2 = environ w /\
    match r.1 with
    | Return k =>
        k = key /\ (exists c, uploads_of evs = [request c]) /\
        last evs = Some (EvLog "backup.storage" INFO "✅ Upload concluído com sucesso")
    | Raise e =>
        last evs = Some (EvLog "backup.storage" ERROR (upload_error_text ext e)) /\
        ((uploads_of evs = [] /\
          exists w', boto3_client ext (client_kwargs sp) w' = Some e) \/
         (exists c w',
            uploads_of evs = [request c] /\
            s3_upload_file ext c local_filepath (bucket_name sp) key
              (extra_args_for metadata) w' = Some e))
    end.
Proof.
  intros Hin key request r.
  destruct (upload_file_present_events ext sp local_filepath filename metadata w Hin)
    as (evs & Ht & _ & Hf & He & H).
  exists evs. auto.
Qed.

(** ** The connection test *)

Lemma test_connection_eq ext sp w :
  test_connection ext sp w =
  match client ext sp w with
  | (Raise e, w2) =>
      (Return false,
       emit (EvLog "backup.storage" ERROR
               match e with
               | ClientError code _ => "❌ Falha no teste de conexão: " +:+ default "Unknown" code
               | _ => "❌ Erro inesperado no teste de conexão: " +:+ str_exn (signals ext) e
               end) w2)
  | (Return c, w2) =>
      let w3 := emit (EvS3List c (bucket_name sp) 1) w2 in
      match s3_list_objects_v2 ext c (bucket_name sp) 1 w2 with
      | None =>
          (Return true,
           emit (EvLog "backup.storage" INFO "✅ Conexão com storage testada com sucesso") w3)
      | Some e =>
          (Return false,
           emit (EvLog "backup.storage" ERROR
                   match e with
                   | ClientError code _ =>
                       "❌ Falha no teste de conexão: " +:+ default "Unknown" code
                   | _ => "❌ Erro inesperado no teste de conexão: " +:+
                          str_exn (signals ext) e
                   end) w3)
      end
  end.
Proof.
  unfold test_connection, try_except. unfold bind at 1.
  destruct (client ext sp w) as [[c|e] w2].
  - unfold bind at 1. unfold boto_list_objects_v2.
    destruct (s3_list_objects_v2 ext c _ _ w2) as [e|].
    + destruct e; unfold bind, log, ret; unfold modify; reflexivity.
    + unfold bind, log, ret; unfold modify. reflexivity.
  - destruct e; unfold bind, log, ret; unfold modify; reflexivity.
Qed.

(** X11.  [test_connection] never raises: it answers [true] exactly when a
    client is at hand or can be created and the listing goes through, and
    [false] otherwise, after an error record.  It lists at most one object
    of the provider's bucket, sends no upload, and leaves files and
    environment as they are. *)
Theorem test_connection_reports (ext : externals) (sp : StorageProvider) (w : world) :
  let r := test_connection ext sp w in
  exists b evs,
    r.1 = Return b /\ trace r.2 = trace w ++ evs /\
    files r.2 = files w /\ environ r.2 = environ w /\
    uploads_of evs = [] /\
    (forall c bucket n, In (EvS3List c bucket n) evs -> bucket = bucket_name sp /\ n = 1%Z) /\
    (b = true <->
     exists c w2, client ext sp w = (Return c, w2) /\
                  s3_list_objects_v2 ext c (bucket_name sp) 1 w2 = None) /\
    (b = false -> exists text, last evs = Some (EvLog "backup.storage" ERROR text)).
Proof.
  cbv zeta. rewrite test_connection_eq, client_eq.
  assert (Hin2 : forall (c0 : client_args) (x : event) c bucket n,
            In (EvS3List c bucket n) [EvS3List c0 (bucket_name sp) 1; x] ->
            (forall c' b' n', x <> EvS3List c' b' n') ->
            bucket = bucket_name sp /\ n = 1%Z).
  { intros c0 x c bucket n [[= _ <- <-]|[->|[]]] Hx; [auto|]. exfalso. exact (Hx _ _ _ eq_refl). }
  destruct (_client w) as [c|].
  - destruct (s3_list_objects_v2 ext c (bucket_name sp) 1 w) as [e|] eqn:Hl.
    + eexists false, [EvS3List c (bucket_name sp) 1; EvLog "backup.storage" ERROR _].
      cbn [fst snd trace files environ emit]. rewrite <- !app_assoc.
      split; [reflexivity|]. split; [reflexivity|]. split; [reflexivity|].
      split; [reflexivity|]. split; [reflexivity|].
      split; [intros c' bucket n H; apply (Hin2 _ _ _ _ _ H); discriminate|].
      split; [|eauto].
      split; [discriminate|]. intros (c' & w2 & [= <- <-] & H). congruence.
    + eexists true, [EvS3List c (bucket_name sp) 1; EvLog "backup.storage" INFO _].
      cbn [fst snd trace files environ emit]. rewrite <- !app_assoc.
      split; [reflexivity|]. split; [reflexivity|]. split; [reflexivity|].
      split; [reflexivity|]. split; [reflexivity|].
      split; [intros c' bucket n H; apply (Hin2 _ _ _ _ _ H); discriminate|].
      split; [|discriminate]. split; eauto.
  - destruct (boto3_client ext (client_kwargs sp) w) as [e|] eqn:Hb.
    + eexists false, [EvBoto3Client (client_kwargs sp); EvLog "backup.storage" ERROR _].
      cbn [fst snd trace files environ emit]. rewrite <- !app_assoc.
      split; [reflexivity|]. split; [reflexivity|]. split; [reflexivity|].
      split; [reflexivity|]. split; [reflexivity|].
      split; [intros c' bucket n [[=]|[[=]|[]]]|].
      split; [|eauto].
      split; [discriminate|]. intros (c' & w2 & [=] & _).
    + set (w2 := set_client _ _).
      destruct (s3_list_objects_v2 ext (client_kwargs sp) (bucket_name sp) 1 w2) as [e|] eqn:Hl.
      * eexists false, [EvBoto3Client (client_kwargs sp);
                        EvS3List (client_kwargs sp) (bucket_name sp) 1;
                        EvLog "backup.storage" ERROR _].
        cbn [fst snd trace files environ emit set_client].
        subst w2. cbn [fst snd trace files environ emit set_client]. rewrite <- !app_assoc.
        split; [reflexivity|]. split; [reflexivity|]. split; [reflexivity|].
        split; [reflexivity|]. split; [reflexivity|].
        split; [intros c' bucket n [[=]|H]; apply (Hin2 _ _ _ _ _ H); discriminate|].
        split; [|eauto].
        split; [discriminate|]. intros (c' & w2 & [= <- <-] & H). congruence.
      * eexists true, [EvBoto3Client (client_kwargs sp);
                       EvS3List (client_kwargs sp) (bucket_name sp) 1;
                       EvLog "backup.storage" INFO _].
        cbn [fst snd trace files environ emit set_client].
        subst w2. cbn [fst snd trace files environ emit set_client]. rewrite <- !app_assoc.
        split; [reflexivity|]. split; [reflexivity|]. split; [reflexivity|].
        split; [reflexivity|]. split; [reflexivity|].
        split; [intros c' bucket n [[=]|H]; apply (Hin2 _ _ _ _ _ H); discriminate|].
        split; [|discriminate]. split; eauto.
Qed.

(** ** The notifier *)

(** X12.  [enviar_email] always returns.  It makes one attempt to deliver
    a message with sender and recipient from [EMAIL_FROM] and [EMAIL_TO] and
    the subject and body it was given, then logs one record: of success when
    the attempt ends without an exception, otherwise an error record with
    the text of the exception.  Files and environment stay as they are. *)
Theorem enviar_email_logs_outcome (ext : externals) (assunto corpo : string) (w : world) :
  let msg := Email (environ w !! "EMAIL_FROM") (environ w !! "EMAIL_TO") assunto corpo in
  let r := enviar_email ext assunto corpo w in
  r.1 = Return tt /\ files r.2 = files w /\ environ r.2 = environ w /\
  trace r.2 = trace w ++
    [EvEmail msg;
     match smtp_send ext msg w with
     | None => EvLog "backup" INFO "✉️ E-mail enviado com sucesso."
     | Some e => EvLog "backup" ERROR ("❌ Falha ao enviar e-mail: " +:+ str_exn (signals ext) e)
     end].
Proof.
  unfold enviar_email, try_except, bind, get, smtp_deliver, log; unfold modify, getenv.
  cbv beta iota zeta.
  destruct (smtp_send ext _ w) as [e|]; cbn [fst snd trace files environ emit];
    rewrite <- app_assoc; auto.
Qed.

(** ** Runs that cannot start *)

(** X13.  A run without a dumper, or without a storage provider, logs that
    it starts and that it is cancelled, and does nothing else: no process,
    no request, no message to the notifier, no reading of the clock. *)
Theorem run_without_collaborator (ext : externals) (g : globals) (w : world) :
  dumper g = None \/ storage g = None ->
  exists text,
    gerar_backup ext g w = (Return tt, emit (EvLog "backup" ERROR text) (run_start w)) /\
    mentions "Backup cancelado." text.
Proof.
  intros H. unfold gerar_backup, gerar_backup_with, bind, log, run_start; unfold modify.
  cbv beta iota.
  destruct (dumper g) as [d|]; [destruct (storage g) as [s|]|].
  - destruct H as [[=]|[=]].
  - eexists. split; [reflexivity|].
    exists "❌ Storage não configurado. ", "". reflexivity.
  - eexists. split; [reflexivity|].
    exists "❌ Dumper não configurado. ", "". reflexivity.
Qed.

(** ** The module body *)

Lemma create_dumper_from_env_raises env e :
  create_dumper_from_env env = Raise e -> exists msg, e = ValueError msg.
Proof.
  unfold create_dumper_from_env.
  destruct (dict_get _ _DUMPER_MAP) as [c|]; [|intros [= <-]; eauto].
  unfold MySQLDumper_init, PostgresDumper_init, MSSQLDumper_init, DatabaseDumper_init.
  destruct (_ || _); [|destruct c];
    destruct (negb _); intros [= <-]; eauto.
Qed.

Lemma create_storage_from_env_raises env e :
  create_storage_from_env env = Raise e -> exists msg, e = ValueError msg.
Proof.
  unfold create_storage_from_env.
  destruct (negb (existsb _ _)); [intros [= <-]; eauto|].
  unfold R2Storage_init, S3Storage_init, StorageProvider_init.
  destruct (String.eqb _ "r2");
    destruct (negb (Py.truthy _)); try (intros [= <-]; eauto; fail);
    destruct (negb (Py.all _)); intros [= <-]; eauto.
Qed.

(** X14.  For plain [DB_TYPE] and [STORAGE_TYPE]: the module body never
    raises.  A dumper or a storage provider that cannot be built is left
    unset and an error record says why; an unknown [TIMEZONE] is kept as the
    name to print, the clock is read in [America/Sao_Paulo] instead, and a
    warning is logged.  Nothing but log records is added to the world. *)
Theorem main_init_degrades (ext : externals) (w : world) :
  plain_kind (environ w) "DB_TYPE" -> plain_kind (environ w) "STORAGE_TYPE" ->
  let r := main_init ext w in
  let env := environ w in
  exists g evs,
    r.1 = Return g /\
    trace r.2 = trace w ++ evs /\ forallb main_log_event evs = true /\
    environ r.2 = env /\ files r.2 = files w /\
    dumper g = match create_dumper_from_env env with Return d => Some d | Raise _ => None end /\
    storage g = match create_storage_from_env env with Return s => Some s | Raise _ => None end /\
    TIMEZONE_NAME g = getenv_default env "TIMEZONE" "America/Sao_Paulo" /\
    TIMEZONE g = (if pytz_known ext (TIMEZONE_NAME g) then TIMEZONE_NAME g
                  else "America/Sao_Paulo") /\
    (pytz_known ext (TIMEZONE_NAME g) = false ->
     exists text, In (EvLog "backup" WARNING text) evs) /\
    (forall msg, create_dumper_from_env env = Raise (ValueError msg) ->
     In (EvLog "backup" ERROR ("❌ Erro na configuração do banco de dados: " +:+ msg)) evs) /\
    (forall msg, create_storage_from_env env = Raise (ValueError msg) ->
     In (EvLog "backup" ERROR ("❌ Erro na configuração do storage: " +:+ msg)) evs).
Proof.
  intros _ _. cbv zeta. unfold main_init.
  unfold bind, get, log, ret; unfold modify; cbv beta iota zeta.
  destruct (pytz_known ext (getenv_default (environ w) "TIMEZONE" "America/Sao_Paulo")) eqn:Hz;
    destruct (create_dumper_from_env (environ w)) as [d|ed] eqn:Hd;
    try (destruct (create_dumper_from_env_raises _ _ Hd) as [md ->]);
    destruct (create_storage_from_env (environ w)) as [s|es] eqn:Hs;
    try (destruct (create_storage_from_env_raises _ _ Hs) as [ms ->]);
    cbv beta iota;
    cbn [fst snd trace files environ emit];
    eexists _, _;
    (split; [reflexivity|]);
    (split; [rewrite <- ?app_assoc; reflexivity|]);
    cbn [dumper storage TIMEZONE TIMEZONE_NAME]; rewrite ?Hz;
    (split; [reflexivity|]);
    (split; [reflexivity|]); (split; [reflexivity|]);
    (split; [reflexivity|]); (split; [reflexivity|]);
    (split; [reflexivity|]); (split; [reflexivity|]);
    (split; [first [discriminate | intros _; eexists; simpl; eauto]|]);
    (split; [first [discriminate | intros msg [= <-]; simpl; auto 6]|]);
    first [discriminate | intros msg [= <-]; simpl; auto 6].
Qed.

(** ** File names and folders *)

Section names.

#[local] Arguments String.append !s1 s2 : simpl nomatch.

Lemma pad2_inj n n' :
  (0 <= n < 100)%Z -> (0 <= n' < 100)%Z -> Py.pad2 n = Py.pad2 n' -> n = n'.
Proof.
  intros Hn Hn' H.
  assert (E : decimal_value_from 0 (Py.pad2 n +:+ "") =
              decimal_value_from 0 (Py.pad2 n' +:+ "")) by (rewrite H; reflexivity).
  rewrite !decimal_value_pad2 in E by assumption. simpl in E. injection E. lia.
Qed.

Lemma pad4_inj n n' :
  (0 <= n < 10000)%Z -> (0 <= n' < 10000)%Z -> Py.pad4 n = Py.pad4 n' -> n = n'.
Proof.
  intros Hn Hn' H.
  assert (E : decimal_value_from 0 (Py.pad4 n +:+ "") =
              decimal_value_from 0 (Py.pad4 n' +:+ "")) by (rewrite H; reflexivity).
  rewrite !decimal_value_pad4 in E by assumption. simpl in E. injection E. lia.
Qed.

(** The fields of a timestamp can be read back from any text that starts
    with it. *)
Lemma strftime_Ymd_HMS_fields t r :
  substring 0 4 (strftime_Ymd_HMS t +:+ r) = Py.pad4 (year t) /\
  substring 4 2 (strftime_Ymd_HMS t +:+ r) = Py.pad2 (month t) /\
  substring 6 2 (strftime_Ymd_HMS t +:+ r) = Py.pad2 (day t) /\
  substring 9 2 (strftime_Ymd_HMS t +:+ r) = Py.pad2 (hour t) /\
  substring 11 2 (strftime_Ymd_HMS t +:+ r) = Py.pad2 (minute t) /\
  substring 13 2 (strftime_Ymd_HMS t +:+ r) = Py.pad2 (second t).
Proof. repeat split; try reflexivity. destruct r; reflexivity. Qed.

(** X15.  Two runs of the same dumper use the same local file only if they
    start in the same second: the path determines year, month, day, hour,
    minute and second of the start. *)
Theorem local_file_per_second (g : globals) (d : DatabaseDumper) (t t' : datetime) :
  wf_datetime t -> wf_datetime t' ->
  backup_filepath g d t = backup_filepath g d t' ->
  (year t, month t, day t, hour t, minute t, second t) =
  (year t', month t', day t', hour t', minute t', second t').
Proof.
  intros (Hy & Hm & Hd & HH & HM & HS & _) (Hy' & Hm' & Hd' & HH' & HM' & HS' & _) H.
  unfold backup_filepath, backup_filename in H.
  do 4 apply (inj (String.append _)) in H.
  destruct (strftime_Ymd_HMS_fields t (get_file_extension d)) as (E1 & E2 & E3 & E4 & E5 & E6).
  destruct (strftime_Ymd_HMS_fields t' (get_file_extension d))
    as (E1' & E2' & E3' & E4' & E5' & E6').
  rewrite H in E1, E2, E3, E4, E5, E6.
  rewrite E1' in E1. rewrite E2' in E2. rewrite E3' in E3.
  rewrite E4' in E4. rewrite E5' in E5. rewrite E6' in E6.
  apply pad4_inj in E1; [|lia..]. apply pad2_inj in E2; [|lia..].
  apply pad2_inj in E3; [|lia..]. apply pad2_inj in E4; [|lia..].
  apply pad2_inj in E5; [|lia..]. apply pad2_inj in E6; [|lia..].
  congruence.
Qed.

Lemma rstrip_slash_slashes n : Py.rstrip_slash (slashes n) = "".
Proof. induction n as [|n IH]; simpl; [reflexivity | rewrite IH; reflexivity]. Qed.

Lemma rstrip_slash_app_slashes s n :
  Py.rstrip_slash (s +:+ slashes n) = Py.rstrip_slash s.
Proof.
  induction s as [|c r IH]; simpl.
  - apply rstrip_slash_slashes.
  - rewrite IH. reflexivity.
Qed.

(** X16.  Slashes at the end of the configured folder make no difference:
    a folder and the same folder with any number of slashes appended give
    the same prefix, hence the same keys. *)
Theorem trailing_slashes_ignored (sp sp' : StorageProvider) (n : nat) :
  destination_folder sp <> "" ->
  destination_folder sp' = destination_folder sp +:+ slashes n ->
  base_folder sp' = base_folder sp /\
  forall ext filename w,
    (_build_destination_path ext sp' filename w).1 =
    (_build_destination_path ext sp filename w).1.
Proof.
  intros Hne H.
  assert (Hb : base_folder sp' = base_folder sp).
  { unfold base_folder. rewrite H, rstrip_slash_app_slashes. simpl.
    destruct (String.eqb_spec (destination_folder sp) "") as [E|E]; [contradiction|].
    destruct (String.eqb_spec (destination_folder sp +:+ slashes n) "") as [E'|E'];
      [|reflexivity].
    destruct (destination_folder sp); [contradiction | discriminate]. }
  split; [exact Hb|].
  intros ext filename w. rewrite !_build_destination_path_eq. simpl. rewrite Hb. reflexivity.
Qed.

End names.

(** ** The events of a run *)

Lemma uploads_of_app tr tr' : uploads_of (tr ++ tr') = uploads_of tr ++ uploads_of tr'.
Proof. apply List.filter_app. Qed.

Lemma uploads_of_none (P : event -> bool) evs :
  (forall ev, P ev = true -> upload_event ev = false) ->
  forallb P evs = true -> uploads_of evs = [].
Proof.
  intros HP. induction evs as [|ev evs IH]; [reflexivity|]. simpl.
  intros H. apply andb_prop in H as [H1 H2].
  rewrite (HP ev H1). apply IH, H2.
Qed.

Lemma dump_event_not_upload ev : dump_event ev = true -> upload_event ev = false.
Proof. destruct ev; simpl; try discriminate; reflexivity. Qed.

Lemma main_event_not_upload ev :
  main_log_event ev || email_event ev = true -> upload_event ev = false.
Proof. destruct ev; simpl; try discriminate; reflexivity. Qed.

Lemma cleanup_event_not_upload ev : cleanup_event ev = true -> upload_event ev = false.
Proof. destruct ev; simpl; try discriminate; reflexivity. Qed.

(** A run, as the events of its two stages, then those of the
    notification, then those of the cleanup. *)
Lemma gerar_backup_trace ext g d s w evs0 :
  dumper g = Some d -> storage g = Some s ->
  let t := run_time ext g w in
  let stage := dump_and_upload ext g (upload_file ext) d s t (tick (run_start w)) in
  trace stage.2 = trace (run_start w) ++ evs0 ->
  exists evs1 evs2 m,
    trace (gerar_backup ext g w).2 =
      trace w ++ EvLog "backup" INFO "🔄 Iniciando backup..." :: evs0 ++ evs1 ++ evs2 /\
    forallb (fun ev => main_log_event ev || email_event ev) evs1 = true /\
    emails_of evs1 = [m] /\
    (Subject m, payload m) = notification_for ext g d t stage /\
    forallb cleanup_event evs2 = true /\
    match stage.1 with
    | Return _ => True
    | Raise e => In (EvLog "backup" ERROR (failure_log ext g e)) evs1
    end.
Proof.
  intros Hd Hs t stage H0. unfold gerar_backup.
  rewrite (gerar_backup_with_unfold ext g _ d s w Hd Hs). fold t. unfold try_finally.
  destruct (protected_spec ext g (upload_file ext) d s t (tick (run_start w)))
    as (w1 & evs1 & m & -> & Ht & Hp & Hm & Hn & _ & Hl).
  fold stage in Ht, Hn, Hl.
  destruct (only_backup_cleanup ext (backup_filepath g d t) w1) as (evs2 & Ht2 & Hp2).
  exists evs1, evs2, m.
  split; [|auto].
  destruct (backup_cleanup ext _ w1) as [[[]|e'] w3]; cbn [fst snd] in *;
    rewrite Ht2, Ht, H0; unfold run_start; cbn [trace emit];
    rewrite <- !app_assoc; reflexivity.
Qed.

Lemma run_metadata_nonempty g d t : run_metadata g d t <> ∅.
Proof. unfold run_metadata. apply insert_non_empty. Qed.

Lemma extra_args_for_run g d t :
  extra_args_for (Some (run_metadata g d t)) = <["Metadata" := run_metadata g d t]> ∅.
Proof.
  unfold extra_args_for. rewrite bool_decide_eq_false_2 by apply run_metadata_nonempty.
  reflexivity.
Qed.

(** The events of the two stages. *)
Lemma stage_trace ext g d s t w0 :
  let stage := dump_and_upload ext g (upload_file ext) d s t w0 in
  exists evs,
    trace stage.2 = trace w0 ++ evs /\
    (uploads_of evs = [] \/
     exists c t',
       uploads_of evs =
       [EvS3Upload c (backup_filepath g d t) (bucket_name s)
          (base_folder s +:+ strftime_Ymd t' +:+ "/" +:+ backup_filename g d t)
          (<["Metadata" := run_metadata g d t]> ∅)]) /\
    (forall k, stage.1 = Return k ->
     exists c,
       uploads_of evs =
       [EvS3Upload c (backup_filepath g d t) (bucket_name s) k
          (<["Metadata" := run_metadata g d t]> ∅)]).
Proof.
  cbv zeta.
  assert (E : dump_and_upload ext g (upload_file ext) d s t w0 =
              match dump ext d (backup_filepath g d t) w0 with
              | (Return _, w2) =>
                  upload_file ext s (backup_filepath g d t) (backup_filename g d t)
                    (Some (run_metadata g d t))
                    (emit (EvLog "backup" INFO ("✅ Backup gerado: " +:+ backup_filepath g d t))
                       w2)
              | (Raise e, w2) => (Raise e, w2)
              end).
  { unfold dump_and_upload. unfold bind at 1.
    destruct (dump ext d (backup_filepath g d t) w0) as [[p|e] w2]; reflexivity. }
  rewrite E. clear E.
  destruct (only_dump ext d (backup_filepath g d t) w0) as (evsd & Htd & Hpd).
  destruct (dump ext d (backup_filepath g d t) w0) as [[p|e] w2]; cbn [fst snd] in *.
  - set (w3 := emit _ w2).
    destruct (decide (backup_filepath g d t ∈ files w3)) as [Hin|Hin].
    + destruct (upload_file_present_events ext s (backup_filepath g d t)
                  (backup_filename g d t) (Some (run_metadata g d t)) w3 Hin)
        as (evsu & Htu & Hpu & _ & _ & Hu).
      exists (evsd ++ [EvLog "backup" INFO ("✅ Backup gerado: " +:+ backup_filepath g d t)]
                ++ evsu).
      split.
      { rewrite Htu. subst w3. cbn [trace emit]. rewrite Htd, <- !app_assoc. reflexivity. }
      rewrite !uploads_of_app, (uploads_of_none _ _ dump_event_not_upload Hpd).
      cbn [uploads_of List.filter upload_event app].
      rewrite extra_args_for_run in Hu.
      destruct (upload_file ext s _ _ _ w3) as [[k|e] w4]; cbn [fst snd] in Hu |- *.
      * destruct Hu as (Hk & [c Hc] & _). split.
        -- right. exists c. eexists. exact Hc.
        -- intros k' E. injection E as E. subst k'. exists c. rewrite Hk. exact Hc.
      * split; [|discriminate]. destruct Hu as (_ & [[Hc _]|(c & w' & Hc & _)]).
        -- left. exact Hc.
        -- right. exists c. eexists. exact Hc.
    + rewrite (upload_file_missing ext s _ _ _ w3 Hin). cbn [fst snd].
      exists (evsd ++ [EvLog "backup" INFO ("✅ Backup gerado: " +:+ backup_filepath g d t)]).
      split.
      { subst w3. cbn [trace emit]. rewrite Htd, <- !app_assoc. reflexivity. }
      split; [|discriminate].
      left. rewrite uploads_of_app, (uploads_of_none _ _ dump_event_not_upload Hpd).
      reflexivity.
  - exists evsd. split; [exact Htd|]. split; [|discriminate]. left.
    exact (uploads_of_none _ _ dump_event_not_upload Hpd).
Qed.

(** X17.  A run sends at most one upload request.  It is for the local
    file of the run, in the provider's bucket, under the provider's prefix,
    a date folder and the file name of the run, and it carries exactly five
    metadata entries: the uploader tag, the database, the dumper's kind, the
    start of the run in ISO form and the name of the timezone. *)
Theorem run_upload_request
    (ext : externals) (g : globals) (d : DatabaseDumper) (s : StorageProvider) (w : world) :
  dumper g = Some d -> storage g = Some s ->
  let t := run_time ext g w in
  let md := run_metadata g d t in
  exists evs,
    trace (gerar_backup ext g w).2 = trace w ++ evs /\
    (uploads_of evs = [] \/
     exists c t',
       uploads_of evs =
       [EvS3Upload c (backup_filepath g d t) (bucket_name s)
          (base_folder s +:+ strftime_Ymd t' +:+ "/" +:+ backup_filename g d t)
          (<["Metadata" := md]> ∅)]) /\
    md !! "uploaded-by" = Some "bsource-db-backup" /\
    md !! "database" = Some (database d) /\
    md !! "backup-type" = Some (db_type d) /\
    md !! "upload-timestamp" = Some (isoformat t) /\
    md !! "timezone" = Some (TIMEZONE_NAME g) /\
    size md = 5.
Proof.
  intros Hd Hs t md.
  destruct (stage_trace ext g d s t (tick (run_start w))) as (evs0 & Ht0 & Hu0 & _).
  destruct (gerar_backup_trace ext g d s w evs0 Hd Hs Ht0)
    as (evs1 & evs2 & m & Ht & Hp1 & _ & _ & Hp2 & _).
  exists (EvLog "backup" INFO "🔄 Iniciando backup..." :: evs0 ++ evs1 ++ evs2).
  split; [exact Ht|]. split.
  - change (EvLog "backup" INFO "🔄 Iniciando backup..." :: evs0 ++ evs1 ++ evs2)
      with ([EvLog "backup" INFO "🔄 Iniciando backup..."] ++ evs0 ++ evs1 ++ evs2).
    rewrite !uploads_of_app.
    rewrite (uploads_of_none _ _ main_event_not_upload Hp1).
    rewrite (uploads_of_none _ _ cleanup_event_not_upload Hp2).
    cbn [uploads_of List.filter upload_event app]. rewrite !app_nil_r. exact Hu0.
  - subst md. unfold run_metadata, get_metadata.
    do 5 (split; [by simplify_map_eq|]).
    rewrite !map_size_insert_None by (by simplify_map_eq). reflexivity.
Qed.

(** A run whose two stages raise before anything reaches the storage
    provider. *)
Lemma run_failure_report ext g d s w e w3 evs0 :
  dumper g = Some d -> storage g = Some s ->
  let t := run_time ext g w in
  dump_and_upload ext g (upload_file ext) d s t (tick (run_start w)) = (Raise e, w3) ->
  trace w3 = trace (run_start w) ++ evs0 ->
  forallb (fun ev => negb (storage_event ev)) evs0 = true ->
  forallb (fun ev => negb (email_event ev)) evs0 = true ->
  exists evs m,
    trace (gerar_backup ext g w).2 = trace w ++ evs /\
    emails_of evs = [m] /\
    (Subject m, payload m) = notification_for ext g d t (Raise e, w3) /\
    In (EvLog "backup" ERROR (failure_log ext g e)) evs /\
    forallb (fun ev => negb (storage_event ev)) evs = true.
Proof.
  intros Hd Hs t Hst Ht0 Hs0 He0.
  assert (Ht0' : trace (dump_and_upload ext g (upload_file ext) d s t (tick (run_start w))).2 =
                 trace (run_start w) ++ evs0) by (rewrite Hst; exact Ht0).
  destruct (gerar_backup_trace ext g d s w evs0 Hd Hs Ht0')
    as (evs1 & evs2 & m & Ht & Hp1 & Hm & Hn & Hp2 & Hl).
  fold t in Hn, Hl. rewrite Hst in Hn, Hl. cbn [fst] in Hl.
  exists (EvLog "backup" INFO "🔄 Iniciando backup..." :: evs0 ++ evs1 ++ evs2), m.
  split; [exact Ht|]. split.
  { change (EvLog "backup" INFO "🔄 Iniciando backup..." :: evs0 ++ evs1 ++ evs2)
      with ([EvLog "backup" INFO "🔄 Iniciando backup..."] ++ evs0 ++ evs1 ++ evs2).
    rewrite !emails_of_app, Hm, (emails_of_none _ He0).
    rewrite (emails_of_none evs2) by exact (forallb_impl _ _ _ not_email_of_cleanup Hp2).
    reflexivity. }
  split; [exact Hn|]. split.
  { right. apply in_or_app. right. apply in_or_app. left. exact Hl. }
  cbn [forallb storage_event]. rewrite !forallb_app, Hs0.
  rewrite (forallb_impl _ _ _ main_event_not_storage Hp1).
  rewrite (forallb_impl _ _ _ cleanup_event_not_storage Hp2). reflexivity.
Qed.

(** X18.  An exception of the dump that is not a [CalledProcessError] (the
    shell could not be started, say) is taken by the second [except]
    clause: the run reports it as a failure of the upload, in the log and in
    the notification, although nothing was sent to the storage provider. *)
Theorem dump_error_reported_as_upload_failure
    (ext : externals) (g : globals) (d : DatabaseDumper) (s : StorageProvider)
    (w : world) (e : exn) (w2 : world) :
  dumper g = Some d -> storage g = Some s ->
  dump ext d (backup_filepath g d (run_time ext g w)) (tick (run_start w)) = (Raise e, w2) ->
  is_CalledProcessError e = false ->
  exists evs m t',
    trace (gerar_backup ext g w).2 = trace w ++ evs /\
    emails_of evs = [m] /\
    Subject m = "Database Backup - ERRO" /\
    payload m = upload_failure_body ext g t' e /\
    In (EvLog "backup" ERROR
          ("❌ Erro no upload para " +:+ Py.fmt (STORAGE_TYPE g) +:+ ": " +:+
           str_exn (signals ext) e)) evs /\
    forallb (fun ev => negb (storage_event ev)) evs = true.
Proof.
  intros Hd Hs Hdump He.
  destruct (backup_body_dump_raises ext g (upload_file ext) d s _ _ _ _ Hdump) as [_ Hst].
  destruct (only_dump ext d (backup_filepath g d (run_time ext g w)) (tick (run_start w)))
    as (evs0 & Ht0 & Hp0).
  rewrite Hdump in Ht0. cbn [fst snd] in Ht0.
  destruct (run_failure_report ext g d s w e w2 evs0 Hd Hs Hst Ht0
              (forallb_impl _ _ _ dump_event_not_storage Hp0)
              (forallb_impl _ _ _ not_email_of_dump Hp0))
    as (evs & m & Ht & Hm & Hn & Hl & Hsto).
  unfold notification_for in Hn. cbn [fst snd] in Hn. rewrite He in Hn.
  injection Hn as Hsub Hbody.
  unfold failure_log in Hl. rewrite He in Hl.
  exists evs, m. eexists. eauto 10.
Qed.

(** X19.  When the dump process exits with 0 but the local file is not
    there, [upload_file] raises before anything is sent: the run reports a
    failure of the upload that names the missing file, and no client is
    created and no request made. *)
Theorem missing_dump_file_reported
    (ext : externals) (g : globals) (d : DatabaseDumper) (s : StorageProvider)
    (w : world) (p : string) (w2 : world) :
  dumper g = Some d -> storage g = Some s ->
  let path := backup_filepath g d (run_time ext g w) in
  dump ext d path (tick (run_start w)) = (Return p, w2) ->
  path ∉ files w2 ->
  exists evs m t',
    trace (gerar_backup ext g w).2 = trace w ++ evs /\
    emails_of evs = [m] /\
    Subject m = "Database Backup - ERRO" /\
    payload m =
      upload_failure_body ext g t' (FileNotFoundError ("Arquivo não encontrado: " +:+ path)) /\
    forallb (fun ev => negb (storage_event ev)) evs = true.
Proof.
  intros Hd Hs path Hdump Hnin.
  set (w3 := emit (EvLog "backup" INFO ("✅ Backup gerado: " +:+ path)) w2).
  assert (Hst : dump_and_upload ext g (upload_file ext) d s (run_time ext g w)
                  (tick (run_start w)) =
                (Raise (FileNotFoundError ("Arquivo não encontrado: " +:+ path)), w3)).
  { unfold dump_and_upload. unfold bind at 1. fold path. rewrite Hdump.
    unfold bind at 1. unfold log at 1. unfold modify at 1. fold w3.
    apply upload_file_missing. exact Hnin. }
  destruct (only_dump ext d path (tick (run_start w))) as (evs0 & Ht0 & Hp0).
  rewrite Hdump in Ht0. cbn [fst snd] in Ht0.
  assert (Ht3 : trace w3 = trace (run_start w) ++
                  (evs0 ++ [EvLog "backup" INFO ("✅ Backup gerado: " +:+ path)])).
  { subst w3. cbn [trace emit]. rewrite Ht0, <- app_assoc. reflexivity. }
  destruct (run_failure_report ext g d s w _ w3 _ Hd Hs Hst Ht3)
    as (evs & m & Ht & Hm & Hn & _ & Hsto).
  { rewrite forallb_app, (forallb_impl _ _ _ dump_event_not_storage Hp0). reflexivity. }
  { rewrite forallb_app, (forallb_impl _ _ _ not_email_of_dump Hp0). reflexivity. }
  unfold notification_for in Hn. cbn [fst snd is_CalledProcessError] in Hn.
  injection Hn as Hsub Hbody.
  exists evs, m. eexists. eauto 10.
Qed.

(** X20.  When both stages return, the run has sent exactly one upload
    request, for the key [upload_file] returned, and exactly one message,
    the success message, which names the file of the run. *)
Theorem successful_run
    (ext : externals) (g : globals) (d : DatabaseDumper) (s : StorageProvider)
    (w : world) (key : string) (w3 : world) :
  dumper g = Some d -> storage g = Some s ->
  let t := run_time ext g w in
  dump_and_upload ext g (upload_file ext) d s t (tick (run_start w)) = (Return key, w3) ->
  exists evs c m,
    trace (gerar_backup ext g w).2 = trace w ++ evs /\
    uploads_of evs =
      [EvS3Upload c (backup_filepath g d t) (bucket_name s) key
         (<["Metadata" := run_metadata g d t]> ∅)] /\
    emails_of evs = [m] /\
    Subject m = "Database Backup - SUCESSO" /\
    payload m = success_body g d t /\
    mentions (backup_filename g d t) (payload m).
Proof.
  intros Hd Hs t Hst.
  destruct (stage_trace ext g d s t (tick (run_start w))) as (evs0 & Ht0 & _ & Hk).
  destruct (only_dump_and_upload ext g d s t (tick (run_start w))) as (evs0' & Ht0' & Hp0).
  rewrite Ht0 in Ht0'. apply app_inv_head in Ht0'. subst evs0'.
  destruct (gerar_backup_trace ext g d s w evs0 Hd Hs Ht0)
    as (evs1 & evs2 & m & Ht & Hp1 & Hm & Hn & Hp2 & _).
  fold t in Hn. rewrite Hst in Hk, Hn. destruct (Hk key eq_refl) as [c Hc].
  unfold notification_for in Hn. cbn [fst snd] in Hn. injection Hn as Hsub Hbody.
  exists (EvLog "backup" INFO "🔄 Iniciando backup..." :: evs0 ++ evs1 ++ evs2), c, m.
  split; [exact Ht|].
  change (EvLog "backup" INFO "🔄 Iniciando backup..." :: evs0 ++ evs1 ++ evs2)
    with ([EvLog "backup" INFO "🔄 Iniciando backup..."] ++ evs0 ++ evs1 ++ evs2).
  split.
  { rewrite !uploads_of_app, Hc.
    rewrite (uploads_of_none _ _ main_event_not_upload Hp1).
    rewrite (uploads_of_none _ _ cleanup_event_not_upload Hp2). reflexivity. }
  split.
  { rewrite !emails_of_app, Hm, (emails_of_none _ Hp0).
    rewrite (emails_of_none evs2) by exact (forallb_impl _ _ _ not_email_of_cleanup Hp2).
    reflexivity. }
  split; [exact Hsub|]. split; [exact Hbody|].
  rewrite Hbody. unfold success_body. solve_mentions.
Qed.

(** ** The further properties at sample inputs *)

Lemma password_on_command_line_witness :
  cls Sample.d0 <> PostgresDumper /\
  exists command,
    last (trace (dump Sample.ext_ok Sample.d0 Sample.local_file Sample.w0).2) =
      Some (EvSubprocess command (environ Sample.w0)) /\
    mentions (password Sample.d0) command.
Proof.
  assert (H : cls Sample.d0 <> PostgresDumper) by discriminate.
  split; [exact H|].
  exact (proj2 (password_on_command_line Sample.ext_ok Sample.d0 Sample.local_file
                  Sample.w0 H)).
Defined.

Lemma create_dumper_from_env_succeeds_witness :
  plain_kind Sample.env_nbsp "DB_TYPE" /\
  kind_of Sample.env_nbsp "DB_TYPE" = "mysql" /\
  succeeds (create_dumper_from_env Sample.env_nbsp) /\
  create_dumper_from_env Sample.env_nbsp = Return Sample.d0.
Proof.
  assert (H : plain_kind Sample.env_nbsp "DB_TYPE") by (vm_compute; reflexivity).
  assert (E : create_dumper_from_env Sample.env_nbsp = Return Sample.d0)
    by (vm_compute; reflexivity).
  split; [exact H|]. split; [vm_compute; reflexivity|]. split; [|exact E].
  destruct (create_dumper_from_env_succeeds Sample.env_nbsp H) as [Hiff _].
  apply Hiff. split; [right; left; vm_compute; reflexivity|].
  repeat split; eexists; (split; [vm_compute; reflexivity | discriminate]).
Defined.

Lemma unsupported_db_type_witness :
  let env : gmap string string := {[ "DB_TYPE" := " Oracle " ]} in
  plain_kind env "DB_TYPE" /\
  ~ In (kind_of env "DB_TYPE") SUPPORTED_DB_TYPES /\
  create_dumper_from_env env =
  Raise (ValueError
    "DB_TYPE 'oracle' não suportado. Valores aceitos: postgres, mysql, mariadb, mssql").
Proof.
  intros env.
  assert (Hp : plain_kind env "DB_TYPE") by (vm_compute; reflexivity).
  assert (H : ~ In (kind_of env "DB_TYPE") SUPPORTED_DB_TYPES).
  { intros [H|[H|[H|[H|[]]]]]; vm_compute in H; discriminate H. }
  split; [exact Hp|]. split; [exact H|].
  rewrite (unsupported_db_type env Hp H). vm_compute. reflexivity.
Defined.

Lemma create_storage_from_env_succeeds_witness :
  plain_kind Sample.env_nbsp "STORAGE_TYPE" /\
  kind_of Sample.env_nbsp "STORAGE_TYPE" = "r2" /\
  succeeds (create_storage_from_env Sample.env_nbsp) /\
  create_storage_from_env Sample.env_nbsp = Return Sample.s0.
Proof.
  assert (H : plain_kind Sample.env_nbsp "STORAGE_TYPE") by (vm_compute; reflexivity).
  assert (E : create_storage_from_env Sample.env_nbsp = Return Sample.s0)
    by (vm_compute; reflexivity).
  split; [exact H|]. split; [vm_compute; reflexivity|]. split; [|exact E].
  destruct (create_storage_from_env_succeeds Sample.env_nbsp H) as [Hiff _].
  apply Hiff. split.
  - left. split; [vm_compute; reflexivity|].
    eexists; (split; [vm_compute; reflexivity | discriminate]).
  - repeat split; eexists; (split; [vm_compute; reflexivity | discriminate]).
Defined.

Lemma unsupported_storage_type_witness :
  let env : gmap string string := {[ "STORAGE_TYPE" := "GCS" ]} in
  plain_kind env "STORAGE_TYPE" /\
  kind_of env "STORAGE_TYPE" <> "r2" /\ kind_of env "STORAGE_TYPE" <> "s3" /\
  create_storage_from_env env =
  Raise (ValueError "STORAGE_TYPE 'gcs' não suportado. Valores aceitos: r2, s3").
Proof.
  intros env.
  assert (Hp : plain_kind env "STORAGE_TYPE") by (vm_compute; reflexivity).
  assert (H1 : kind_of env "STORAGE_TYPE" <> "r2") by (vm_compute; discriminate).
  assert (H2 : kind_of env "STORAGE_TYPE" <> "s3") by (vm_compute; discriminate).
  split; [exact Hp|]. split; [exact H1|]. split; [exact H2|].
  rewrite (unsupported_storage_type env Hp H1 H2). vm_compute. reflexivity.
Defined.

Lemma main_init_degrades_witness :
  let w := World Sample.env_nbsp ∅ 0 None [] in
  plain_kind (environ w) "DB_TYPE" /\ plain_kind (environ w) "STORAGE_TYPE" /\
  exists g evs,
    (main_init Sample.ext_ok w).1 = Return g /\
    trace (main_init Sample.ext_ok w).2 = trace w ++ evs /\
    forallb main_log_event evs = true /\
    dumper g = Some Sample.d0 /\ storage g = Some Sample.s0.
Proof.
  intros w.
  assert (H1 : plain_kind (environ w) "DB_TYPE") by (vm_compute; reflexivity).
  assert (H2 : plain_kind (environ w) "STORAGE_TYPE") by (vm_compute; reflexivity).
  split; [exact H1|]. split; [exact H2|].
  destruct (main_init_degrades Sample.ext_ok w H1 H2)
    as (g & evs & Hr & Ht & Hp & _ & _ & Hd & Hs & _).
  assert (Ed : create_dumper_from_env (environ w) = Return Sample.d0)
    by (vm_compute; reflexivity).
  assert (Es : create_storage_from_env (environ w) = Return Sample.s0)
    by (vm_compute; reflexivity).
  rewrite Ed in Hd. rewrite Es in Hs.
  exists g, evs. auto 10.
Defined.

Lemma upload_file_request_witness :
  let w := World Sample.env0 {[Sample.local_file]} 0 None [] in
  (Sample.local_file ∈ files w) /\
  exists evs,
    trace (upload_file Sample.ext_ok Sample.s0 Sample.local_file "backup_shop.sql" None w).2 =
      trace w ++ evs /\
    files (upload_file Sample.ext_ok Sample.s0 Sample.local_file "backup_shop.sql" None w).2 =
      files w.
Proof.
  intros w.
  assert (H : Sample.local_file ∈ files w).
  { apply (bool_decide_eq_true_1 (Sample.local_file ∈ files w)). vm_compute. reflexivity. }
  split; [exact H|].
  destruct (upload_file_request Sample.ext_ok Sample.s0 Sample.local_file "backup_shop.sql"
              None w H) as (evs & Ht & Hf & _).
  exists evs. auto.
Defined.

Lemma run_without_collaborator_witness :
  let g := Globals "UTC" "UTC" None None None (Some Sample.s0) (Some "r2") in
  (dumper g = None \/ storage g = None) /\
  exists text,
    gerar_backup Sample.ext_ok g Sample.w0 =
      (Return tt, emit (EvLog "backup" ERROR text) (run_start Sample.w0)) /\
    mentions "Backup cancelado." text.
Proof.
  intros g.
  assert (H : dumper g = None \/ storage g = None) by (left; reflexivity).
  split; [exact H|]. exact (run_without_collaborator Sample.ext_ok g Sample.w0 H).
Defined.

Lemma local_file_per_second_witness :
  wf_datetime Sample.t0 /\
  backup_filepath Sample.g0 Sample.d0 Sample.t0 = Sample.local_file /\
  (year Sample.t0, month Sample.t0, day Sample.t0,
   hour Sample.t0, minute Sample.t0, second Sample.t0) =
  (2024, 3, 7, 4, 5, 6)%Z.
Proof.
  assert (H : wf_datetime Sample.t0) by (vm_compute; repeat split; discriminate).
  split; [exact H|]. split; [reflexivity|].
  exact (local_file_per_second Sample.g0 Sample.d0 Sample.t0 Sample.t0 H H eq_refl).
Defined.

Lemma trailing_slashes_ignored_witness :
  let sp' := Storage R2Storage (Some "https://r2.example") None "AKIDEXAMPLE" "wJalrXUt"
               "dumps" "backups///" in
  destination_folder Sample.s0 <> "" /\
  destination_folder sp' = destination_folder Sample.s0 +:+ slashes 2 /\
  base_folder sp' = base_folder Sample.s0.
Proof.
  intros sp'.
  assert (H1 : destination_folder Sample.s0 <> "") by discriminate.
  assert (H2 : destination_folder sp' = destination_folder Sample.s0 +:+ slashes 2)
    by reflexivity.
  split; [exact H1|]. split; [exact H2|].
  exact (proj1 (trailing_slashes_ignored Sample.s0 sp' 2 H1 H2)).
Defined.

Lemma run_upload_request_witness :
  dumper Sample.g0 = Some Sample.d0 /\ storage Sample.g0 = Some Sample.s0 /\
  exists evs,
    trace (gerar_backup Sample.ext_ok Sample.g0 Sample.w0).2 = trace Sample.w0 ++ evs /\
    length (uploads_of evs) <= 1.
Proof.
  split; [reflexivity|]. split; [reflexivity|].
  destruct (run_upload_request Sample.ext_ok Sample.g0 Sample.d0 Sample.s0 Sample.w0
              eq_refl eq_refl) as (evs & Ht & [Hu|(c & t' & Hu)] & _);
    exists evs; rewrite Hu; simpl; auto.
Defined.

Lemma dump_error_reported_as_upload_failure_witness :
  let e := OtherError "FileNotFoundError" "[Errno 2] No such file or directory: '/bin/sh'" in
  let ext := Sample.externals_with (fun _ _ => SpawnFailed e) (fun _ _ => None) in
  dumper Sample.g0 = Some Sample.d0 /\ storage Sample.g0 = Some Sample.s0 /\
  is_CalledProcessError e = false /\
  exists evs m,
    trace (gerar_backup ext Sample.g0 Sample.w0).2 = trace Sample.w0 ++ evs /\
    emails_of evs = [m] /\ Subject m = "Database Backup - ERRO" /\
    mentions "Falha no upload" (payload m).
Proof.
  intros e ext.
  split; [reflexivity|]. split; [reflexivity|]. split; [reflexivity|].
  assert (H : exists w2,
    dump ext Sample.d0 (backup_filepath Sample.g0 Sample.d0 (run_time ext Sample.g0 Sample.w0))
      (tick (run_start Sample.w0)) = (Raise e, w2)).
  { eexists. vm_compute. reflexivity. }
  destruct H as [w2 H].
  destruct (dump_error_reported_as_upload_failure ext Sample.g0 Sample.d0 Sample.s0 Sample.w0
              e w2 eq_refl eq_refl H eq_refl) as (evs & m & t' & Ht & Hm & Hs & Hp & _).
  exists evs, m. rewrite Hp. repeat split; auto.
  unfold upload_failure_body.
  eexists "", _. reflexivity.
Defined.

Lemma missing_dump_file_reported_witness :
  let ext := Sample.externals_with (fun _ w => Exited 0 (files w)) (fun _ _ => None) in
  dumper Sample.g0 = Some Sample.d0 /\ storage Sample.g0 = Some Sample.s0 /\
  exists evs m,
    trace (gerar_backup ext Sample.g0 Sample.w0).2 = trace Sample.w0 ++ evs /\
    emails_of evs = [m] /\ Subject m = "Database Backup - ERRO" /\
    mentions ("Arquivo não encontrado: " +:+ Sample.local_file) (payload m) /\
    forallb (fun ev => negb (storage_event ev)) evs = true.
Proof.
  intros ext.
  split; [reflexivity|]. split; [reflexivity|].
  assert (H : exists p w2,
    dump ext Sample.d0 (backup_filepath Sample.g0 Sample.d0 (run_time ext Sample.g0 Sample.w0))
      (tick (run_start Sample.w0)) = (Return p, w2) /\
    bool_decide (backup_filepath Sample.g0 Sample.d0 (run_time ext Sample.g0 Sample.w0)
                   ∈ files w2) = false).
  { eexists _, _. split; vm_compute; reflexivity. }
  destruct H as (p & w2 & H & Hn). apply bool_decide_eq_false_1 in Hn.
  destruct (missing_dump_file_reported ext Sample.g0 Sample.d0 Sample.s0 Sample.w0
              p w2 eq_refl eq_refl H Hn) as (evs & m & t' & Ht & Hm & Hs & Hp & Hsto).
  exists evs, m. rewrite Hp. repeat split; auto.
  unfold upload_failure_body, str_exn. solve_mentions.
Defined.

Lemma nonzero_exit_leaks_password_witness :
  dumper Sample.g0 = Some Sample.d0 /\ storage Sample.g0 = Some Sample.s0 /\
  cls Sample.d0 <> PostgresDumper /\
  spawn_failures_apart Sample.ext_dump_fails /\
  (exists rc cmd w2,
     dump Sample.ext_dump_fails Sample.d0
       (backup_filepath Sample.g0 Sample.d0
          (run_time Sample.ext_dump_fails Sample.g0 Sample.w0))
       (tick (run_start Sample.w0)) = (Raise (CalledProcessError rc cmd), w2)) /\
  exists m text,
    In (EvEmail m) (trace (gerar_backup Sample.ext_dump_fails Sample.g0 Sample.w0).2) /\
    mentions (password Sample.d0) (payload m) /\
    In (EvLog "backup" ERROR text)
       (trace (gerar_backup Sample.ext_dump_fails Sample.g0 Sample.w0).2) /\
    mentions (password Sample.d0) text.
Proof.
  assert (Hc : cls Sample.d0 <> PostgresDumper) by discriminate.
  assert (Hsp : spawn_failures_apart Sample.ext_dump_fails)
    by (intros c w e; discriminate).
  assert (Hdump : exists rc cmd w2,
     dump Sample.ext_dump_fails Sample.d0
       (backup_filepath Sample.g0 Sample.d0
          (run_time Sample.ext_dump_fails Sample.g0 Sample.w0))
       (tick (run_start Sample.w0)) = (Raise (CalledProcessError rc cmd), w2)).
  { eexists _, _, _. vm_compute. reflexivity. }
  split; [reflexivity|]. split; [reflexivity|]. split; [exact Hc|].
  split; [exact Hsp|]. split; [exact Hdump|].
  destruct Hdump as (rc & cmd & w2 & Hdump).
  exact (nonzero_exit_leaks_password Sample.ext_dump_fails Sample.g0 Sample.d0 Sample.s0
           Sample.w0 rc cmd w2 eq_refl eq_refl Hc Hsp Hdump).
Defined.

Lemma main_init_names_witness :
  exists w',
    main_init Sample.ext_ok Sample.w0 = (Return Sample.g0, w') /\
    DB_DATABASE Sample.g0 = Some (database Sample.d0) /\
    DB_TYPE Sample.g0 = Some (db_type Sample.d0).
Proof.
  assert (H : exists w', main_init Sample.ext_ok Sample.w0 = (Return Sample.g0, w')).
  { eexists. vm_compute. reflexivity. }
  destruct H as [w' H]. exists w'. split; [exact H|].
  exact (main_init_names Sample.ext_ok Sample.w0 Sample.g0 w' Sample.d0 H eq_refl).
Defined.

Lemma successful_run_witness :
  dumper Sample.g0 = Some Sample.d0 /\ storage Sample.g0 = Some Sample.s0 /\
  exists evs c m,
    trace (gerar_backup Sample.ext_ok Sample.g0 Sample.w0).2 = trace Sample.w0 ++ evs /\
    uploads_of evs =
      [EvS3Upload c Sample.local_file "dumps"
         "backups/20240307/backup_shop_20240307_040506.sql"
         (<["Metadata" := run_metadata Sample.g0 Sample.d0 Sample.t0]> ∅)] /\
    emails_of evs = [m] /\ Subject m = "Database Backup - SUCESSO".
Proof.
  split; [reflexivity|]. split; [reflexivity|].
  assert (H : exists w3,
    dump_and_upload Sample.ext_ok Sample.g0 (upload_file Sample.ext_ok) Sample.d0 Sample.s0
      (run_time Sample.ext_ok Sample.g0 Sample.w0) (tick (run_start Sample.w0)) =
    (Return "backups/20240307/backup_shop_20240307_040506.sql", w3)).
  { eexists. vm_compute. reflexivity. }
  destruct H as [w3 H].
  destruct (successful_run Sample.ext_ok Sample.g0 Sample.d0 Sample.s0 Sample.w0 _ w3
              eq_refl eq_refl H) as (evs & c & m & Ht & Hu & Hm & Hs & _).
  exists evs, c, m. auto.
Defined.
